(** * JIA-Connect: the prescription validation engine, embedded in Rocq

    The development follows these source files:
    - [ai_backend/agents/tripulacion.py]   ([ejecutar_validacion_medica]),
    - [ai_backend/tools/mis_herramientas.py] ([ConsultarGuiaRAGTool._run],
      [ProcesarRecetaTool._run]),
    - [ai_engine/auditor.py] ([AgenteAuditor.validar_pauta]),
    - [ai_engine/structurer.py] ([AgenteMatematico.calcular_dosis_exactas],
      [AgenteEstructurador.estructurar_texto]),
    - [backend/main.py] ([procesar_receta]),
    - [ai_backend/agents/run_tripulacion.py] ([_read_payload],
      [_render_output], [main]).

    Python values are modelled as the interpreter has them: a [str] is a
    list of Unicode code points, a [float] is an IEEE 754 binary64 number
    ([spec_float] with precision 53 and exponent bound 1024), an [int] is
    a [Z], a [dict] is an association list in insertion order, and an
    exception is a value of an error monad.

    The vector stores, the completion services and the library functions
    [json.dumps], [json.loads], [str] on containers and [float] on a
    text in [main] are parameters. What the functions print is left out.

    The case of a character and the classes [\d], [\w] and [\b] are the
    interpreter's on Basic Latin and the Latin-1 Supplement; a code point
    beyond them is taken as a character without case that is neither a
    digit nor part of a word, except that [str.lower] turns U+0130 into
    two characters, as the interpreter does. A statement that depends on
    word boundaries in an arbitrary text takes a text of Latin-1
    characters. [int] refuses a numeral of more than 4300 digits, as the
    interpreter does since Python 3.11; the statements that a whole
    validation returns take texts of at most 4300 characters. *)

From Stdlib Require Import ZArith NArith PArith Lia List Bool String Ascii.
From Stdlib Require Import Floats.SpecFloat Numbers.DecimalString.
Import ListNotations.

Set Implicit Arguments.
Set Warnings "-register-all".

(* ================================================================== *)
(** * Python strings *)
(* ================================================================== *)

Module PyStr.

(** A Python [str]: the sequence of its code points. *)
Definition pystr := list N.

Fixpoint bytes_of (s : string) : list N :=
  match s with
  | EmptyString => []
  | String a t => N_of_ascii a :: bytes_of t
  end.

(** UTF-8 decoding of the bytes of a literal of this file. *)
Fixpoint utf8_decode (fuel : nat) (l : list N) : pystr :=
  match fuel with
  | O => []
  | S fuel' =>
    match l with
    | [] => []
    | b0 :: t0 =>
      if (b0 <? 128)%N then b0 :: utf8_decode fuel' t0
      else if (b0 <? 224)%N then
        match t0 with
        | b1 :: t1 =>
          ((b0 - 192) * 64 + (b1 - 128))%N :: utf8_decode fuel' t1
        | _ => []
        end
      else if (b0 <? 240)%N then
        match t0 with
        | b1 :: b2 :: t2 =>
          ((b0 - 224) * 4096 + (b1 - 128) * 64 + (b2 - 128))%N
            :: utf8_decode fuel' t2
        | _ => []
        end
      else
        match t0 with
        | b1 :: b2 :: b3 :: t3 =>
          ((b0 - 240) * 262144 + (b1 - 128) * 4096
           + (b2 - 128) * 64 + (b3 - 128))%N :: utf8_decode fuel' t3
        | _ => []
        end
    end
  end.

(** [u "..."] is the Python string written by the literal. *)
Definition u (s : string) : pystr :=
  let b := bytes_of s in utf8_decode (List.length b) b.

Fixpoint str_eqb (a b : pystr) : bool :=
  match a, b with
  | [], [] => true
  | x :: a', y :: b' => (x =? y)%N && str_eqb a' b'
  | _, _ => false
  end.

(** ** Case mapping

    The case of one code point is modelled on Basic Latin and the
    Latin-1 Supplement, the repertoire of the Spanish texts the engine
    reads; any other code point is left as it is. *)
Definition lower_cp (c : N) : N :=
  if ((65 <=? c) && (c <=? 90))%N then (c + 32)%N
  else if ((192 <=? c) && (c <=? 222) && negb (c =? 215))%N then (c + 32)%N
  else c.

Definition upper_cp (c : N) : N :=
  if ((97 <=? c) && (c <=? 122))%N then (c - 32)%N
  else if ((224 <=? c) && (c <=? 254) && negb (c =? 247))%N then (c - 32)%N
  else if (c =? 255)%N then 376%N
  else if (c =? 181)%N then 924%N
  else c.

(** The lower case of one character as [str.lower] writes it. U+0130
    (capital I with dot above) is the one code point whose lower case is
    longer than itself: an "i" and the combining dot U+0307. *)
Definition lower_full (c : N) : pystr :=
  if (c =? 304)%N then [105%N; 775%N] else [lower_cp c].

(** [s.lower()] *)
Definition lower (s : pystr) : pystr := flat_map lower_full s.

(** The title case of one character: the sharp s (U+00DF) becomes "Ss". *)
Definition title_full (c : N) : pystr :=
  if (c =? 223)%N then [83%N; 115%N] else [upper_cp c].

(** [s.capitalize()]: first character in title case, the rest lower-cased. *)
Definition capitalize (s : pystr) : pystr :=
  match s with
  | [] => []
  | c :: t => title_full c ++ lower t
  end.

(** A text of Basic Latin and Latin-1 characters. *)
Definition texto_latino (s : pystr) : Prop := Forall (fun c => (c < 256)%N) s.

(** ** Character classes of [str.isspace], [\s], [\d] and [\w] *)
Definition is_space (c : N) : bool :=
  (((9 <=? c) && (c <=? 13)) || ((28 <=? c) && (c <=? 32))
   || (c =? 133) || (c =? 160) || (c =? 5760)
   || ((8192 <=? c) && (c <=? 8202))
   || (c =? 8232) || (c =? 8233) || (c =? 8239) || (c =? 8287)
   || (c =? 12288))%N.

Definition is_digit (c : N) : bool := ((48 <=? c) && (c <=? 57))%N.

(** Alphanumeric code points of Basic Latin and Latin-1, and [_]. *)
Definition is_word (c : N) : bool :=
  (is_digit c || ((65 <=? c) && (c <=? 90)) || ((97 <=? c) && (c <=? 122))
   || (c =? 95)
   || (c =? 170) || (c =? 178) || (c =? 179) || (c =? 181)
   || (c =? 185) || (c =? 186) || ((188 <=? c) && (c <=? 190))
   || ((192 <=? c) && (c <=? 214)) || ((216 <=? c) && (c <=? 246))
   || ((248 <=? c) && (c <=? 255)))%N.

(** ** Searching *)
Fixpoint starts_with (p s : pystr) : bool :=
  match p, s with
  | [], _ => true
  | _ :: _, [] => false
  | a :: p', b :: s' => (a =? b)%N && starts_with p' s'
  end.

(** [p in s] *)
Fixpoint contains (p s : pystr) : bool :=
  starts_with p s ||
  match s with
  | [] => false
  | _ :: s' => contains p s'
  end.

Fixpoint find_from (p s : pystr) (i : nat) : option nat :=
  if starts_with p s then Some i
  else match s with
       | [] => None
       | _ :: s' => find_from p s' (S i)
       end.

Fixpoint rfind_from (p s : pystr) (i : nat) : option nat :=
  match s with
  | [] => if starts_with p s then Some i else None
  | _ :: s' =>
    match rfind_from p s' (S i) with
    | Some j => Some j
    | None => if starts_with p s then Some i else None
    end
  end.

Definition index_or_minus1 (o : option nat) : Z :=
  match o with
  | Some i => Z.of_nat i
  | None => (-1)%Z
  end.

(** [s.find(p)] and [s.rfind(p)]: lowest and highest index, or [-1]. *)
Definition find (s p : pystr) : Z := index_or_minus1 (find_from p s 0).
Definition rfind (s p : pystr) : Z := index_or_minus1 (rfind_from p s 0).

(** ** Slicing: [s[a:b]] with Python's treatment of negative and
    out-of-range bounds. *)
Definition clamp_index (n : nat) (i : Z) : nat :=
  let i' := if (i <? 0)%Z then (i + Z.of_nat n)%Z else i in
  if (i' <? 0)%Z then O
  else if (Z.of_nat n <? i')%Z then n
  else Z.to_nat i'.

(** The characters at positions [a], ..., [b - 1]. *)
Definition substr (s : pystr) (a b : nat) : pystr :=
  firstn (b - a) (skipn a s).

Definition slice (s : pystr) (a b : Z) : pystr :=
  let n := List.length s in
  substr s (clamp_index n a) (clamp_index n b).

(** [s[:b]] *)
Definition slice_to (s : pystr) (b : Z) : pystr := slice s 0 b.

(** ** Editing *)
(** [s.replace(a, b)] for one-character [a] and [b]. *)
Definition replace_cp (a b : N) (s : pystr) : pystr :=
  map (fun c => if (c =? a)%N then b else c) s.

Fixpoint lstrip (s : pystr) : pystr :=
  match s with
  | c :: t => if is_space c then lstrip t else s
  | [] => []
  end.

(** [s.strip()] *)
Definition strip (s : pystr) : pystr := rev (lstrip (rev (lstrip s))).

(** [sep.join(l)] *)
Fixpoint join (sep : pystr) (l : list pystr) : pystr :=
  match l with
  | [] => []
  | [x] => x
  | x :: t => x ++ sep ++ join sep t
  end.

(** [os.path.basename]: what follows the last [/]. *)
Definition basename (s : pystr) : pystr :=
  match rfind_from [47%N] s 0 with
  | Some i => skipn (S i) s
  | None => s
  end.

(** [str(n)] for an [int]. *)
Definition str_of_N (n : N) : pystr :=
  bytes_of (NilEmpty.string_of_uint (N.to_uint n)).

Definition str_of_Z (z : Z) : pystr :=
  match z with
  | Zneg p => 45%N :: str_of_N (Npos p)
  | _ => str_of_N (Z.to_N z)
  end.

End PyStr.
Export PyStr.


(* ================================================================== *)
(** * Python floats (IEEE 754 binary64) *)
(* ================================================================== *)

Module PyFloat.

Definition prec : Z := 53.
Definition emax : Z := 1024.

Definition float := spec_float.

Definition is_nan (x : float) : bool :=
  match x with S754_nan => true | _ => false end.

(** [bool(x)]: every float but the two zeros is true; NaN is true. *)
Definition truthy (x : float) : bool :=
  match x with S754_zero _ => false | _ => true end.

(** [x * y], [x >= y], [x < y] *)
Definition mul (x y : float) : float := SFmul prec emax x y.
Definition ge (x y : float) : bool := SFleb y x.
Definition lt (x y : float) : bool := SFltb x y.

(** The float nearest to [n / d] (ties to even). *)
Definition of_ratio (n : N) (d : positive) : float :=
  match n with
  | N0 => S754_zero false
  | Npos p => SFdiv prec emax (S754_finite false p 0) (S754_finite false d 0)
  end.

Definition of_Z (z : Z) : float := binary_normalize prec emax z 0 false.

(** ** [float(s)] on decimal numerals

    The engine only converts text captured by its digit patterns, so the
    model reads [digits] and [digits.digits]; on anything else it answers
    [None], which stands for [ValueError]. The decimal value is rounded
    once, to nearest, as the interpreter does. *)
Fixpoint digits_value (acc : N) (l : pystr) : option N :=
  match l with
  | [] => Some acc
  | c :: t =>
    if is_digit c then digits_value (acc * 10 + (c - 48))%N t else None
  end.

Fixpoint split_at_dot (l : pystr) : pystr * option pystr :=
  match l with
  | [] => ([], None)
  | c :: t =>
    if (c =? 46)%N then ([], Some t)
    else let '(a, b) := split_at_dot t in (c :: a, b)
  end.

Fixpoint pow10 (k : nat) : positive :=
  match k with
  | O => 1
  | S k' => 10 * pow10 k'
  end.

Definition float_of_str (s : pystr) : option float :=
  match split_at_dot s with
  | ([], _) => None
  | (ip, None) =>
    match digits_value 0 ip with
    | Some n => Some (of_ratio n 1)
    | None => None
    end
  | (_, Some []) => None
  | (ip, Some fp) =>
    match digits_value 0 (ip ++ fp) with
    | Some n => Some (of_ratio n (pow10 (List.length fp)))
    | None => None
    end
  end.

(** ** Formatting *)

(** [m * 2^e] rounded to the nearest integer, ties to even. *)
Definition round_half_even (m : positive) (e : Z) : N :=
  match e with
  | Zneg p =>
    let d := Pos.pow 2 p in
    let q := (Npos m / Npos d)%N in
    let r := (Npos m mod Npos d)%N in
    match (2 * r ?= Npos d)%N with
    | Lt => q
    | Gt => (q + 1)%N
    | Eq => if N.even q then q else (q + 1)%N
    end
  | Z0 => Npos m
  | Zpos p => (Npos m * Npos (Pos.pow 2 p))%N
  end.

Definition minus_if (s : bool) (t : pystr) : pystr :=
  if s then 45%N :: t else t.

(** The digits of [n], at least [k + 1] of them, with a point before the
    last [k]. *)
Definition place_point (k : nat) (n : N) : pystr :=
  let ds := str_of_N n in
  let ds := repeat 48%N (S k - List.length ds) ++ ds in
  match k with
  | O => ds
  | _ => firstn (List.length ds - k) ds ++ 46%N :: skipn (List.length ds - k) ds
  end.

(** [f"{x:.kf}"] *)
Definition format_f (k : nat) (x : float) : pystr :=
  match x with
  | S754_nan => u "nan"
  | S754_infinity s => minus_if s (u "inf")
  | S754_zero s => minus_if s (place_point k 0)
  | S754_finite s m e =>
    minus_if s (place_point k (round_half_even (m * pow10 k) e))
  end.

(** [x.is_integer()] and [int(x)] (truncation; [None] stands for the
    [OverflowError] or [ValueError] of an infinity or a NaN). *)
Definition is_integer (x : float) : bool :=
  match x with
  | S754_zero _ => true
  | S754_finite _ m (Zneg p) => (Npos m mod Npos (Pos.pow 2 p) =? 0)%N
  | S754_finite _ m _ => true
  | _ => false
  end.

Definition int_of_float (x : float) : option Z :=
  match x with
  | S754_zero _ => Some 0%Z
  | S754_finite s m e =>
    let a := match e with
             | Zneg p => (Zpos m / Zpos (Pos.pow 2 p))%Z
             | _ => (Zpos m * 2 ^ e)%Z
             end in
    Some (if s then (- a)%Z else a)
  | _ => None
  end.

(** ** [repr(x)], as an f-string renders a float without a format

    The shortest decimal numeral that reads back as [x] is searched by
    rounding [x] to 1, 2, ... 17 significant digits. *)

(** [x = m * 2^e] as a fraction. *)
Definition frac_of (m : positive) (e : Z) : N * N :=
  match e with
  | Zneg p => (Npos m, Npos (Pos.pow 2 p))
  | Z0 => (Npos m, 1%N)
  | Zpos p => (Npos m * Npos (Pos.pow 2 p), 1)%N
  end.

Definition pow10Z (k : Z) : N := Z.to_N (10 ^ k).

(** Is [10^k <= n / d] ? *)
Definition ge_pow10 (n d : N) (k : Z) : bool :=
  if (0 <=? k)%Z then (pow10Z k * d <=? n)%N
  else (d <=? n * pow10Z (- k))%N.

Fixpoint raise_exp (fuel : nat) (n d : N) (k : Z) : Z :=
  match fuel with
  | O => k
  | S f => if ge_pow10 n d (k + 1) then raise_exp f n d (k + 1) else k
  end.

Fixpoint lower_exp (fuel : nat) (n d : N) (k : Z) : Z :=
  match fuel with
  | O => k
  | S f => if ge_pow10 n d k then k else lower_exp f n d (k - 1)
  end.

(** The decimal exponent of the leading digit of [m * 2^e]. *)
Definition exp10_of (m : positive) (e : Z) : Z :=
  let '(n, d) := frac_of m e in
  let b := (Zpos (digits2_pos m) + e - 1)%Z in
  let k0 := (b * 1233 / 4096)%Z in
  raise_exp 4 n d (lower_exp 4 n d k0).

(** [n / d] rounded to the nearest integer, ties to even. *)
Definition div_half_even (n d : N) : N :=
  let q := (n / d)%N in
  let r := (n mod d)%N in
  match (2 * r ?= d)%N with
  | Lt => q
  | Gt => (q + 1)%N
  | Eq => if N.even q then q else (q + 1)%N
  end.

(** [x] rounded to [p] significant digits: the digits as a number and
    the decimal exponent of the leading one. *)
Definition round_sig (m : positive) (e : Z) (p : nat) : N * Z :=
  let '(n, d) := frac_of m e in
  let k := exp10_of m e in
  let sh := (Z.of_nat p - 1 - k)%Z in
  let r := if (0 <=? sh)%Z then div_half_even (n * pow10Z sh) d
           else div_half_even n (d * pow10Z (- sh)) in
  if (Npos (pow10 p) <=? r)%N then ((r / 10)%N, (k + 1)%Z) else (r, k).

(** The float nearest to [r * 10^j]. *)
Definition of_scaled (r : N) (j : Z) : float :=
  if (0 <=? j)%Z then of_ratio (r * pow10Z j) 1
  else of_ratio r (Z.to_pos (10 ^ (- j))).

Definition same_finite (m : positive) (e : Z) (y : float) : bool :=
  match y with
  | S754_finite false m' e' => Pos.eqb m m' && Z.eqb e e'
  | _ => false
  end.

Fixpoint shortest_from (fuel p : nat) (m : positive) (e : Z) : N * Z * nat :=
  let '(r, k) := round_sig m e p in
  match fuel with
  | O => (r, k, p)
  | S f =>
    if same_finite m e (of_scaled r (k - Z.of_nat p + 1)) then (r, k, p)
    else shortest_from f (S p) m e
  end.

Fixpoint strip_zeros_rev (l : pystr) : pystr :=
  match l with
  | c :: t => if (c =? 48)%N then strip_zeros_rev t else l
  | [] => []
  end.

(** Digits [ds] with leading decimal exponent [k], in the layout of
    [repr]: positional when [-4 <= k < 16], scientific otherwise. *)
Definition layout_repr (ds : pystr) (k : Z) : pystr :=
  let n := Z.of_nat (List.length ds) in
  if ((-4 <=? k) && (k <? 16))%Z then
    if (k <? 0)%Z then
      u "0." ++ repeat 48%N (Z.to_nat (- k - 1)) ++ ds
    else if (n <=? k + 1)%Z then
      ds ++ repeat 48%N (Z.to_nat (k + 1 - n)) ++ u ".0"
    else
      firstn (Z.to_nat (k + 1)) ds ++ 46%N :: skipn (Z.to_nat (k + 1)) ds
  else
    let mant := match ds with
                | [c] => [c]
                | c :: t => c :: 46%N :: t
                | [] => []
                end in
    let ex := str_of_N (Z.to_N (Z.abs k)) in
    let ex := repeat 48%N (2 - List.length ex) ++ ex in
    mant ++ 101%N :: (if (k <? 0)%Z then 45%N else 43%N) :: ex.

Definition repr (x : float) : pystr :=
  match x with
  | S754_nan => u "nan"
  | S754_infinity s => minus_if s (u "inf")
  | S754_zero s => minus_if s (u "0.0")
  | S754_finite s m e =>
    let '(r, k, _) := shortest_from 16 1 m e in
    let ds := rev (strip_zeros_rev (rev (str_of_N r))) in
    minus_if s (layout_repr ds k)
  end.

End PyFloat.

(* ================================================================== *)
(** * Regular expressions of the [re] module *)
(* ================================================================== *)

Module Re.

(** ** Syntax: the constructs the patterns of the engine are built of *)
Inductive cset_item : Type :=
| CChar (c : N)
| CRange (lo hi : N)
| CDigit
| CSpace.

Inductive regex : Type :=
| Eps
| CSet (neg : bool) (items : list cset_item)
| Seq (a b : regex)
| Alt (a b : regex)
| Rep (lo : nat) (hi : option nat) (a : regex)
| Group (g : nat) (a : regex)
| NegAhead (a : regex)
| WordB.

Definition Lit (c : N) : regex := CSet false [CChar c].

(** ** Reading a pattern *)
Definition seq_of (a b : regex) : regex :=
  match b with
  | Eps => a
  | _ => Seq a b
  end.

(** [\s], [\d], [\b] and escaped punctuation. *)
Definition escape_atom (c : N) : regex :=
  if (c =? 115)%N then CSet false [CSpace]
  else if (c =? 100)%N then CSet false [CDigit]
  else if (c =? 98)%N then WordB
  else Lit c.

Fixpoint parse_set_items (fuel : nat) (l : pystr)
  : option (list cset_item * pystr) :=
  match fuel with
  | O => None
  | S f =>
    match l with
    | [] => None
    | 93%N :: rest => Some ([], rest)
    | 92%N :: c :: rest =>
      let it := if (c =? 115)%N then CSpace
                else if (c =? 100)%N then CDigit else CChar c in
      match parse_set_items f rest with
      | Some (its, r) => Some (it :: its, r)
      | None => None
      end
    | a :: 45%N :: b :: rest =>
      if (b =? 93)%N then
        match parse_set_items f (45%N :: b :: rest) with
        | Some (its, r) => Some (CChar a :: its, r)
        | None => None
        end
      else
        match parse_set_items f rest with
        | Some (its, r) => Some (CRange a b :: its, r)
        | None => None
        end
    | a :: rest =>
      match parse_set_items f rest with
      | Some (its, r) => Some (CChar a :: its, r)
      | None => None
      end
    end
  end.

Fixpoint read_number (acc : nat) (seen : bool) (l : pystr)
  : option nat * pystr :=
  match l with
  | c :: t =>
    if is_digit c then read_number (acc * 10 + N.to_nat (c - 48)) true t
    else (if seen then Some acc else None, l)
  | [] => (if seen then Some acc else None, l)
  end.

(** A postfix quantifier, if one follows: [*], [+], [?], [{m}], [{m,}],
    [{m,n}] (all greedy). *)
Definition parse_quant (a : regex) (l : pystr) : regex * pystr :=
  match l with
  | 42%N :: t => (Rep 0 None a, t)
  | 43%N :: t => (Rep 1 None a, t)
  | 63%N :: t => (Rep 0 (Some 1) a, t)
  | 123%N :: t =>
    match read_number 0 false t with
    | (Some lo, 125%N :: t') => (Rep lo (Some lo) a, t')
    | (Some lo, 44%N :: t') =>
      match read_number 0 false t' with
      | (hi, 125%N :: t'') => (Rep lo hi a, t'')
      | _ => (a, l)
      end
    | _ => (a, l)
    end
  | _ => (a, l)
  end.

(** The parser threads the number of the next capturing group. *)
Fixpoint parse_alt (fuel g : nat) (l : pystr)
  : option (regex * nat * pystr) :=
  match fuel with
  | O => None
  | S f =>
    match parse_seq f g l with
    | Some (a, g1, 124%N :: l1) =>
      match parse_alt f g1 l1 with
      | Some (b, g2, l2) => Some (Alt a b, g2, l2)
      | None => None
      end
    | r => r
    end
  end
with parse_seq (fuel g : nat) (l : pystr)
  : option (regex * nat * pystr) :=
  match fuel with
  | O => None
  | S f =>
    match l with
    | [] => Some (Eps, g, [])
    | 41%N :: _ => Some (Eps, g, l)
    | 124%N :: _ => Some (Eps, g, l)
    | _ =>
      match parse_atom f g l with
      | Some (a, g1, l1) =>
        let '(a', l2) := parse_quant a l1 in
        match parse_seq f g1 l2 with
        | Some (b, g2, l3) => Some (seq_of a' b, g2, l3)
        | None => None
        end
      | None => None
      end
    end
  end
with parse_atom (fuel g : nat) (l : pystr)
  : option (regex * nat * pystr) :=
  match fuel with
  | O => None
  | S f =>
    match l with
    | 40%N :: 63%N :: 58%N :: t =>
      match parse_alt f g t with
      | Some (a, g1, 41%N :: t1) => Some (a, g1, t1)
      | _ => None
      end
    | 40%N :: 63%N :: 33%N :: t =>
      match parse_alt f g t with
      | Some (a, g1, 41%N :: t1) => Some (NegAhead a, g1, t1)
      | _ => None
      end
    | 40%N :: t =>
      match parse_alt f (S g) t with
      | Some (a, g1, 41%N :: t1) => Some (Group g a, g1, t1)
      | _ => None
      end
    | 91%N :: 94%N :: t =>
      match parse_set_items (List.length t) t with
      | Some (its, t1) => Some (CSet true its, g, t1)
      | None => None
      end
    | 91%N :: t =>
      match parse_set_items (List.length t) t with
      | Some (its, t1) => Some (CSet false its, g, t1)
      | None => None
      end
    | 92%N :: c :: t => Some (escape_atom c, g, t)
    | c :: t => Some (Lit c, g, t)
    | [] => None
    end
  end.

(** [re.compile(p)]: [None] when the text is not a pattern of the
    fragment above. *)
Definition parse (p : pystr) : option regex :=
  match parse_alt (3 * List.length p + 3) 1 p with
  | Some (r, _, []) => Some r
  | _ => None
  end.

(** A pattern that matches nothing stands for an unreadable text; every
    pattern of this development is read successfully (see the examples
    on the compiled patterns). *)
Definition compile (p : string) : regex :=
  match parse (u p) with
  | Some r => r
  | None => CSet false []
  end.

Fixpoint ngroups (r : regex) : nat :=
  match r with
  | Seq a b | Alt a b => Nat.max (ngroups a) (ngroups b)
  | Rep _ _ a | NegAhead a => ngroups a
  | Group g a => Nat.max g (ngroups a)
  | _ => O
  end.

(** ** Matching: the backtracking search of [re], with continuations *)

Definition item_has (it : cset_item) (x : N) : bool :=
  match it with
  | CChar c => (x =? c)%N
  | CRange lo hi => ((lo <=? x) && (x <=? hi))%N
  | CDigit => is_digit x
  | CSpace => is_space x
  end.

(** Under [re.IGNORECASE] a character also matches through its lower
    and upper case. *)
Definition set_has (ic neg : bool) (items : list cset_item) (x : N) : bool :=
  xorb neg
    (existsb (fun it =>
                item_has it x
                || (ic && (item_has it (lower_cp x)
                           || item_has it (upper_cp x)))) items).

(** Spans of the capturing groups, group [g] at index [g - 1]. *)
Definition caps := list (option (nat * nat)).

Fixpoint set_cap (g : nat) (v : nat * nat) (c : caps) {struct c} : caps :=
  match c with
  | [] => []
  | x :: t =>
    match g with
    | O => c
    | S O => Some v :: t
    | S g' => x :: set_cap g' v t
    end
  end.

Section Matching.

Variable ic : bool.
Variable s : pystr.

Definition word_at (i : nat) : bool :=
  match nth_error s i with
  | Some c => is_word c
  | None => false
  end.

(** [\b]: exactly one side of position [i] is a word character. *)
Definition boundary (i : nat) : bool :=
  xorb (match i with O => false | S j => word_at j end) (word_at i).

Definition cont := nat -> caps -> option (nat * caps).

Definition under (hi : option nat) (n : nat) : bool :=
  match hi with
  | Some h => n <? h
  | None => true
  end.

(** The greedy loop of a quantifier: [n] iterations are done; one more
    is tried first (it has to consume something), then the exit. *)
Fixpoint rep_loop (step : nat -> caps -> cont -> option (nat * caps))
  (lo : nat) (hi : option nat) (k : cont)
  (fuel n i : nat) (c : caps) {struct fuel} : option (nat * caps) :=
  let stop := if lo <=? n then k i c else None in
  match fuel with
  | O => stop
  | S fuel' =>
    if under hi n then
      match step i c (fun j c' =>
                        if i <? j then rep_loop step lo hi k fuel' (S n) j c'
                        else None) with
      | Some res => Some res
      | None => stop
      end
    else stop
  end.

Fixpoint run (r : regex) (i : nat) (c : caps) (k : cont)
  : option (nat * caps) :=
  match r with
  | Eps => k i c
  | CSet neg items =>
    match nth_error s i with
    | Some x => if set_has ic neg items x then k (S i) c else None
    | None => None
    end
  | Seq a b => run a i c (fun j c' => run b j c' k)
  | Alt a b =>
    match run a i c k with
    | Some res => Some res
    | None => run b i c k
    end
  | Rep lo hi a => rep_loop (run a) lo hi k (S (List.length s - i)) O i c
  | Group g a => run a i c (fun j c' => k j (set_cap g (i, j) c'))
  | NegAhead a =>
    match run a i c (fun j c' => Some (j, c')) with
    | Some _ => None
    | None => k i c
    end
  | WordB => if boundary i then k i c else None
  end.

(** ** What a pattern matches, declaratively

    [sem r i c j c']: [r] can match the text from position [i] to
    position [j], taking the group spans from [c] to [c']. *)
Inductive iter (R : nat -> caps -> nat -> caps -> Prop)
  (lo : nat) (hi : option nat)
  : nat -> nat -> caps -> nat -> caps -> Prop :=
| iter_stop : forall n i c, lo <= n -> iter R lo hi n i c i c
| iter_step : forall n i c i1 c1 j c',
    under hi n = true -> R i c i1 c1 -> i < i1 ->
    iter R lo hi (S n) i1 c1 j c' ->
    iter R lo hi n i c j c'.

Fixpoint sem (r : regex) : nat -> caps -> nat -> caps -> Prop :=
  match r with
  | Eps => fun i c j c' => j = i /\ c' = c
  | CSet neg items => fun i c j c' =>
      exists x, nth_error s i = Some x /\ set_has ic neg items x = true
                /\ j = S i /\ c' = c
  | Seq a b => fun i c j c' =>
      exists m c1, sem a i c m c1 /\ sem b m c1 j c'
  | Alt a b => fun i c j c' => sem a i c j c' \/ sem b i c j c'
  | Rep lo hi a => iter (sem a) lo hi 0
  | Group g a => fun i c j c' =>
      exists c1, sem a i c j c1 /\ c' = set_cap g (i, j) c1
  | NegAhead a => fun i c j c' =>
      j = i /\ c' = c /\ run a i c (fun j c' => Some (j, c')) = None
  | WordB => fun i c j c' => boundary i = true /\ j = i /\ c' = c
  end.

End Matching.

(** ** Match objects *)
Record match_obj : Type := {
  m_start : nat;
  m_end : nat;
  m_caps : caps
}.

Definition match_at (ic : bool) (r : regex) (s : pystr) (i : nat)
  : option match_obj :=
  match run ic s r i (repeat None (ngroups r)) (fun j c => Some (j, c)) with
  | Some (j, c) => Some {| m_start := i; m_end := j; m_caps := c |}
  | None => None
  end.

Fixpoint search_from (ic : bool) (r : regex) (s : pystr) (fuel i : nat)
  : option match_obj :=
  match match_at ic r s i with
  | Some m => Some m
  | None =>
    match fuel with
    | O => None
    | S f => search_from ic r s f (S i)
    end
  end.

(** [re.search(r, s)] and [re.search(r, s, re.IGNORECASE)]: the match at
    the leftmost position that has one. *)
Definition search (r : regex) (s : pystr) : option match_obj :=
  search_from false r s (List.length s) 0.

Definition search_i (r : regex) (s : pystr) : option match_obj :=
  search_from true r s (List.length s) 0.

Definition span_text (s : pystr) (sp : option (nat * nat)) : option pystr :=
  match sp with
  | Some (a, b) => Some (substr s a b)
  | None => None
  end.

(** [m.group(g)] for [g >= 1], and [m.groups()]. *)
Definition group (s : pystr) (m : match_obj) (g : nat) : option pystr :=
  span_text s (nth (g - 1) (m_caps m) None).

Definition groups (s : pystr) (m : match_obj) : list (option pystr) :=
  map (span_text s) (m_caps m).

(** ** Two syntactic checks on patterns, for the invariants of the
    group spans *)

(** Every capturing group of [r] has the body [body]. *)
Fixpoint grupos_son (body r : regex) : Prop :=
  match r with
  | Seq a b | Alt a b => grupos_son body a /\ grupos_son body b
  | Rep _ _ a | NegAhead a => grupos_son body a
  | Group _ a => a = body
  | _ => True
  end.

(** [r] cannot match without giving group [g] a span. *)
Fixpoint fija (g : nat) (r : regex) : bool :=
  match r with
  | Seq a b => fija g a || fija g b
  | Alt a b => fija g a && fija g b
  | Rep lo _ a => (0 <? lo) && fija g a
  | Group g' a => (g' =? g) || fija g a
  | _ => false
  end.

(** Every span that is set satisfies [P]. *)
Definition caps_ok (P : nat -> nat -> Prop) (c : caps) : Prop :=
  Forall (fun o => match o with
                   | Some (a, b) => P a b
                   | None => True
                   end) c.

End Re.

Import PyFloat.

(* ================================================================== *)
(** * Exceptions, JSON values and dictionaries *)
(* ================================================================== *)

(** An exception, with the text [str(e)] renders. *)
Inductive excepcion : Type :=
| Excepcion (mensaje : pystr).

Definition exc_str (e : excepcion) : pystr :=
  match e with Excepcion m => m end.

(** The outcome of a call: a returned value or a raised exception. *)
Inductive resultado (A : Type) : Type :=
| Devuelve (a : A)
| Lanza (e : excepcion).

Arguments Devuelve {A} a.
Arguments Lanza {A} e.

Definition bind {A B : Type} (c : resultado A) (k : A -> resultado B)
  : resultado B :=
  match c with
  | Devuelve a => k a
  | Lanza e => Lanza e
  end.

Notation "x <- c ;; k" := (bind c (fun x => k))
  (at level 61, c at next level, right associativity).
Notation "' p <- c ;; k" := (bind c (fun x => let 'p := x in k))
  (at level 61, p pattern, c at next level, right associativity).

(** What [try: c except Exception as e: h(e)] evaluates to. *)
Definition try_except {A : Type} (c : resultado A) (h : excepcion -> A) : A :=
  match c with
  | Devuelve a => a
  | Lanza e => h e
  end.

(** The values [json.dumps] writes and [json.loads] reads; a [dict]
    keeps its keys in insertion order. *)
Inductive json : Type :=
| JNone
| JBool (b : bool)
| JInt (z : Z)
| JFloat (x : float)
| JStr (s : pystr)
| JList (l : list json)
| JDict (d : list (pystr * json)).

Definition dict := list (pystr * json).

(** [d.get(k)] *)
Fixpoint dict_get (k : pystr) (d : dict) : option json :=
  match d with
  | [] => None
  | (k', v) :: t => if str_eqb k k' then Some v else dict_get k t
  end.

(** [d[k] = v] *)
Fixpoint dict_set (k : pystr) (v : json) (d : dict) : dict :=
  match d with
  | [] => [(k, v)]
  | (k', v') :: t =>
    if str_eqb k k' then (k, v) :: t else (k', v') :: dict_set k v t
  end.

(** [r[k]] on a value that is a dictionary holding [k]. *)
Definition campo (k : string) (r : json) : option json :=
  match r with
  | JDict d => dict_get (u k) d
  | _ => None
  end.

(** [r[k1][k2]] *)
Definition campo2 (k1 k2 : string) (r : json) : option json :=
  match campo k1 r with
  | Some a => campo k2 a
  | None => None
  end.

Definition json_opt_float (o : option float) : json :=
  match o with Some x => JFloat x | None => JNone end.

Definition json_opt_int (o : option Z) : json :=
  match o with Some z => JInt z | None => JNone end.

Definition nl : pystr := [10%N].

(** [type(v).__name__] *)
Definition nombre_de_tipo (v : json) : pystr :=
  match v with
  | JNone => u "NoneType"
  | JBool _ => u "bool"
  | JInt _ => u "int"
  | JFloat _ => u "float"
  | JStr _ => u "str"
  | JList _ => u "list"
  | JDict _ => u "dict"
  end.

(** The [AttributeError] of [v.get] on a value that is not a dictionary,
    the [TypeError] of a [for] loop over a value that has no items, and
    the [TypeError] of [v[k]], for a text [k], on a value that is not a
    dictionary. *)
Definition sin_atributo_get (v : json) : excepcion :=
  Excepcion (u "'" ++ nombre_de_tipo v ++ u "' object has no attribute 'get'").

Definition no_iterable (v : json) : excepcion :=
  Excepcion (u "'" ++ nombre_de_tipo v ++ u "' object is not iterable").

Definition sin_indice_de_texto (v : json) : excepcion :=
  match v with
  | JStr _ => Excepcion (u "string indices must be integers, not 'str'")
  | JList _ =>
    Excepcion (u "list indices must be integers or slices, not str")
  | _ =>
    Excepcion (u "'" ++ nombre_de_tipo v ++ u "' object is not subscriptable")
  end.

(* ================================================================== *)
(** * ai_backend/tools/mis_herramientas.py *)
(* ================================================================== *)

(** ** The vector store behind [ConsultarGuiaRAGTool] *)

(** A retrieved fragment: its text and the [source] and [page] entries
    of its metadata, when present. *)
Record Documento : Type := {
  page_content : pystr;
  metadata_source : option pystr;
  metadata_page : option Z
}.

(** [vector_db.similarity_search(query, k=..., filter={"source": ...})] *)
Record VectorDB : Type := {
  similarity_search : pystr -> nat -> option pystr -> resultado (list Documento)
}.

(** The evidence-store snapshot of one call: whether [DB_PATH] exists,
    and what loading the embeddings and opening Chroma gives. *)
Record Entorno : Type := {
  existe_db : bool;
  abrir_db : resultado VectorDB
}.

Definition farmacos_fichas : list (pystr * pystr) :=
  [ (u "metotrexato", u "data/ficha tecnica metotrexate.pdf");
    (u "metotrexate", u "data/ficha tecnica metotrexate.pdf");
    (u "methotrexate", u "data/ficha tecnica metotrexate.pdf");
    (u "mtx", u "data/ficha tecnica metotrexate.pdf");
    (u "ibuprofeno", u "data/ficha tecnica ibuprofeno.pdf");
    (u "ibuprofen", u "data/ficha tecnica ibuprofeno.pdf");
    (u "paracetamol", u "data/ficha tecnica paracetamol.pdf");
    (u "acetaminofen", u "data/ficha tecnica paracetamol.pdf");
    (u "prednisona", u "data/ficha tecnica prednisona.pdf");
    (u "tocilizumab", u "data/ficha tecnica Tocilizumab.pdf");
    (u "adalimumab", u "data/ficha tecnica Adalimumab.pdf");
    (u "humira", u "data/ficha tecnica Adalimumab.pdf") ].

(** The first entry of the table whose key occurs in the question. *)
Fixpoint ficha_de (tabla : list (pystr * pystr)) (pregunta_lower : pystr)
  : option (pystr * pystr) :=
  match tabla with
  | [] => None
  | (farmaco, ficha) :: t =>
    if contains farmaco pregunta_lower then Some (farmaco, ficha)
    else ficha_de t pregunta_lower
  end.

Definition formatear_doc (doc : Documento) : pystr :=
  let fuente :=
    basename (match metadata_source doc with
              | Some s => s
              | None => u "Documento"
              end) in
  let pagina :=
    match metadata_page doc with
    | Some p => str_of_Z p
    | None => u "?"
    end in
  nl ++ u "[Fuente: " ++ fuente ++ u " - Pág " ++ pagina ++ u "]:" ++ nl
     ++ page_content doc ++ nl.

(** [ConsultarGuiaRAGTool._run(pregunta)] *)
Definition ConsultarGuiaRAGTool_run (env : Entorno) (pregunta : pystr) : pystr :=
  try_except
    (if negb (existe_db env) then
       Devuelve
         (u "Error: No existe DB vectorial. Ejecuta ingest_knowledge.py primero.")
     else
       vector_db <- abrir_db env ;;
       let pregunta_lower := lower pregunta in
       let resultados_final :=
         match ficha_de farmacos_fichas pregunta_lower with
         | Some (farmaco_encontrado, ficha_objetivo) =>
           try_except
             (similarity_search vector_db
                (u "dosis máxima " ++ farmaco_encontrado ++ u " mg kg niños")
                6 (Some ficha_objetivo))
             (fun _ => [])
         | None => []
         end in
       resultados_final <-
         match resultados_final with
         | [] => similarity_search vector_db pregunta 5 None
         | _ => Devuelve resultados_final
         end ;;
       match resultados_final with
       | [] => Devuelve (u "No se encontró información en las guías médicas.")
       | _ =>
         Devuelve
           (fold_left (fun contexto doc => contexto ++ formatear_doc doc)
              resultados_final (u "--- EVIDENCIA ENCONTRADA ---" ++ nl))
       end)
    (fun e => u "Error RAG: " ++ exc_str e).

(** ** [ProcesarRecetaTool._run]

    The function returns [json.dumps] of the dictionary built here; its
    caller reads the text back with [json.loads], which gives the same
    dictionary, so the model hands over the dictionary itself. *)
Definition ProcesarRecetaTool_run
  (id_paciente medico farmaco : pystr) (peso_paciente : float)
  (dosis_mg_kg : option float) (frecuencia_texto : pystr)
  (frecuencia_horas : option Z) (es_tratamiento_aij : bool)
  (razon_decision : pystr) (decision : option pystr) : json :=
  let dosis_str :=
    match dosis_mg_kg with
    | None => u "N/D"
    | Some d =>
      let dosis_total := mul peso_paciente d in
      format_f 0 dosis_total ++ u " mg"
    end in
  JDict
    [ (u "estado", JStr (if es_tratamiento_aij then u "Aprobada" else u "Alerta"));
      (u "decision", match decision with Some d => JStr d | None => JNone end);
      (u "analisis",
       JDict
         [ (u "farmaco", JStr farmaco);
           (u "dosis_calculada", JStr dosis_str);
           (u "dosis_mg_kg_detectada", json_opt_float dosis_mg_kg);
           (u "frecuencia", JStr frecuencia_texto);
           (u "frecuencia_horas", json_opt_int frecuencia_horas) ]);
      (u "auditoria",
       JDict
         [ (u "es_aij", JBool es_tratamiento_aij);
           (u "razon", JStr razon_decision) ]) ].

(* ================================================================== *)
(** * ai_engine/structurer.py: how [calcular_dosis_exactas] writes a dose *)
(* ================================================================== *)

(** The formatting step of [AgenteMatematico.calcular_dosis_exactas]:
    [f"{int(total_mg)} mg"] when [total_mg.is_integer()], else
    [f"{total_mg:.1f} mg"]. *)
Definition total_final (total_mg : float) : pystr :=
  if is_integer total_mg then
    match int_of_float total_mg with
    | Some z => str_of_Z z ++ u " mg"
    | None => format_f 1 total_mg ++ u " mg"
    end
  else format_f 1 total_mg ++ u " mg".

(* ================================================================== *)
(** * ai_backend/agents/tripulacion.py *)
(* ================================================================== *)

Import Re.

Definition APROBADA : pystr := u "APROBADA".
Definition ALERTA : pystr := u "ALERTA".
Definition RECHAZADA : pystr := u "RECHAZADA".

(** [bool(x)] for an optional float: [None] and the zeros are false. *)
Definition verdadero (o : option float) : bool :=
  match o with
  | Some x => truthy x
  | None => false
  end.

Definition no_vacio (s : pystr) : bool :=
  match s with [] => false | _ => true end.

(** [m.group(1)] of a match object; a group that did not take part is
    [None], and calling a string method on it raises. *)
Definition grupo1 (s : pystr) (m : match_obj) : resultado pystr :=
  match group s m 1 with
  | Some g => Devuelve g
  | None => Lanza (Excepcion (u "'NoneType' object has no attribute"))
  end.

(** [float(t.replace(",", "."))] *)
Definition a_float (t : pystr) : resultado float :=
  match float_of_str (replace_cp 44 46 t) with
  | Some x => Devuelve x
  | None => Lanza (Excepcion (u "could not convert string to float"))
  end.

(** The longest numeral [int] converts ([sys.get_int_max_str_digits()]). *)
Definition int_max_str_digits : nat := 4300.

(** The [ValueError] of [int] on a numeral of [n] digits, more than the
    interpreter converts. *)
Definition limite_de_cifras (n : nat) : excepcion :=
  Excepcion
    (u "Exceeds the limit (4300 digits) for integer string conversion: value has "
       ++ str_of_N (N.of_nat n)
       ++ u " digits; use sys.set_int_max_str_digits() to increase the limit").

(** [int(t)] on a run of digits: a [ValueError] when it has more than
    4300 of them. *)
Definition a_int (t : pystr) : resultado Z :=
  match t with
  | [] => Lanza (Excepcion (u "invalid literal for int() with base 10"))
  | _ =>
    match digits_value 0 t with
    | Some n =>
      if int_max_str_digits <? List.length t then
        Lanza (limite_de_cifras (List.length t))
      else Devuelve (Z.of_N n)
    | None => Lanza (Excepcion (u "invalid literal for int() with base 10"))
    end
  end.

(** The numeral every dose pattern captures, and the texts [a_float]
    reads as a number. *)
Definition numeral : regex :=
  Eval vm_compute in compile "\d+(?:[.,]\d+)?".

Definition es_numeral (t : pystr) : Prop :=
  exists x, a_float t = Devuelve x /\ is_nan x = false.

Definition digitos (l : pystr) : Prop := Forall (fun x => is_digit x = true) l.

(** ** PASO 1: the drug *)
Definition farmacos_conocidos : list pystr :=
  map u [ "ibuprofeno"; "metotrexato"; "metotrexate"; "naproxeno";
          "paracetamol"; "prednisona"; "adalimumab"; "etanercept";
          "tocilizumab"; "sulfasalazina"; "leflunomida";
          "hidroxicloroquina"; "azatioprina"; "ciclosporina";
          "infliximab" ]%string.

(** The loop over [farmacos_conocidos]: the first name found in the
    lower-cased text, normalised. *)
Fixpoint farmaco_conocido (conocidos : list pystr) (texto_lower : pystr)
  : option pystr :=
  match conocidos with
  | [] => None
  | f :: resto =>
    if contains f texto_lower then
      if str_eqb f (u "metotrexate") then Some (u "Metotrexato")
      else Some (capitalize f)
    else farmaco_conocido resto texto_lower
  end.

Definition patron_palabra : regex :=
  Eval vm_compute in compile "\b([A-Za-zÁÉÍÓÚáéíóúñÑ]{4,})\b".

Definition extraer_farmaco (texto texto_lower : pystr) : resultado pystr :=
  match farmaco_conocido farmacos_conocidos texto_lower with
  | Some farmaco => Devuelve farmaco
  | None =>
    match search patron_palabra texto with
    | Some m => g <- grupo1 texto m ;; Devuelve (capitalize g)
    | None => Devuelve (u "Desconocido")
    end
  end.

(** ** PASO 2: the doses written in the text *)
Definition patron_mg_kg : regex :=
  Eval vm_compute in compile "(\d+(?:[.,]\d+)?)\s*mg\s*/\s*kg".

Definition patron_mg_abs : regex :=
  Eval vm_compute in compile "(\d+(?:[.,]\d+)?)\s*mg(?!\s*/\s*kg)".

Definition extraer_dosis (patron : regex) (texto : pystr)
  : resultado (option float) :=
  match search_i patron texto with
  | Some m => g <- grupo1 texto m ;; x <- a_float g ;; Devuelve (Some x)
  | None => Devuelve None
  end.

(** ** PASO 3: the frequency *)
Definition patron_cada : regex :=
  Eval vm_compute in compile "cada\s+(\d+)\s*h".

Definition extraer_frecuencia (texto texto_lower : pystr)
  : resultado (pystr * option Z) :=
  match search_i patron_cada texto with
  | Some m =>
    g <- grupo1 texto m ;;
    frecuencia_horas <- a_int g ;;
    Devuelve (u "cada " ++ str_of_Z frecuencia_horas ++ u " horas",
              Some frecuencia_horas)
  | None =>
    if contains (u "semanal") texto_lower then
      Devuelve (u "semanal", Some 168%Z)
    else if contains (u "diario") texto_lower
            || contains (u "diaria") texto_lower then
      Devuelve (u "diario", Some 24%Z)
    else Devuelve ([], None)
  end.

(** ** PASO 4: the evidence *)
Definition variantes_farmaco : list (pystr * list pystr) :=
  [ (u "Metotrexato", map u ["metotrexato"; "metotrexate"; "methotrexate"; "MTX"]%string);
    (u "Ibuprofeno", map u ["ibuprofeno"; "ibuprofen"]%string);
    (u "Paracetamol", map u ["paracetamol"; "acetaminofen"; "acetaminofén"]%string);
    (u "Prednisona", map u ["prednisona"; "prednisone"]%string);
    (u "Tocilizumab", map u ["tocilizumab"]%string);
    (u "Adalimumab", map u ["adalimumab"; "humira"]%string) ].

Fixpoint variantes_get (tabla : list (pystr * list pystr)) (farmaco : pystr)
  : option (list pystr) :=
  match tabla with
  | [] => None
  | (k, v) :: t => if str_eqb farmaco k then Some v else variantes_get t farmaco
  end.

(** [variantes_farmaco.get(farmaco, [farmaco.lower()])] *)
Definition nombres_buscar (farmaco : pystr) : list pystr :=
  match variantes_get variantes_farmaco farmaco with
  | Some l => l
  | None => [lower farmaco]
  end.

(** The loop over the name variants: the first evidence that names the
    drug ends the search; until then the first non-empty answer is kept. *)
Fixpoint buscar_evidencia (rag : pystr -> resultado pystr) (farmaco : pystr)
  (nombres : list pystr) (mejor_evidencia : pystr) : resultado pystr :=
  match nombres with
  | [] => Devuelve mejor_evidencia
  | nombre :: resto =>
    evidencia_str <-
      rag (u "dosis " ++ nombre ++ u " niños artritis juvenil mg") ;;
    if contains (lower nombre) (lower evidencia_str)
       || contains (lower farmaco) (lower evidencia_str)
    then Devuelve evidencia_str
    else buscar_evidencia rag farmaco resto
           (if no_vacio mejor_evidencia then mejor_evidencia
            else evidencia_str)
  end.

Definition consultar_evidencia (env : Entorno) (farmaco : pystr) : pystr :=
  try_except
    (buscar_evidencia (fun q => Devuelve (ConsultarGuiaRAGTool_run env q))
       farmaco (nombres_buscar farmaco) [])
    (fun e => u "Error consultando RAG: " ++ exc_str e).

(** ** PASO 5: the maximum dose of the guideline *)
Definition patrones_dosis_max : list (regex * pystr) :=
  Eval vm_compute in
  [ (compile "menos\s+de\s+(\d+(?:[.,]\d+)?)\s*mg\s*/?\s*semana", u "semanal");
    (compile "dosis\s+bajas\s*\(?menos\s+de\s+(\d+(?:[.,]\d+)?)\s*mg", u "semanal");
    (compile "dosis\s*m[áa]xima\s*(?:semanal\s*)?(?:de\s*)?(\d+(?:[.,]\d+)?)\s*mg", u "semanal");
    (compile "m[áa]ximo\s*(?:de\s*)?(\d+(?:[.,]\d+)?)\s*mg\s*/?\s*semana", u "semanal");
    (compile "dosis\s*m[áa]xima\s*(?:diaria\s*)?(?:de\s*)?(\d+(?:[.,]\d+)?)\s*mg", u "diario");
    (compile "no\s*(?:debe\s*)?exceder\s*(?:de\s*)?(\d+(?:[.,]\d+)?)\s*mg", u "diario");
    (compile "hasta\s*(\d+(?:[.,]\d+)?)\s*mg(?:\s*/\s*d[íi]a)?", u "diario");
    (compile "(\d+(?:[.,]\d+)?)\s*mg\s*/\s*kg\s*/\s*d[íi]a", u "mg_kg");
    (compile "(\d+(?:[.,]\d+)?)\s*-\s*(\d+(?:[.,]\d+)?)\s*mg\s*/\s*semana", u "semanal") ].

(** [[g for g in match.groups() if g]] *)
Fixpoint grupos_no_vacios (l : list (option pystr)) : list pystr :=
  match l with
  | [] => []
  | Some g :: t => if no_vacio g then g :: grupos_no_vacios t
                   else grupos_no_vacios t
  | None :: t => grupos_no_vacios t
  end.

(** The loop over the patterns: the first that matches with a non-empty
    group gives the value (its last group) and ends the search. *)
Fixpoint extraer_dosis_max (patrones : list (regex * pystr))
  (evidencia_lower : pystr) : resultado (option float * pystr * pystr) :=
  match patrones with
  | [] => Devuelve (None, [], [])
  | (patron, tipo) :: resto =>
    match search patron evidencia_lower with
    | Some m =>
      let grupos := grupos_no_vacios (groups evidencia_lower m) in
      match grupos with
      | [] => extraer_dosis_max resto evidencia_lower
      | _ =>
        valor <- a_float (last grupos []) ;;
        Devuelve
          (Some valor,
           repr valor ++ u " mg/"
             ++ (if str_eqb tipo (u "diario") then u "día" else tipo),
           tipo)
      end
    | None => extraer_dosis_max resto evidencia_lower
    end
  end.

(** ** PASO 6: the decision *)
Definition patrones_contraindicacion : list regex :=
  Eval vm_compute in
  [ compile "contraindicado\s+(?:en|para)\s+(?:artritis|aij|niños|juvenil)";
    compile "no\s+(?:indicado|recomendado)\s+(?:en|para)\s+(?:artritis|aij|niños)";
    compile "no\s+usar\s+en\s+(?:artritis|aij|niños)" ].

(** The loop over the contraindication patterns: [match.start()] of the
    first pattern that matches the lower-cased evidence. *)
Fixpoint buscar_contraindicacion (patrones : list regex)
  (evidencia_lower : pystr) : option nat :=
  match patrones with
  | [] => None
  | patron :: resto =>
    match search patron evidencia_lower with
    | Some m => Some (m_start m)
    | None => buscar_contraindicacion resto evidencia_lower
    end
  end.

(** [evidencia_texto[max(0, idx-30):min(len(evidencia_texto), idx+100)]] *)
Definition contexto_contra (evidencia_texto : pystr) (idx : nat) : pystr :=
  slice evidencia_texto
    (Z.max 0 (Z.of_nat idx - 30))
    (Z.min (Z.of_nat (List.length evidencia_texto)) (Z.of_nat idx + 100)).

(** A value that passes [if x:], for an optional float. *)
Definition si_verdadero (o : option float) : option float :=
  match o with
  | Some x => if truthy x then Some x else None
  | None => None
  end.

(** The prescribed total dose of CASO 2:
    [dosis_mg_kg * float(peso_paciente)] if both are true, else
    [dosis_absoluta] if it is true, else [None]. *)
Definition dosis_prescrita (dosis_mg_kg dosis_absoluta peso_paciente : option float)
  : option float :=
  match si_verdadero dosis_mg_kg, si_verdadero peso_paciente with
  | Some d, Some w => Some (mul d w)
  | _, _ => si_verdadero dosis_absoluta
  end.

Record Decision : Type := {
  d_es_aij : bool;
  d_decision : pystr;
  d_razon : pystr
}.

(** CASO 3 and CASO 4: no maximum dose was read from the evidence. *)
Definition sin_dosis_max (farmaco evidencia_texto : pystr) : Decision :=
  let evidencia_lower := lower evidencia_texto in
  if contains (u "no se encontr") evidencia_lower
     || contains (u "error") evidencia_lower
     || negb (no_vacio (strip evidencia_texto))
  then
    {| d_es_aij := false;
       d_decision := ALERTA;
       d_razon :=
         u "⚠️ No se encontró información de " ++ farmaco
           ++ u " en las guías médicas. Verificar manualmente." |}
  else if contains (lower farmaco) evidencia_lower
          || contains (u "artritis") evidencia_lower
  then
    let extracto :=
      strip (replace_cp 10 32 (slice_to evidencia_texto 300)) in
    {| d_es_aij := true;
       d_decision := ALERTA;
       d_razon :=
         u "ℹ️ " ++ farmaco
           ++ u " encontrado en guías pero no se pudo extraer dosis máxima. Evidencia: '"
           ++ extracto ++ u "...'" |}
  else
    {| d_es_aij := false;
       d_decision := ALERTA;
       d_razon :=
         u "⚠️ No se encontró evidencia clara de " ++ farmaco
           ++ u " para AIJ en las guías." |}.

Definition decidir (farmaco evidencia_texto : pystr)
  (dosis_max_guia : option float) (dosis_max_texto : pystr)
  (dosis_mg_kg dosis_absoluta peso_paciente : option float) : Decision :=
  let evidencia_lower := lower evidencia_texto in
  match buscar_contraindicacion patrones_contraindicacion evidencia_lower with
  | Some idx =>
    (* CASO 1 *)
    {| d_es_aij := false;
       d_decision := RECHAZADA;
       d_razon :=
         u "⚠️ " ++ farmaco
           ++ u " contraindicado para AIJ según la guía. Evidencia: '..."
           ++ contexto_contra evidencia_texto idx ++ u "...'" |}
  | None =>
    match si_verdadero dosis_max_guia with
    | Some mx =>
      (* CASO 2 *)
      match si_verdadero
              (dosis_prescrita dosis_mg_kg dosis_absoluta peso_paciente) with
      | Some dp =>
        if ge dp mx then
          {| d_es_aij := false;
             d_decision := RECHAZADA;
             d_razon :=
               u "⚠️ DOSIS EXCESIVA: Se prescribe " ++ format_f 0 dp
                 ++ u " mg pero la guía indica límite de "
                 ++ format_f 0 mx ++ u " mg (" ++ dosis_max_texto
                 ++ u "). Dosis ≥" ++ format_f 0 mx
                 ++ u " mg se consideran ALTAS." |}
        else
          {| d_es_aij := true;
             d_decision := APROBADA;
             d_razon :=
               u "✅ Dosis " ++ format_f 0 dp
                 ++ u " mg dentro del rango seguro (límite: "
                 ++ format_f 0 mx ++ u " mg según guía)." |}
      | None =>
        {| d_es_aij := true;
           d_decision := ALERTA;
           d_razon :=
             u "ℹ️ " ++ farmaco ++ u " indicado. Límite según guía: "
               ++ format_f 0 mx
               ++ u " mg. No se pudo verificar la dosis prescrita." |}
      end
    | None => sin_dosis_max farmaco evidencia_texto
    end
  end.

(** ** PASO 7: the dose to show *)
Definition dosis_calculada (dosis_mg_kg dosis_absoluta peso_paciente : option float)
  : option float :=
  match si_verdadero dosis_mg_kg, si_verdadero peso_paciente with
  | Some d, Some w => Some (mul d w)
  | _, _ => si_verdadero dosis_absoluta
  end.

(** ** The local variables at the end of PASO 7 *)
Record Locales : Type := {
  l_farmaco : pystr;
  l_dosis_mg_kg : option float;
  l_dosis_absoluta : option float;
  l_frecuencia_texto : pystr;
  l_frecuencia_horas : option Z;
  l_evidencia_texto : pystr;
  l_dosis_max_guia : option float;
  l_dosis_max_texto : pystr;
  l_es_aij : bool;
  l_decision : pystr;
  l_razon : pystr;
  l_dosis_calculada : option float
}.

(** PASO 1 to PASO 7. The exceptions of these steps are not caught by
    the function. *)
Definition pasos_1_a_7 (env : Entorno) (texto_medico : option pystr)
  (peso_paciente : option float) : resultado Locales :=
  let texto := match texto_medico with Some t => t | None => [] end in
  let texto_lower := lower texto in
  farmaco <- extraer_farmaco texto texto_lower ;;
  dosis_mg_kg <- extraer_dosis patron_mg_kg texto ;;
  dosis_absoluta <- extraer_dosis patron_mg_abs texto ;;
  ' (frecuencia_texto, frecuencia_horas) <-
      extraer_frecuencia texto texto_lower ;;
  let evidencia_texto := consultar_evidencia env farmaco in
  let evidencia_lower := lower evidencia_texto in
  ' (dosis_max_guia, dosis_max_texto, _) <-
      extraer_dosis_max patrones_dosis_max evidencia_lower ;;
  let d := decidir farmaco evidencia_texto dosis_max_guia dosis_max_texto
             dosis_mg_kg dosis_absoluta peso_paciente in
  Devuelve
    {| l_farmaco := farmaco;
       l_dosis_mg_kg := dosis_mg_kg;
       l_dosis_absoluta := dosis_absoluta;
       l_frecuencia_texto := frecuencia_texto;
       l_frecuencia_horas := frecuencia_horas;
       l_evidencia_texto := evidencia_texto;
       l_dosis_max_guia := dosis_max_guia;
       l_dosis_max_texto := dosis_max_texto;
       l_es_aij := d_es_aij d;
       l_decision := d_decision d;
       l_razon := d_razon d;
       l_dosis_calculada :=
         dosis_calculada dosis_mg_kg dosis_absoluta peso_paciente |}.

(** ** PASO 8: the result *)

(** [float(peso_paciente)]; an absent weight is [None], on which
    [float] raises [TypeError]. *)
Definition float_de_peso (peso_paciente : option float) : resultado float :=
  match peso_paciente with
  | Some w => Devuelve w
  | None =>
    Lanza (Excepcion
             (u "float() argument must be a string or a real number, not 'NoneType'"))
  end.

(** [parsed["analisis"]["dosis_absoluta_mg"] = dosis_absoluta] *)
Definition anotar_dosis_absoluta (parsed : json) (dosis_absoluta : float)
  : resultado json :=
  match parsed with
  | JDict d =>
    match dict_get (u "analisis") d with
    | Some (JDict a) =>
      Devuelve
        (JDict (dict_set (u "analisis")
                  (JDict (dict_set (u "dosis_absoluta_mg")
                            (JFloat dosis_absoluta) a)) d))
    | Some _ => Lanza (Excepcion (u "object does not support item assignment"))
    | None => Lanza (Excepcion (u "'analisis'"))
    end
  | _ => Lanza (Excepcion (u "object is not subscriptable"))
  end.

(** The dictionary of the [except] branch of PASO 8. *)
Definition resultado_manual (L : Locales) : json :=
  JDict
    [ (u "estado",
       JStr (if str_eqb (l_decision L) APROBADA then u "Aprobada"
             else l_decision L));
      (u "decision", JStr (l_decision L));
      (u "analisis",
       JDict
         [ (u "farmaco", JStr (l_farmaco L));
           (u "dosis_calculada",
            JStr (match si_verdadero (l_dosis_calculada L) with
                  | Some x => format_f 0 x ++ u " mg"
                  | None => u "N/D"
                  end));
           (u "dosis_mg_kg_detectada", json_opt_float (l_dosis_mg_kg L));
           (u "dosis_absoluta_mg", json_opt_float (l_dosis_absoluta L));
           (u "frecuencia", JStr (l_frecuencia_texto L));
           (u "frecuencia_horas", json_opt_int (l_frecuencia_horas L)) ]);
      (u "auditoria",
       JDict
         [ (u "es_aij", JBool (l_es_aij L));
           (u "razon", JStr (l_razon L));
           (u "dosis_max_guia", json_opt_float (l_dosis_max_guia L));
           (u "evidencia_raw",
            if no_vacio (l_evidencia_texto L)
            then JStr (slice_to (l_evidencia_texto L) 500)
            else JNone) ]) ].

Definition paso_8 (L : Locales) (peso_paciente : option float)
  (id_paciente : pystr) : json :=
  try_except
    (peso <- float_de_peso peso_paciente ;;
     let parsed :=
       ProcesarRecetaTool_run id_paciente (u "Sistema IA") (l_farmaco L)
         peso (l_dosis_mg_kg L) (l_frecuencia_texto L)
         (l_frecuencia_horas L) (l_es_aij L) (l_razon L)
         (Some (l_decision L)) in
     match si_verdadero (l_dosis_absoluta L), si_verdadero (l_dosis_mg_kg L) with
     | Some a, None => anotar_dosis_absoluta parsed a
     | _, _ => Devuelve parsed
     end)
    (fun _ => resultado_manual L).

(** [ejecutar_validacion_medica(texto_medico, peso_paciente, id_paciente)]
    against the evidence store [env]. *)
Definition ejecutar_validacion_medica (env : Entorno)
  (texto_medico : option pystr) (peso_paciente : option float)
  (id_paciente : pystr) : resultado json :=
  L <- pasos_1_a_7 env texto_medico peso_paciente ;;
  Devuelve (paso_8 L peso_paciente id_paciente).

(* ================================================================== *)
(** * ai_engine/auditor.py *)
(* ================================================================== *)

Definition comillas : pystr := [34%N].

Section Auditor.

(** The library functions [json.dumps(_, indent=2)] and [json.loads]. *)
Variable json_dumps : json -> pystr.
Variable json_loads : pystr -> resultado json.

(** The auditor: its completion service and its vector store. *)
Record AgenteAuditor : Type := {
  llm_invoke : pystr -> resultado pystr;
  db : VectorDB
}.

(** What a [for] loop visits in a JSON value. *)
Definition iterar (v : json) : resultado (list json) :=
  match v with
  | JList l => Devuelve l
  | JDict d => Devuelve (map (fun kv => JStr (fst kv)) d)
  | JStr s => Devuelve (map (fun c => JStr [c]) s)
  | _ => Lanza (no_iterable v)
  end.

(** [m[k]] *)
Definition item (m : json) (k : pystr) : resultado json :=
  match m with
  | JDict d =>
    match dict_get k d with
    | Some v => Devuelve v
    | None => Lanza (Excepcion (u "'" ++ k ++ u "'"))
    end
  | _ => Lanza (sin_indice_de_texto m)
  end.

(** [[m['nombre'] for m in l]] *)
Fixpoint nombres_de (l : list json) : resultado (list json) :=
  match l with
  | [] => Devuelve []
  | m :: t =>
    v <- item m (u "nombre") ;;
    r <- nombres_de t ;;
    Devuelve (v :: r)
  end.

(** [", ".join(l)]: every item has to be a string. *)
Fixpoint textos_de (l : list json) : resultado (list pystr) :=
  match l with
  | [] => Devuelve []
  | JStr s :: t => r <- textos_de t ;; Devuelve (s :: r)
  | _ :: _ => Lanza (Excepcion (u "sequence item: expected str instance"))
  end.

(** The f-string of PASO 2. *)
Definition construir_prompt (nombres_str contexto_pdf pauta_texto : pystr)
  : pystr :=
    nl
    ++ u "        Eres un Auditor Farmacéutico. Estás validando una receta de: " ++ nombres_str ++ u "." ++ nl
    ++ u "        " ++ nl
    ++ u "        CONTEXTO RECUPERADO DE LA BIBLIOTECA:" ++ nl
    ++ u "        " ++ comillas ++ nl
    ++ u "        " ++ contexto_pdf ++ nl
    ++ u "        " ++ comillas ++ nl
    ++ nl
    ++ u "        RECETA A ANALIZAR:" ++ nl
    ++ u "        " ++ pauta_texto ++ nl
    ++ nl
    ++ u "        REGLAS DE ORO (LÉELAS ATENTAMENTE):" ++ nl
    ++ u "        1. SOLO busca riesgos para el medicamento: " ++ nombres_str ++ u "." ++ nl
    ++ u "        2. Si el CONTEXTO habla de OTROS medicamentos (ej: Metotrexato) pero la receta es de " ++ nombres_str ++ u ", IGNORA esa parte del contexto. ¡No te confundas!" ++ nl
    ++ u "        3. Si no encuentras contraindicaciones específicas para " ++ nombres_str ++ u " en el contexto, APRUEBA la receta." ++ nl
    ++ u "        " ++ nl
    ++ u "        Responde en JSON:" ++ nl
    ++ u "        {" ++ nl
    ++ u "            " ++ comillas ++ u "evidencia_encontrada" ++ comillas ++ u ": " ++ comillas ++ u "Cita del texto sobre " ++ nombres_str ++ u " (o 'No hay datos relevantes')..." ++ comillas ++ u "," ++ nl
    ++ u "            " ++ comillas ++ u "aprobado" ++ comillas ++ u ": true/false," ++ nl
    ++ u "            " ++ comillas ++ u "alertas" ++ comillas ++ u ": [" ++ comillas ++ u "Solo si aplica a " ++ nombres_str ++ u "..." ++ comillas ++ u "]" ++ nl
    ++ u "        }" ++ nl
    ++ u "        ".

(** The result of the [except] branch of PASO 3. *)
Definition resultado_error (e : excepcion) : json :=
  JDict
    [ (u "aprobado", JBool false);
      (u "alertas", JList [JStr (u "Error técnico")]);
      (u "debug", JStr (exc_str e)) ].

(** [respuesta[inicio:fin]] with [inicio = respuesta.find('{')] and
    [fin = respuesta.rfind('}') + 1]. *)
Definition texto_json (respuesta : pystr) : pystr :=
  let inicio := find respuesta (u "{") in
  let fin := (rfind respuesta (u "}") + 1)%Z in
  slice respuesta inicio fin.

(** PASO 3: the [try] block and its handler. *)
Definition invocar_y_parsear (self : AgenteAuditor) (prompt : pystr) : json :=
  try_except
    (respuesta <- llm_invoke self prompt ;;
     json_loads (texto_json respuesta))
    resultado_error.

(** PASO 1 and PASO 2, before the [try] block: the names of the drugs,
    the retrieved context and the prompt. What these steps raise reaches
    the caller. *)
Definition preparar_prompt (self : AgenteAuditor) (pauta_json : dict)
  : resultado pystr :=
  let pauta_texto := json_dumps (JDict pauta_json) in
  lista <-
    iterar (match dict_get (u "lista_medicamentos") pauta_json with
            | Some v => v
            | None => JList []
            end) ;;
  medicamentos <- nombres_de lista ;;
  textos <- textos_de medicamentos ;;
  let nombres_str := join (u ", ") textos in
  let query :=
    u "Dosis, frecuencia, contraindicaciones y seguridad de: " ++ nombres_str in
  docs_relacionados <- similarity_search (db self) query 5 None ;;
  let contexto_pdf := join (nl ++ nl) (map page_content docs_relacionados) in
  Devuelve (construir_prompt nombres_str contexto_pdf pauta_texto).

(** [AgenteAuditor.validar_pauta(pauta_json)] *)
Definition validar_pauta (self : AgenteAuditor) (pauta_json : dict)
  : resultado json :=
  prompt <- preparar_prompt self pauta_json ;;
  Devuelve (invocar_y_parsear self prompt).

End Auditor.

(* ================================================================== *)
(** * Notions used in the statements *)
(* ================================================================== *)

(** A prescription text short enough for [int] to read any run of
    digits in it: the interpreter refuses numerals of more than 4300
    digits. *)
Definition texto_admitido (texto_medico : option pystr) : Prop :=
  match texto_medico with
  | Some t => List.length t <= 4300
  | None => True
  end.

(** [idx] is where the first pattern of [patrones_contraindicacion], in
    the order of the list, that matches the evidence matches it. *)
Definition primera_contraindicacion (evidencia_lower : pystr) (idx : nat)
  : Prop :=
  exists antes patron despues m,
    patrones_contraindicacion = antes ++ patron :: despues
    /\ Forall (fun q => search q evidencia_lower = None) antes
    /\ search patron evidencia_lower = Some m
    /\ m_start m = idx.

(** The weight, when there is one, is a number. *)
Definition peso_es_numero (peso_paciente : option float) : Prop :=
  forall w, peso_paciente = Some w -> is_nan w = false.

(** The dose calculator as the specification words it: per-kg dose
    times weight if both are available, else per-m2 dose times body
    surface area, else the absolute dose, else null. *)
Definition computeDose_spec
  (dosePerKg weightKg doseByBSA bsaM2 doseAbsoluteMg : option float)
  : option float :=
  match dosePerKg, weightKg with
  | Some d, Some w => Some (mul d w)
  | _, _ =>
    match doseByBSA, bsaM2 with
    | Some d, Some b => Some (mul d b)
    | _, _ => doseAbsoluteMg
    end
  end.

(** The letters of [patron_palabra]. *)
Definition letras : list cset_item :=
  [ CRange 65 90; CRange 97 122; CChar 193; CChar 201; CChar 205;
    CChar 211; CChar 218; CChar 225; CChar 233; CChar 237; CChar 243;
    CChar 250; CChar 241; CChar 209 ].

Definition es_letra (c : N) : bool := set_has false false letras c.

(** [texto[i:j]] is a run of at least four letters between two word
    boundaries. *)
Definition es_palabra (texto : pystr) (i j : nat) : Prop :=
  boundary texto i = true /\ boundary texto j = true /\ i + 4 <= j
  /\ Forall (fun x => es_letra x = true) (substr texto i j)
  /\ j <= List.length texto.

(** The fallback of the drug as the specification words it: the first
    capitalized word of at least four characters, or "Desconocido". A
    word is a maximal run of letters; it is capitalized when its first
    letter is an upper-case one. *)
Fixpoint palabras_desde (actual texto : pystr) : list pystr :=
  match texto with
  | [] => match actual with [] => [] | _ => [rev actual] end
  | c :: t =>
    if es_letra c then palabras_desde (c :: actual) t
    else match actual with
         | [] => palabras_desde [] t
         | _ => rev actual :: palabras_desde [] t
         end
  end.

Definition es_capitalizada (w : pystr) : bool :=
  match w with
  | c :: _ => negb (lower_cp c =? c)%N
  | [] => false
  end.

Definition farmaco_segun_spec (texto : pystr) : pystr :=
  match List.find (fun w => (4 <=? List.length w) && es_capitalizada w)
                  (palabras_desde [] texto) with
  | Some w => w
  | None => u "Desconocido"
  end.

(** The ninth pattern of [patrones_dosis_max]. *)
Definition patron_rango : regex :=
  Eval vm_compute in
  compile "(\d+(?:[.,]\d+)?)\s*-\s*(\d+(?:[.,]\d+)?)\s*mg\s*/\s*semana".

Definition espacios (l : pystr) : Prop := Forall (fun x => is_space x = true) l.

(** The first and the last position of a character in a text. *)
Definition primera_en (c : N) (s : pystr) (i : nat) : Prop :=
  nth_error s i = Some c /\ forall q, q < i -> nth_error s q <> Some c.

Definition ultima_en (c : N) (s : pystr) (j : nat) : Prop :=
  nth_error s j = Some c /\ forall q, j < q -> nth_error s q <> Some c.

(** ** Evidence stores and numbers of the examples *)

Definition documento (texto : string) : Documento :=
  {| page_content := u texto;
     metadata_source := Some (u "data/ficha tecnica metotrexate.pdf");
     metadata_page := Some 5%Z |}.

(** A store that answers every query with one fragment. *)
Definition guia (texto : string) : Entorno :=
  {| existe_db := true;
     abrir_db :=
       Devuelve {| similarity_search := fun _ _ _ => Devuelve [documento texto] |} |}.

(** [float(s)] of a numeral of the examples. *)
Definition num (s : string) : float :=
  match float_of_str (u s) with
  | Some x => x
  | None => S754_nan
  end.

(** A reader of JSON texts for the examples: it knows one object. *)
Definition json_loads_ejemplo (t : pystr) : resultado json :=
  if str_eqb t (u "{}") then Devuelve (JDict [])
  else Lanza (Excepcion (u "Expecting value: line 1 column 1 (char 0)")).

(** An auditor whose completion service always answers [respuesta], over
    an empty store. *)
Definition auditor_ejemplo (respuesta : string) : AgenteAuditor :=
  {| llm_invoke := fun _ => Devuelve (u respuesta);
     db := {| similarity_search := fun _ _ _ => Devuelve [] |} |}.

(* ================================================================== *)
(** * ai_engine/structurer.py: the two agents *)
(* ================================================================== *)

(** [v.get(k, default)] *)
Definition get_o (v : json) (k : pystr) (default : json) : resultado json :=
  match v with
  | JDict d =>
    Devuelve (match dict_get k d with Some x => x | None => default end)
  | _ => Lanza (sin_atributo_get v)
  end.

(** What [for item in v] visits. *)
Definition elementos (v : json) : resultado (list json) :=
  match v with
  | JList l => Devuelve l
  | JDict d => Devuelve (map (fun kv => JStr (fst kv)) d)
  | JStr s => Devuelve (map (fun c => JStr [c]) s)
  | _ => Lanza (no_iterable v)
  end.

(** The body of a loop run on every item in turn; the first exception
    ends the loop. *)
Fixpoint para_cada (A B : Type) (f : A -> resultado B) (l : list A)
  : resultado (list B) :=
  match l with
  | [] => Devuelve []
  | x :: t =>
    y <- f x ;;
    r <- para_cada f t ;;
    Devuelve (y :: r)
  end.

(** [not peso_paciente or peso_paciente <= 0] *)
Definition sin_peso (peso_paciente : float) : bool :=
  negb (truthy peso_paciente) || ge (S754_zero false) peso_paciente.

Definition patron_mg_por_kg : regex :=
  Eval vm_compute in compile "(\d+([.,]\d+)?)\s*mg\s*[/|por]\s*kg".

Section Structurer.

(** [json.loads], and [str] on a list or a dictionary. *)
Variable json_loads : pystr -> resultado json.
Variable str_contenedor : json -> pystr.

(** [str(v)] *)
Definition py_str (v : json) : pystr :=
  match v with
  | JNone => u "None"
  | JBool true => u "True"
  | JBool false => u "False"
  | JInt z => str_of_Z z
  | JFloat x => repr x
  | JStr s => s
  | _ => str_contenedor v
  end.

(** The [try] block of the loop body: the two entries it adds to the
    item when the dose is one per kilogram. *)
Definition dosis_por_peso (d : dict) (dosis_texto : pystr) (m : match_obj)
  (peso_paciente : float) : resultado dict :=
  g <- grupo1 dosis_texto m ;;
  dosis_por_kg <- a_float g ;;
  let total_mg := mul dosis_por_kg peso_paciente in
  Devuelve
    (dict_set (u "explicacion_calculo")
       (JStr (repr dosis_por_kg ++ u " mg/kg x " ++ repr peso_paciente
                ++ u " kg"))
       (dict_set (u "dosis_calculada") (JStr (total_final total_mg)) d)).

(** The loop body of [calcular_dosis_exactas] on one item; the item is
    returned as the loop leaves it. *)
Definition calcular_item (peso_paciente : float) (it : json)
  : resultado json :=
  dosis <- get_o it (u "dosis") (JStr []) ;;
  let dosis_texto := lower (py_str dosis) in
  _ <- get_o it (u "nombre") (JStr (u "Fármaco")) ;;
  match it with
  | JDict d =>
    match search patron_mg_por_kg dosis_texto with
    | Some m =>
      Devuelve
        (JDict (try_except (dosis_por_peso d dosis_texto m peso_paciente)
                  (fun _ => d)))
    | None =>
      match dict_get (u "dosis_calculada") d with
      | Some _ => Devuelve it
      | None =>
        Devuelve
          (JDict (dict_set (u "dosis_calculada")
                    (match dict_get (u "dosis") d with
                     | Some v => v
                     | None => JNone
                     end) d))
      end
    end
  | _ => Lanza (sin_atributo_get it)
  end.

(** [AgenteMatematico.calcular_dosis_exactas(pauta_json, peso_paciente)] *)
Definition calcular_dosis_exactas (pauta_json : json) (peso_paciente : float)
  : resultado json :=
  if sin_peso peso_paciente then Devuelve pauta_json
  else
    lista_medicamentos <-
      get_o pauta_json (u "tratamiento_secuencial") (JList []) ;;
    items <- elementos lista_medicamentos ;;
    nuevos <- para_cada (calcular_item peso_paciente) items ;;
    match pauta_json with
    | JDict p =>
      Devuelve
        (JDict (dict_set (u "tratamiento_secuencial")
                  (match lista_medicamentos with
                   | JList _ => JList nuevos
                   | _ => lista_medicamentos
                   end) p))
    | _ => Lanza (sin_atributo_get pauta_json)
    end.

(** The structuring agent: its completion service. *)
Record AgenteEstructurador : Type := {
  llm_estructurador : pystr -> resultado pystr
}.

(** The f-string of PASO 1. *)
Definition prompt_estructurador (texto_medico : pystr) : pystr :=
    nl
    ++ u "        Eres un asistente administrativo médico." ++ nl
    ++ u "        TEXTO: " ++ comillas ++ texto_medico ++ comillas ++ nl
    ++ u "        " ++ nl
    ++ u "        Extrae los datos en este JSON exacto." ++ nl
    ++ u "        IMPORTANTE: En " ++ comillas ++ u "dosis" ++ comillas ++ u ", escribe EXACTAMENTE lo que dice el médico (ej: " ++ comillas ++ u "10mg/kg" ++ comillas ++ u ")." ++ nl
    ++ u "        NO intentes calcular nada." ++ nl
    ++ u "        " ++ nl
    ++ u "        {" ++ nl
    ++ u "            " ++ comillas ++ u "tratamiento_secuencial" ++ comillas ++ u ": [" ++ nl
    ++ u "                {" ++ nl
    ++ u "                    " ++ comillas ++ u "nombre" ++ comillas ++ u ": " ++ comillas ++ u "Nombre del fármaco" ++ comillas ++ u "," ++ nl
    ++ u "                    " ++ comillas ++ u "dosis" ++ comillas ++ u ": " ++ comillas ++ u "10mg/kg" ++ comillas ++ u ", " ++ nl
    ++ u "                    " ++ comillas ++ u "frecuencia_horas" ++ comillas ++ u ": 8," ++ nl
    ++ u "                    " ++ comillas ++ u "duracion_dias" ++ comillas ++ u ": 5," ++ nl
    ++ u "                    " ++ comillas ++ u "instruccion_texto" ++ comillas ++ u ": " ++ comillas ++ u "cada 8 horas..." ++ comillas ++ nl
    ++ u "                }" ++ nl
    ++ u "            ]" ++ nl
    ++ u "        }" ++ nl
    ++ u "        Devuelve SOLO el JSON." ++ nl
    ++ u "        ".

(** The dictionary of the [except] branch. *)
Definition error_estructurador (e : excepcion) : json :=
  JDict
    [ (u "tratamiento_secuencial", JList []);
      (u "error", JStr (exc_str e)) ].

(** [AgenteEstructurador.estructurar_texto(texto_medico, peso_kg)] *)
Definition estructurar_texto (self : AgenteEstructurador)
  (texto_medico : pystr) (peso_kg : float) : json :=
  try_except
    (respuesta <- llm_estructurador self (prompt_estructurador texto_medico) ;;
     datos_ia <- json_loads (texto_json respuesta) ;;
     calcular_dosis_exactas datos_ia peso_kg)
    error_estructurador.

End Structurer.

(* ================================================================== *)
(** * backend/main.py *)
(* ================================================================== *)

Section Backend.

Variable json_dumps : json -> pystr.
Variable json_loads : pystr -> resultado json.
Variable str_contenedor : json -> pystr.

(** [procesar_receta(datos)] with [datos.texto_voz] and
    [datos.peso_paciente]; the auditor reads the structured
    prescription with [pauta_json.get], which only a dictionary has. *)
Definition procesar_receta (estructurador : AgenteEstructurador)
  (auditor : AgenteAuditor) (texto_voz : pystr) (peso_paciente : float)
  : resultado json :=
  let pauta_json :=
    estructurar_texto json_loads str_contenedor estructurador texto_voz
      peso_paciente in
  analisis_seguridad <-
    match pauta_json with
    | JDict p => validar_pauta json_dumps json_loads auditor p
    | _ => Lanza (sin_atributo_get pauta_json)
    end ;;
  Devuelve
    (JDict
       [ (u "pauta_generada", pauta_json);
         (u "analisis_seguridad", analisis_seguridad) ]).

End Backend.

(* ================================================================== *)
(** * Notions used in the statements on the whole validation *)
(* ================================================================== *)

(** The question PASO 4 asks the tool about one name of the drug, and
    the test that ends its loop: the answer names the drug. *)
Definition pregunta_rag (nombre : pystr) : pystr :=
  u "dosis " ++ nombre ++ u " niños artritis juvenil mg".

Definition nombra_al_farmaco (farmaco nombre evidencia : pystr) : bool :=
  contains (lower nombre) (lower evidencia)
  || contains (lower farmaco) (lower evidencia).

(** The answer of the tool built from retrieved fragments. *)
Definition evidencia_de (docs : list Documento) : pystr :=
  u "--- EVIDENCIA ENCONTRADA ---" ++ nl ++ List.concat (map formatear_doc docs).

(** An evidence store without an index, or whose index has no fragment
    for any query. *)
Definition sin_guias (env : Entorno) : Prop :=
  existe_db env = false
  \/ (existe_db env = true
      /\ exists vector_db,
           abrir_db env = Devuelve vector_db
           /\ forall query k filtro,
                similarity_search vector_db query k filtro = Devuelve []).

(** ** More evidence stores for the examples *)

(** A store whose search restricted to a ficha raises, and whose general
    search answers with one fragment. *)
Definition guia_sin_filtro (texto : string) : Entorno :=
  {| existe_db := true;
     abrir_db :=
       Devuelve
         {| similarity_search := fun _ _ filtro =>
              match filtro with
              | Some _ => Lanza (Excepcion (u "filter not supported"))
              | None => Devuelve [documento texto]
              end |} |}.

(** No index on disk. *)
Definition sin_indice : Entorno :=
  {| existe_db := false;
     abrir_db := Lanza (Excepcion (u "no such directory")) |}.

(* ================================================================== *)
(** * Notions used in the statements on the auditor and the structurer *)
(* ================================================================== *)

(** The medicine [m] is a dictionary whose "nombre" is the text [n]. *)
Definition tiene_nombre (m : json) (n : pystr) : Prop :=
  exists d, m = JDict d /\ dict_get (u "nombre") d = Some (JStr n).

(** The medicine [m] has no "nombre" to read: it is not a dictionary, or
    it is one without that key. *)
Definition sin_nombre (m : json) : Prop :=
  match m with
  | JDict d => dict_get (u "nombre") d = None
  | _ => True
  end.

(** The list under "lista_medicamentos", empty when the key is absent. *)
Definition lista_medicamentos (pauta_json : dict) : json :=
  match dict_get (u "lista_medicamentos") pauta_json with
  | Some v => v
  | None => JList []
  end.

(** The query the auditor sends to its store. *)
Definition consulta_auditor (nombres : list pystr) : pystr :=
  u "Dosis, frecuencia, contraindicaciones y seguridad de: "
    ++ join (u ", ") nombres.

(** A character of a numeral: a digit, the point or the comma. *)
Definition de_numeral (c : N) : bool :=
  is_digit c || (c =? 46)%N || (c =? 44)%N.

(** A numeral as the dose patterns read it: digits, or digits, a point
    or a comma, and digits. *)
Definition forma_numeral (t : pystr) : Prop :=
  (digitos t /\ t <> [])
  \/ exists ip sep fp,
       t = ip ++ sep :: fp
       /\ digitos ip /\ ip <> [] /\ (sep = 46%N \/ sep = 44%N)
       /\ digitos fp /\ fp <> [].

(** ** Agents and readers of the examples *)

(** A structuring agent whose completion service always answers
    [respuesta], and one whose service fails. *)
Definition estructurador_ejemplo (respuesta : pystr) : AgenteEstructurador :=
  {| llm_estructurador := fun _ => Devuelve respuesta |}.

Definition estructurador_caido : AgenteEstructurador :=
  {| llm_estructurador := fun _ => Lanza (Excepcion (u "Connection refused")) |}.

(** The JSON text of a treatment whose only item is the string
    "Ibuprofeno", and a reader that knows this text. *)
Definition json_lista_de_textos : pystr :=
  u "{" ++ comillas ++ u "tratamiento_secuencial" ++ comillas ++ u ": ["
    ++ comillas ++ u "Ibuprofeno" ++ comillas ++ u "]}".

Definition json_loads_lista (t : pystr) : resultado json :=
  if str_eqb t json_lista_de_textos then
    Devuelve (JDict [(u "tratamiento_secuencial", JList [JStr (u "Ibuprofeno")])])
  else Lanza (Excepcion (u "Expecting value: line 1 column 1 (char 0)")).

(** An auditor that approves whatever it is asked, over an empty
    store, with a reader that knows its answer. *)
Definition json_aprobado : pystr :=
  u "{" ++ comillas ++ u "aprobado" ++ comillas ++ u ": true}".

Definition auditor_que_aprueba : AgenteAuditor :=
  {| llm_invoke := fun _ => Devuelve (u "Claro: " ++ json_aprobado);
     db := {| similarity_search := fun _ _ _ => Devuelve [] |} |}.

Definition json_loads_aprobado (t : pystr) : resultado json :=
  if str_eqb t json_aprobado then Devuelve (JDict [(u "aprobado", JBool true)])
  else Lanza (Excepcion (u "Expecting value: line 1 column 1 (char 0)")).

(* ================================================================== *)
(** * ai_backend/agents/run_tripulacion.py *)
(* ================================================================== *)

(** [bool(v)] *)
Definition verdad (v : json) : bool :=
  match v with
  | JNone => false
  | JBool b => b
  | JInt z => negb (z =? 0)%Z
  | JFloat x => truthy x
  | JStr s => no_vacio s
  | JList l => match l with [] => false | _ => true end
  | JDict d => match d with [] => false | _ => true end
  end.

(** [x or y] *)
Definition o_bien (x y : json) : json := if verdad x then x else y.

(** [v.get(k)] on a dictionary *)
Definition dict_get_o (k : string) (d : dict) : json :=
  match dict_get (u k) d with
  | Some v => v
  | None => JNone
  end.

(** [float(z)] for an [int]: the nearest float, or [OverflowError]. *)
Definition float_de_int (z : Z) : resultado float :=
  match of_Z z with
  | S754_infinity _ =>
    Lanza (Excepcion (u "int too large to convert to float"))
  | x => Devuelve x
  end.

Definition required_keys : list pystr :=
  map u [ "farmaco"; "dosis_mg_kg"; "frecuencia_texto"; "frecuencia_horas";
          "es_tratamiento_aij"; "razon_decision"; "decision" ]%string.

(** [required_keys.intersection(d.keys())] is not empty. *)
Definition alguna_clave (d : dict) : bool :=
  existsb (fun k => match dict_get k d with Some _ => true | None => false end)
          required_keys.

(** The dictionary written when the answer has no usable JSON. *)
Definition error_payload (raw : pystr) : json :=
  JDict
    [ (u "estado", JStr (u "Error"));
      (u "analisis", JDict []);
      (u "auditoria",
       JDict
         [ (u "es_aij", JNone);
           (u "razon", JStr (u "El LLM no devolvió el JSON esperado."));
           (u "raw_output", JStr raw) ]) ].

(** The f-string of step 4. *)
Definition prompt_clinico (texto_medico peso_paciente evidencia : pystr)
  : pystr :=
    nl
    ++ u "Eres un experto clínico. Con la evidencia y la orden médica, devuelve SOLO un JSON válido con estas claves:" ++ nl
    ++ u "{" ++ nl
    ++ u "  " ++ comillas ++ u "farmaco" ++ comillas ++ u ": str," ++ nl
    ++ u "  " ++ comillas ++ u "dosis_mg_kg" ++ comillas ++ u ": number|null," ++ nl
    ++ u "  " ++ comillas ++ u "frecuencia_texto" ++ comillas ++ u ": str," ++ nl
    ++ u "  " ++ comillas ++ u "frecuencia_horas" ++ comillas ++ u ": integer|null," ++ nl
    ++ u "  " ++ comillas ++ u "es_tratamiento_aij" ++ comillas ++ u ": boolean," ++ nl
    ++ u "  " ++ comillas ++ u "razon_decision" ++ comillas ++ u ": str," ++ nl
    ++ u "  " ++ comillas ++ u "decision" ++ comillas ++ u ": " ++ comillas ++ u "APROBADA" ++ comillas ++ u "|" ++ comillas ++ u "ALERTA" ++ comillas ++ u "|" ++ comillas ++ u "RECHAZADA" ++ comillas ++ nl
    ++ u "}" ++ nl
    ++ nl
    ++ u "Orden médica: " ++ comillas ++ texto_medico ++ comillas ++ nl
    ++ u "Peso: " ++ peso_paciente ++ u "kg" ++ nl
    ++ nl
    ++ u "Evidencia RAG:" ++ nl
    ++ evidencia ++ nl
    ++ nl
    ++ u "Reglas:" ++ nl
    ++ u "- RECHAZADA si contraindicado/toxicidad o dosis fuera de guía." ++ nl
    ++ u "- ALERTA si falta evidencia suficiente." ++ nl
    ++ u "- APROBADA si indicado y dosis correcta." ++ nl.

(** [peso_paciente * dosis_mg_kg] in [ProcesarRecetaTool._run], for a
    dose that is any value but [None]. *)
Definition por_peso (peso_paciente : float) (dosis_mg_kg : json)
  : resultado float :=
  match dosis_mg_kg with
  | JFloat d => Devuelve (mul peso_paciente d)
  | JInt z => d <- float_de_int z ;; Devuelve (mul peso_paciente d)
  | JBool b => Devuelve (mul peso_paciente (of_Z (if b then 1 else 0)))
  | JStr _ | JList _ =>
    Lanza (Excepcion (u "can't multiply sequence by non-int of type 'float'"))
  | _ =>
    Lanza (Excepcion
             (u "unsupported operand type(s) for *: 'float' and '"
                ++ nombre_de_tipo dosis_mg_kg ++ u "'"))
  end.

(** [ProcesarRecetaTool._run] on the values [main] hands over: the
    weight is a float, and the entries read from the answer of the
    completion service are any values. The function returns the JSON
    text of the dictionary built here. *)
Definition ProcesarRecetaTool_run_json
  (id_paciente medico : pystr) (farmaco : json) (peso_paciente : float)
  (dosis_mg_kg frecuencia_texto frecuencia_horas : json)
  (es_tratamiento_aij : bool) (razon_decision decision : json)
  : resultado json :=
  dosis_str <-
    match dosis_mg_kg with
    | JNone => Devuelve (u "N/D")
    | _ =>
      dosis_total <- por_peso peso_paciente dosis_mg_kg ;;
      Devuelve (format_f 0 dosis_total ++ u " mg")
    end ;;
  Devuelve
    (JDict
       [ (u "estado",
          JStr (if es_tratamiento_aij then u "Aprobada" else u "Alerta"));
         (u "decision", decision);
         (u "analisis",
          JDict
            [ (u "farmaco", farmaco);
              (u "dosis_calculada", JStr dosis_str);
              (u "dosis_mg_kg_detectada", dosis_mg_kg);
              (u "frecuencia", frecuencia_texto);
              (u "frecuencia_horas", frecuencia_horas) ]);
         (u "auditoria",
          JDict
            [ (u "es_aij", JBool es_tratamiento_aij);
              (u "razon", razon_decision) ]) ]).

Section RunTripulacion.

(** [json.loads], [json.dumps(_, ensure_ascii=False)], [str] on a list
    or a dictionary, and [float] on a [str]. *)
Variable json_loads : pystr -> resultado json.
Variable json_dumps : json -> pystr.
Variable str_contenedor : json -> pystr.
Variable float_de_texto : pystr -> resultado float.

(** [_read_payload()], on what [sys.stdin.read()] gives. *)
Definition _read_payload (raw : pystr) : json :=
  if negb (no_vacio raw) then JDict []
  else try_except (json_loads raw) (fun _ => JDict []).

(** [_render_output(res)] on a JSON value or a text (which has neither
    [json_dict] nor [raw]). *)
Definition _render_output (res : json) : pystr :=
  match res with
  | JDict _ | JList _ => json_dumps res
  | _ => py_str str_contenedor res
  end.

(** [float(v)] *)
Definition float_de (v : json) : resultado float :=
  match v with
  | JFloat x => Devuelve x
  | JInt z => float_de_int z
  | JBool b => Devuelve (of_Z (if b then 1 else 0))
  | JStr s => float_de_texto s
  | _ =>
    Lanza (Excepcion
             (u "float() argument must be a string or a real number, not '"
                ++ nombre_de_tipo v ++ u "'"))
  end.

(** Step 6: the JSON object of the answer, or the empty dictionary. *)
Definition extraer_data (raw : pystr) : json :=
  let inicio := find raw (u "{") in
  let fin := rfind raw (u "}") in
  if negb (inicio =? -1)%Z && negb (fin =? -1)%Z && (inicio <? fin)%Z then
    try_except (json_loads (slice raw inicio (fin + 1))) (fun _ => JDict [])
  else JDict [].

(** The test of step 7, [not data or not
    required_keys.intersection(data.keys())]: the dictionary that goes
    on, or [None] when the error is written. *)
Definition datos_validos (data : json) : resultado (option dict) :=
  if negb (verdad data) then Devuelve None
  else
    match data with
    | JDict d => Devuelve (if alguna_clave d then Some d else None)
    | _ =>
      Lanza (Excepcion (u "'" ++ nombre_de_tipo data
                          ++ u "' object has no attribute 'keys'"))
    end.

(** Steps 8 and 9 on the dictionary [data]. *)
Definition procesar_data (data : dict) (peso_paciente id_paciente : json)
  : resultado json :=
  let farmaco := o_bien (dict_get_o "farmaco" data) (JStr (u "Desconocido")) in
  let dosis_mg_kg := dict_get_o "dosis_mg_kg" data in
  let frecuencia_texto := o_bien (dict_get_o "frecuencia_texto" data) (JStr []) in
  let frecuencia_horas := dict_get_o "frecuencia_horas" data in
  let es_tratamiento_aij :=
    match dict_get (u "es_tratamiento_aij") data with
    | Some v => verdad v
    | None => false
    end in
  let razon_decision :=
    o_bien (dict_get_o "razon_decision" data) (JStr (u "Sin motivo.")) in
  let decision := dict_get_o "decision" data in
  peso <- float_de peso_paciente ;;
  ProcesarRecetaTool_run_json (py_str str_contenedor id_paciente) []
    farmaco peso dosis_mg_kg frecuencia_texto frecuencia_horas
    es_tratamiento_aij razon_decision decision.

(** The completion service of [main]: [LLM(...).call]. *)
Record ServicioLLM : Type := {
  llm_call : pystr -> resultado json
}.

(** [main()]: from the text on the standard input to the dictionary
    whose JSON text is written on the standard output; an exception
    ends the program. *)
Definition main (env : Entorno) (llm : ServicioLLM) (stdin : pystr)
  : resultado json :=
  let payload := _read_payload stdin in
  texto_medico <- get_o payload (u "texto_medico") (JStr []) ;;
  peso_paciente <- get_o payload (u "peso_paciente") (JInt 0) ;;
  id_paciente <- get_o payload (u "id_paciente") (JStr []) ;;
  let evidencia :=
    ConsultarGuiaRAGTool_run env
      (u "¿Cuál es la dosis recomendada y si está indicado "
         ++ py_str str_contenedor texto_medico ++ u " para AIJ?") in
  respuesta <-
    llm_call llm
      (prompt_clinico (py_str str_contenedor texto_medico)
         (py_str str_contenedor peso_paciente) evidencia) ;;
  let raw := _render_output respuesta in
  let data := extraer_data raw in
  valido <- datos_validos data ;;
  match valido with
  | None => Devuelve (error_payload raw)
  | Some d => procesar_data d peso_paciente id_paciente
  end.

End RunTripulacion.

(** ** Services and readers of the examples of [main] *)

(** A completion service that always answers the text [respuesta]. *)
Definition servicio_ejemplo (respuesta : pystr) : ServicioLLM :=
  {| llm_call := fun _ => Devuelve (JStr respuesta) |}.

(** The JSON text of an answer whose only entry is a decision, and a
    reader that knows this text and the text of an empty list. *)
Definition json_solo_decision : pystr :=
  u "{" ++ comillas ++ u "decision" ++ comillas ++ u ": " ++ comillas
    ++ u "RECHAZADA" ++ comillas ++ u "}".

Definition json_loads_decision (t : pystr) : resultado json :=
  if str_eqb t json_solo_decision then
    Devuelve (JDict [(u "decision", JStr (u "RECHAZADA"))])
  else if str_eqb t (u "[]") then Devuelve (JList [])
  else Lanza (Excepcion (u "Expecting value: line 1 column 1 (char 0)")).

(** [float(s)] on the plain decimal numerals of the examples. *)
Definition float_de_texto_ejemplo (s : pystr) : resultado float :=
  match float_of_str s with
  | Some x => Devuelve x
  | None => Lanza (Excepcion (u "could not convert string to float"))
  end.

(** ** Notions used in the statements on [main] *)

(** The entry [k] of the payload, or [defecto]: [payload.get(k, defecto)]. *)
Definition entrada (k : string) (defecto : json) (payload : dict) : json :=
  match dict_get (u k) payload with
  | Some v => v
  | None => defecto
  end.

(** The prompt [main] sends for the payload [payload]. *)
Definition prompt_de_main (str_contenedor : json -> pystr) (env : Entorno)
  (payload : dict) : pystr :=
  let texto_medico :=
    py_str str_contenedor (entrada "texto_medico" (JStr []) payload) in
  prompt_clinico texto_medico
    (py_str str_contenedor (entrada "peso_paciente" (JInt 0) payload))
    (ConsultarGuiaRAGTool_run env
       (u "¿Cuál es la dosis recomendada y si está indicado "
          ++ texto_medico ++ u " para AIJ?")).

(** The text [raw] gives no usable data: it has no "{", or no "}" after
    its first "{", or the text from the first "{" to the last "}" is
    not read by [json.loads], or is read as a value that counts as
    false, or as a dictionary with none of the seven keys. *)
Definition sin_datos (json_loads : pystr -> resultado json) (raw : pystr)
  : Prop :=
  let inicio := find raw (u "{") in
  let fin := rfind raw (u "}") in
  inicio = (-1)%Z
  \/ (fin <= inicio)%Z
  \/ (exists e, json_loads (slice raw inicio (fin + 1)) = Lanza e)
  \/ (exists v,
        json_loads (slice raw inicio (fin + 1)) = Devuelve v
        /\ (verdad v = false
            \/ exists d, v = JDict d /\ alguna_clave d = false)).

(** A weight [float] refuses with a [TypeError]. *)
Definition peso_sin_float (v : json) : bool :=
  match v with
  | JNone | JList _ | JDict _ => true
  | _ => false
  end.

(** The JSON text of a payload whose weight is [null], and a reader that
    knows it beside the texts above. *)
Definition json_peso_nulo : pystr :=
  u "{" ++ comillas ++ u "peso_paciente" ++ comillas ++ u ": null}".

Definition json_loads_peso_nulo (t : pystr) : resultado json :=
  if str_eqb t json_peso_nulo then
    Devuelve (JDict [(u "peso_paciente", JNone)])
  else json_loads_decision t.

(** ** A tactic for boolean tests on code points *)
Ltac bprop :=
  repeat match goal with
         | H : (_ && _) = true |- _ => apply andb_true_iff in H as [? ?]
         | H : (_ || _) = true |- _ => apply orb_true_iff in H as [?|?]
         | H : negb _ = true |- _ => apply negb_true_iff in H
         | H : (_ <=? _)%N = true |- _ => apply N.leb_le in H
         | H : (_ =? _)%N = true |- _ => apply N.eqb_eq in H
         | H : (_ =? _)%N = false |- _ => apply N.eqb_neq in H
         | H : false = true |- _ => discriminate H
         end.
Unset Implicit Arguments.

(* ================================================================== *)
(** * Facts about the matcher *)
(* ================================================================== *)

Section MatcherFacts.

Variable ic : bool.
Variable s : pystr.

Lemma rep_loop_sound :
  forall (step : nat -> caps -> cont -> option (nat * caps))
         (R : nat -> caps -> nat -> caps -> Prop) lo hi k,
    (forall i c k' res, step i c k' = Some res ->
       exists j c', R i c j c' /\ k' j c' = Some res) ->
    forall fuel n i c res,
      rep_loop step lo hi k fuel n i c = Some res ->
      exists j c', iter R lo hi n i c j c' /\ k j c' = Some res.
Proof.
  intros step R lo hi k Hstep.
  assert (Hstop : forall n i c res,
             (if lo <=? n then k i c else None) = Some res ->
             exists j c', iter R lo hi n i c j c' /\ k j c' = Some res).
  { intros n i c res H. destruct (lo <=? n) eqn:E; [|discriminate].
    exists i, c. split; [apply iter_stop; now apply Nat.leb_le | assumption]. }
  induction fuel as [|fuel IH]; intros n i c res H; simpl in H.
  - now apply Hstop.
  - destruct (under hi n) eqn:U; [|now apply Hstop].
    destruct (step i c _) as [res'|] eqn:St; [|now apply Hstop].
    injection H as ->.
    apply Hstep in St as (j & c' & HR & Hk).
    destruct (i <? j) eqn:Lt; [|discriminate].
    apply IH in Hk as (j2 & c2 & Hit & Hk2).
    exists j2, c2. split; [|assumption].
    eapply iter_step; eauto. now apply Nat.ltb_lt.
Qed.

(** Soundness: a result of the search is a match of the pattern. *)
Lemma run_sound :
  forall r i c k res,
    run ic s r i c k = Some res ->
    exists j c', sem ic s r i c j c' /\ k j c' = Some res.
Proof.
  induction r as [|neg items|a IHa b IHb|a IHa b IHb|lo hi a IHa|g a IHa|a IHa|];
    intros i c k res H; cbn [run] in H.
  - exists i, c. cbn [sem]. auto.
  - destruct (nth_error s i) as [x|] eqn:Hx; [|discriminate].
    destruct (set_has ic neg items x) eqn:Hs; [|discriminate].
    exists (S i), c. split; [|assumption]. cbn [sem]. exists x. auto.
  - apply IHa in H as (m & c1 & Ha & H).
    apply IHb in H as (j & c' & Hb & H).
    exists j, c'. split; [|assumption]. cbn [sem]. eauto.
  - destruct (run ic s a i c k) as [res'|] eqn:Ha.
    + injection H as ->. apply IHa in Ha as (j & c' & Hs & Hk).
      exists j, c'. cbn [sem]. auto.
    + apply IHb in H as (j & c' & Hs & Hk). exists j, c'. cbn [sem]. auto.
  - eapply rep_loop_sound in H; [|exact IHa]. exact H.
  - apply IHa in H as (j & c1 & Hs & Hk).
    exists j, (set_cap g (i, j) c1). split; [|assumption]. cbn [sem]. eauto.
  - destruct (run ic s a i c _) eqn:Ha; [discriminate|].
    exists i, c. cbn [sem]. auto.
  - destruct (boundary s i) eqn:Hb; [|discriminate].
    exists i, c. cbn [sem]. auto.
Qed.

(** A match moves forward and stays inside the text. *)
Lemma iter_bounds :
  forall (R : nat -> caps -> nat -> caps -> Prop) lo hi,
    (forall i c j c', R i c j c' -> i <= j /\ j <= Nat.max i (List.length s)) ->
    forall n i c j c', iter R lo hi n i c j c' ->
      i <= j /\ j <= Nat.max i (List.length s).
Proof.
  intros R lo hi HR n i c j c' H.
  induction H as [|n i c i1 c1 j c' U Hr Hlt Hit IH]; [lia|].
  apply HR in Hr. lia.
Qed.

Lemma sem_bounds :
  forall r i c j c', sem ic s r i c j c' ->
    i <= j /\ j <= Nat.max i (List.length s).
Proof.
  induction r as [|neg items|a IHa b IHb|a IHa b IHb|lo hi a IHa|g a IHa|a IHa|];
    intros i c j c' H; cbn [sem] in H.
  - lia.
  - destruct H as (x & Hx & _ & -> & _).
    assert (i < List.length s) by (apply nth_error_Some; congruence). lia.
  - destruct H as (m & c1 & Ha & Hb). apply IHa in Ha. apply IHb in Hb. lia.
  - destruct H as [H|H]; [now apply IHa in H | now apply IHb in H].
  - eapply iter_bounds; eauto.
  - destruct H as (c1 & Ha & _). now apply IHa in Ha.
  - lia.
  - lia.
Qed.

Lemma rep_loop_complete :
  forall (step : nat -> caps -> cont -> option (nat * caps))
         (R : nat -> caps -> nat -> caps -> Prop) lo hi k,
    (forall i c j c' k', R i c j c' -> k' j c' <> None -> step i c k' <> None) ->
    (forall i c j c', R i c j c' -> i <= j /\ j <= Nat.max i (List.length s)) ->
    forall n i c j c', iter R lo hi n i c j c' -> k j c' <> None ->
    forall fuel, List.length s - i < fuel ->
      rep_loop step lo hi k fuel n i c <> None.
Proof.
  intros step R lo hi k Hstep Hb n i c j c' H.
  induction H as [n i c Hlo|n i c i1 c1 j c' U Hr Hlt Hit IH]; intros Hk fuel Hf.
  - assert (E : (lo <=? n) = true) by now apply Nat.leb_le.
    destruct fuel as [|fuel]; simpl; rewrite E; [assumption|].
    destruct (under hi n); [|assumption].
    destruct (step i c _); [discriminate|assumption].
  - destruct fuel as [|fuel]; [lia|]. simpl. rewrite U.
    destruct (step i c _) as [res|] eqn:St; [destruct (lo <=? n); discriminate|].
    exfalso. revert St. apply (Hstep i c i1 c1); [assumption|].
    assert (E : (i <? i1) = true) by now apply Nat.ltb_lt.
    rewrite E. apply IH; [assumption|].
    apply Hb in Hr. lia.
Qed.

(** Completeness: where the pattern can match, the search finds a match. *)
Lemma run_complete :
  forall r i c j c' k,
    sem ic s r i c j c' -> k j c' <> None -> run ic s r i c k <> None.
Proof.
  induction r as [|neg items|a IHa b IHb|a IHa b IHb|lo hi a IHa|g a IHa|a IHa|];
    intros i c j c' k H Hk; cbn [sem] in H; cbn [run].
  - destruct H as [-> ->]. assumption.
  - destruct H as (x & Hx & Hs & -> & ->). rewrite Hx, Hs. assumption.
  - destruct H as (m & c1 & Ha & Hb).
    apply (IHa i c m c1); [assumption|]. now apply (IHb m c1 j c').
  - destruct (run ic s a i c k) eqn:Ha; [discriminate|].
    destruct H as [H|H]; [exfalso; revert Ha; now apply (IHa i c j c')|].
    now apply (IHb i c j c').
  - eapply rep_loop_complete; eauto using sem_bounds; lia.
  - destruct H as (c1 & Ha & ->). now apply (IHa i c j c1).
  - destruct H as (-> & -> & Hn). rewrite Hn. assumption.
  - destruct H as (Hb & -> & ->). rewrite Hb. assumption.
Qed.

End MatcherFacts.

(* ================================================================== *)
(** * Facts about floats *)
(* ================================================================== *)

Lemma iter_pos_invariant :
  forall (A : Type) (f : A -> A) (P : A -> Prop),
    (forall x, P x -> P (f x)) ->
    forall n x, P x -> P (iter_pos f n x).
Proof.
  intros A f P Hf. induction n as [n IH|n IH|]; intros x Hx; simpl; auto.
Qed.

Lemma shr_1_nonneg : forall mrs, (0 <= shr_m mrs)%Z -> (0 <= shr_m (shr_1 mrs))%Z.
Proof.
  intros [m r t]. simpl. intros H.
  destruct m as [|p|p]; [simpl; lia| |lia].
  destruct p; simpl; lia.
Qed.

Lemma shr_fexp_nonneg :
  forall m e l, (0 <= m)%Z -> (0 <= shr_m (fst (shr_fexp prec emax m e l)))%Z.
Proof.
  intros m e l Hm. unfold shr_fexp, shr.
  assert (H0 : (0 <= shr_m (shr_record_of_loc m l))%Z).
  { destruct l as [|[]]; simpl; assumption. }
  destruct (_ - e)%Z; simpl; try assumption.
  apply iter_pos_invariant; [apply shr_1_nonneg | assumption].
Qed.

Lemma round_nearest_even_nonneg :
  forall m l, (0 <= m)%Z -> (0 <= round_nearest_even m l)%Z.
Proof.
  intros m l Hm. destruct l as [|[]]; simpl; try lia.
  destruct (Z.even m); lia.
Qed.

(** Rounding a non-negative significand never gives a NaN. *)
Lemma binary_round_aux_not_nan :
  forall sx mx ex lx, (0 <= mx)%Z ->
    is_nan (binary_round_aux prec emax sx mx ex lx) = false.
Proof.
  intros sx mx ex lx Hm. unfold binary_round_aux.
  pose proof (shr_fexp_nonneg mx ex lx Hm) as H1.
  destruct (shr_fexp prec emax mx ex lx) as [mrs' e']. simpl in H1.
  pose proof (round_nearest_even_nonneg _ (loc_of_shr_record mrs') H1) as H2.
  pose proof (shr_fexp_nonneg _ e' loc_Exact H2) as H3.
  destruct (shr_fexp prec emax _ e' loc_Exact) as [mrs'' e'']. simpl in H3.
  destruct (shr_m mrs'') as [|p|p]; [reflexivity| |lia].
  destruct (e'' <=? emax - prec)%Z; reflexivity.
Qed.

Lemma SFdiv_core_binary_nonneg :
  forall m1 e1 m2 e2,
    (0 <= fst (fst (SFdiv_core_binary prec emax (Zpos m1) e1 (Zpos m2) e2)))%Z.
Proof.
  intros m1 e1 m2 e2. unfold SFdiv_core_binary.
  set (sh := (_ - _ - _)%Z).
  set (m' := match sh with
             | Zpos _ => Z.shiftl (Zpos m1) sh
             | Z0 => Zpos m1
             | Zneg _ => 0%Z
             end).
  assert (Hm' : (0 <= m')%Z).
  { unfold m'. destruct sh; try lia. apply Z.shiftl_nonneg. lia. }
  pose proof (Z_div_mod m' (Zpos m2) eq_refl) as H.
  destruct (Z.div_eucl m' (Zpos m2)) as [q r]. simpl. nia.
Qed.

Lemma of_ratio_not_nan : forall n d, is_nan (of_ratio n d) = false.
Proof.
  intros [|p] d; [reflexivity|]. unfold of_ratio, SFdiv.
  pose proof (SFdiv_core_binary_nonneg p 0 d 0) as H.
  destruct (SFdiv_core_binary prec emax (Zpos p) 0 (Zpos d) 0) as [[mz ez] lz].
  simpl in H. now apply binary_round_aux_not_nan.
Qed.

Lemma float_of_str_not_nan :
  forall t x, float_of_str t = Some x -> is_nan x = false.
Proof.
  intros t x. unfold float_of_str.
  destruct (split_at_dot t) as [[|c ip] [fp|]];
    try discriminate.
  - destruct fp; [discriminate|].
    destruct (digits_value _ _); [|discriminate].
    intros [= <-]. apply of_ratio_not_nan.
  - destruct (digits_value _ _); [|discriminate].
    intros [= <-]. apply of_ratio_not_nan.
Qed.

(** The product of two floats that pass [if x:] is a NaN only if a
    factor is. *)
Lemma mul_not_nan :
  forall x y, truthy x = true -> truthy y = true ->
    is_nan x = false -> is_nan y = false -> is_nan (mul x y) = false.
Proof.
  intros [sx|sx| |sx mx ex] [sy|sy| |sy my ey]; simpl; try discriminate;
    intros _ _ _ _; try reflexivity.
  apply binary_round_aux_not_nan. lia.
Qed.

Lemma SFcompare_antisym :
  forall x y c, SFcompare x y = Some c -> SFcompare y x = Some (CompOpp c).
Proof.
  intros [sx|sx| |sx mx ex] [sy|sy| |sy my ey] c; simpl; try discriminate;
    intros [= <-];
    try (destruct sx; try destruct sy; reflexivity);
    try (destruct sy; reflexivity).
  pose proof (Pos.compare_cont_antisym mx my Eq) as H. simpl in H.
  destruct sx, sy; try reflexivity;
    rewrite (Z.compare_antisym ex ey);
    destruct (ex ?= ey)%Z; simpl; try reflexivity;
    rewrite <- H; destruct (Pos.compare_cont Eq mx my); reflexivity.
Qed.

Lemma SFcompare_total :
  forall x y, is_nan x = false -> is_nan y = false ->
    exists c, SFcompare x y = Some c.
Proof.
  intros [sx|sx| |sx mx ex] [sy|sy| |sy my ey]; simpl; try discriminate;
    intros _ _; eauto.
Qed.

(** [x < y] excludes [x >= y]; between numbers one of them holds. *)
Lemma lt_not_ge : forall x y, lt x y = true -> ge x y = false.
Proof.
  intros x y. unfold lt, ge, SFltb, SFleb.
  destruct (SFcompare x y) as [c|] eqn:E; [|discriminate].
  apply SFcompare_antisym in E. rewrite E.
  destruct c; simpl; congruence.
Qed.

Lemma not_ge_lt :
  forall x y, is_nan x = false -> is_nan y = false ->
    ge x y = false -> lt x y = true.
Proof.
  intros x y Hx Hy. unfold lt, ge, SFltb, SFleb.
  destruct (SFcompare_total x y Hx Hy) as [c E]. rewrite E.
  apply SFcompare_antisym in E. rewrite E.
  destruct c; simpl; congruence.
Qed.

Lemma eqb_ge : forall x y, SFeqb x y = true -> ge x y = true.
Proof.
  intros x y. unfold ge, SFeqb, SFleb.
  destruct (SFcompare x y) as [c|] eqn:E; [|discriminate].
  apply SFcompare_antisym in E. rewrite E.
  destruct c; simpl; congruence.
Qed.

(* ================================================================== *)
(** * Facts about strings *)
(* ================================================================== *)

Lemma substr_nil : forall (s : pystr) i, substr s i i = [].
Proof. intros. unfold substr. now rewrite Nat.sub_diag. Qed.

Lemma substr_cons :
  forall (s : pystr) i j x,
    nth_error s i = Some x -> i < j ->
    substr s i j = x :: substr s (S i) j.
Proof.
  unfold substr. induction s as [|y s IH]; intros i j x Hx Hlt.
  - destruct i; discriminate.
  - destruct i as [|i].
    + injection Hx as ->. destruct j as [|j]; [lia|].
      simpl. now rewrite Nat.sub_0_r.
    + destruct j as [|j]; [lia|]. simpl. apply IH; [assumption|lia].
Qed.

Lemma substr_app :
  forall (s : pystr) i m j, i <= m -> m <= j ->
    substr s i j = substr s i m ++ substr s m j.
Proof.
  intros s i m j H1 H2. unfold substr.
  rewrite <- (firstn_skipn (m - i) (firstn (j - i) (skipn i s))).
  rewrite firstn_firstn, skipn_firstn_comm, skipn_skipn.
  replace (Nat.min (m - i) (j - i)) with (m - i) by lia.
  replace (j - i - (m - i)) with (j - m) by lia.
  replace (m - i + i) with m by lia. reflexivity.
Qed.

Lemma substr_length :
  forall (s : pystr) i j, j <= List.length s ->
    List.length (substr s i j) = j - i.
Proof.
  intros s i j H. unfold substr. rewrite length_firstn, length_skipn. lia.
Qed.

Lemma substr_length_le :
  forall (s : pystr) i j, List.length (substr s i j) <= List.length s.
Proof.
  intros s i j. unfold substr. rewrite length_firstn, length_skipn. lia.
Qed.

Lemma str_eqb_eq : forall a b, str_eqb a b = true <-> a = b.
Proof.
  induction a as [|x a IH]; intros [|y b]; simpl; split; intros H;
    try reflexivity; try discriminate.
  - apply andb_true_iff in H as [H1 H2]. apply N.eqb_eq in H1.
    apply IH in H2. congruence.
  - injection H as -> ->. rewrite N.eqb_refl. now apply IH.
Qed.

Lemma str_eqb_refl : forall a, str_eqb a a = true.
Proof. intros. now apply str_eqb_eq. Qed.

(** Lower-casing goes character by character, and keeps every position
    of a text that has no U+0130. *)
Lemma lower_app : forall a b, lower (a ++ b) = lower a ++ lower b.
Proof. intros. apply flat_map_app. Qed.

Lemma lower_sin_i_punto :
  forall s, ~ In 304%N s -> lower s = map lower_cp s.
Proof.
  induction s as [|c s IH]; intros H; [reflexivity|].
  cbn [lower flat_map map]. unfold lower_full.
  destruct (N.eqb_spec c 304) as [->|_]; [exfalso; apply H; now left|].
  cbn [app]. f_equal. apply IH. intros Hin. apply H. now right.
Qed.

Lemma lower_length :
  forall s, ~ In 304%N s -> List.length (lower s) = List.length s.
Proof. intros s H. rewrite (lower_sin_i_punto s H). apply length_map. Qed.

Lemma lower_firstn :
  forall s n, ~ In 304%N s -> lower (firstn n s) = firstn n (lower s).
Proof.
  intros s n H. rewrite (lower_sin_i_punto s H), firstn_map.
  apply lower_sin_i_punto. intros Hin. apply H.
  rewrite <- (firstn_skipn n s). apply in_or_app. now left.
Qed.

Lemma latino_sin_i_punto : forall s, texto_latino s -> ~ In 304%N s.
Proof.
  intros s H Hin. unfold texto_latino in H. rewrite Forall_forall in H.
  apply H in Hin. lia.
Qed.

(* ================================================================== *)
(** * Invariants of the group spans *)
(* ================================================================== *)

Lemma set_cap_length :
  forall (c : caps) g v, List.length (set_cap g v c) = List.length c.
Proof.
  induction c as [|x c IH]; intros g v; [reflexivity|].
  destruct g as [|[|g]]; simpl; try reflexivity. f_equal. apply IH.
Qed.

Lemma set_cap_ok :
  forall (P : nat -> nat -> Prop) a b c g,
    P a b -> caps_ok P c -> caps_ok P (set_cap g (a, b) c).
Proof.
  intros P a b. induction c as [|x c IH]; intros g Hp Hc; [assumption|].
  inversion Hc as [|? ? Hx Ht]; subst.
  destruct g as [|[|g]]; simpl.
  - assumption.
  - constructor; assumption.
  - constructor; [assumption|]. now apply IH.
Qed.

Lemma set_cap_keeps :
  forall (c : caps) g v k,
    nth k c None <> None -> nth k (set_cap g v c) None <> None.
Proof.
  induction c as [|x c IH]; intros g v k H; [assumption|].
  destruct g as [|[|g]]; simpl.
  - assumption.
  - destruct k; [discriminate|assumption].
  - destruct k; [assumption|]. now apply IH.
Qed.

Lemma set_cap_sets :
  forall (c : caps) g v, 0 < g -> g <= List.length c ->
    nth (g - 1) (set_cap g v c) None = Some v.
Proof.
  induction c as [|x c IH]; intros g v H1 H2; simpl in H2; [lia|].
  destruct g as [|[|g]]; [lia|reflexivity|].
  specialize (IH (S g) v). simpl in IH. rewrite Nat.sub_0_r in IH.
  simpl. apply IH; lia.
Qed.

Section CapsFacts.

Variable ic : bool.
Variable s : pystr.

(** If the body of every group only matches spans with [P], the spans
    of a match satisfy [P]. *)
Lemma sem_caps_ok :
  forall (P : nat -> nat -> Prop) body,
    (forall i c j c', sem ic s body i c j c' -> P i j /\ c' = c) ->
    forall r, grupos_son body r ->
    forall i c j c', sem ic s r i c j c' -> caps_ok P c -> caps_ok P c'.
Proof.
  intros P body Hbody.
  induction r as [|neg items|a IHa b IHb|a IHa b IHb|lo hi a IHa|g a IHa|a IHa|];
    intros Hg i c j c' H Hc; cbn [sem grupos_son] in *.
  - destruct H as [_ ->]. assumption.
  - destruct H as (x & _ & _ & _ & ->). assumption.
  - destruct H as (m & c1 & Ha & Hb). destruct Hg as [Ga Gb]. eauto.
  - destruct Hg as [Ga Gb]. destruct H as [H|H]; eauto.
  - induction H as [|n i c i1 c1 j c' U Hr Hlt Hit IH]; eauto.
  - destruct H as (c1 & Ha & ->). subst a.
    apply Hbody in Ha as [Hp ->]. now apply set_cap_ok.
  - destruct H as (_ & -> & _). assumption.
  - destruct H as (_ & _ & ->). assumption.
Qed.

(** A match keeps the number of spans and the spans that are set, and
    sets the groups that [fija] finds. *)
Lemma sem_fija :
  forall r i c j c', sem ic s r i c j c' ->
    List.length c' = List.length c
    /\ (forall k, nth k c None <> None -> nth k c' None <> None)
    /\ (forall g, fija g r = true -> 0 < g -> g <= List.length c ->
                  nth (g - 1) c' None <> None).
Proof.
  induction r as [|neg items|a IHa b IHb|a IHa b IHb|lo hi a IHa|g' a IHa|a IHa|];
    intros i c j c' H; cbn [sem fija] in *.
  - destruct H as [_ ->]. repeat split; auto; discriminate.
  - destruct H as (x & _ & _ & _ & ->). repeat split; auto; discriminate.
  - destruct H as (m & c1 & Ha & Hb).
    apply IHa in Ha as (La & Ka & Fa). apply IHb in Hb as (Lb & Kb & Fb).
    split; [congruence|]. split; [auto|].
    intros g Hg H0 Hl. apply orb_true_iff in Hg as [Hg|Hg].
    + apply Kb. now apply Fa.
    + apply Fb; [assumption|assumption|]. now rewrite La.
  - destruct H as [H|H]; [apply IHa in H|apply IHb in H];
      destruct H as (L & K & F); (split; [assumption|]); (split; [assumption|]);
      intros g Hg; apply andb_true_iff in Hg as [Hg1 Hg2]; auto.
  - assert (G : forall n, iter (sem ic s a) lo hi n i c j c' ->
               List.length c' = List.length c
               /\ (forall k, nth k c None <> None -> nth k c' None <> None)
               /\ (forall g, n < lo -> fija g a = true -> 0 < g ->
                             g <= List.length c -> nth (g - 1) c' None <> None)).
    { clear H. intros n H.
      induction H as [n i c Hlo|n i c i1 c1 j c' U Hr Hlt Hit IH].
      - repeat split; auto. intros; lia.
      - apply IHa in Hr as (La & Ka & Fa). destruct IH as (Lb & Kb & Fb).
        split; [congruence|]. split; [auto|].
        intros g _ Hg H0 Hl. apply Kb. now apply Fa. }
    apply G in H as (L & K & F). split; [assumption|]. split; [assumption|].
    intros g Hg. apply andb_true_iff in Hg as [Hg1 Hg2].
    apply Nat.ltb_lt in Hg1. now apply F.
  - destruct H as (c1 & Ha & ->). apply IHa in Ha as (La & Ka & Fa).
    split; [now rewrite set_cap_length|].
    split; [intros k Hk; apply set_cap_keeps; auto|].
    intros g Hg H0 Hl. apply orb_true_iff in Hg as [Hg|Hg].
    + apply Nat.eqb_eq in Hg. subst g'.
      rewrite set_cap_sets; [discriminate|assumption|congruence].
    + apply set_cap_keeps. now apply Fa.
  - destruct H as (_ & -> & _). repeat split; auto; discriminate.
  - destruct H as (_ & _ & ->). repeat split; auto; discriminate.
Qed.

End CapsFacts.

(* ================================================================== *)
(** * Numerals *)
(* ================================================================== *)

Lemma lower_cp_cases :
  forall x, lower_cp x = x \/ (97 <= lower_cp x)%N.
Proof.
  intros x. unfold lower_cp.
  destruct ((65 <=? x) && (x <=? 90))%N eqn:E1; [bprop; lia|].
  destruct ((192 <=? x) && (x <=? 222) && negb (x =? 215))%N eqn:E2;
    [bprop; lia|auto].
Qed.

Lemma upper_cp_cases :
  forall x, upper_cp x = x \/ (65 <= upper_cp x)%N.
Proof.
  intros x. unfold upper_cp.
  destruct ((97 <=? x) && (x <=? 122))%N eqn:E1; [bprop; lia|].
  destruct ((224 <=? x) && (x <=? 254) && negb (x =? 247))%N eqn:E2;
    [bprop; lia|].
  destruct (x =? 255)%N; [lia|]. destruct (x =? 181)%N; [lia|auto].
Qed.

Lemma is_digit_range : forall x, is_digit x = true -> (48 <= x <= 57)%N.
Proof. unfold is_digit. intros x H. bprop. lia. Qed.

Lemma set_has_digit :
  forall ic x, set_has ic false [CDigit] x = true -> is_digit x = true.
Proof.
  intros ic x H. unfold set_has in H. simpl in H.
  rewrite orb_false_r in H. apply orb_true_iff in H as [H|H]; [assumption|].
  destruct ic; [|discriminate]. simpl in H.
  apply orb_true_iff in H as [H|H]; apply is_digit_range in H.
  - destruct (lower_cp_cases x) as [E|E]; [|lia].
    rewrite E in H. unfold is_digit. apply andb_true_iff.
    split; apply N.leb_le; lia.
  - destruct (upper_cp_cases x) as [E|E]; [|lia].
    rewrite E in H. unfold is_digit. apply andb_true_iff.
    split; apply N.leb_le; lia.
Qed.

Lemma set_has_sep :
  forall ic x, set_has ic false [CChar 46; CChar 44] x = true ->
    x = 46%N \/ x = 44%N.
Proof.
  intros ic x H. unfold set_has in H. simpl in H.
  rewrite orb_false_r in H.
  destruct (lower_cp_cases x) as [El|El], (upper_cp_cases x) as [Eu|Eu];
    destruct ic; simpl in H; bprop; auto; try lia.
Qed.


Lemma replace_digitos : forall l, digitos l -> replace_cp 44 46 l = l.
Proof.
  induction 1 as [|x l Hx Hl IH]; [reflexivity|].
  unfold replace_cp in *. simpl. rewrite IH.
  apply is_digit_range in Hx.
  destruct (N.eqb_spec x 44); [lia|reflexivity].
Qed.

Lemma replace_app :
  forall a b l1 l2, replace_cp a b (l1 ++ l2) = replace_cp a b l1 ++ replace_cp a b l2.
Proof. intros. apply map_app. Qed.

Lemma split_at_dot_digitos :
  forall l rest, digitos l ->
    split_at_dot (l ++ rest) =
    (l ++ fst (split_at_dot rest), snd (split_at_dot rest)).
Proof.
  induction 1 as [|x l Hx Hl IH]; simpl.
  - now destruct (split_at_dot rest).
  - apply is_digit_range in Hx.
    destruct (N.eqb_spec x 46); [lia|].
    rewrite IH. reflexivity.
Qed.

Lemma digits_value_digitos :
  forall l, digitos l -> forall acc, exists n, digits_value acc l = Some n.
Proof.
  induction 1 as [|x l Hx Hl IH]; intros acc; simpl; [eauto|].
  rewrite Hx. apply IH.
Qed.

Lemma digitos_app : forall a b, digitos a -> digitos b -> digitos (a ++ b).
Proof. intros. now apply Forall_app. Qed.

Lemma es_numeral_entero :
  forall l, digitos l -> l <> [] -> es_numeral l.
Proof.
  intros l Hl Hne. unfold es_numeral, a_float.
  rewrite (replace_digitos _ Hl). unfold float_of_str.
  pose proof (split_at_dot_digitos _ [] Hl) as E. rewrite app_nil_r in E.
  rewrite E. simpl. rewrite app_nil_r.
  destruct l as [|c l]; [congruence|].
  destruct (digits_value_digitos _ Hl 0%N) as [n Hn]. rewrite Hn.
  eexists. split; [reflexivity|]. apply of_ratio_not_nan.
Qed.

Lemma es_numeral_decimal :
  forall l1 sep l2,
    digitos l1 -> l1 <> [] -> sep = 46%N \/ sep = 44%N ->
    digitos l2 -> l2 <> [] -> es_numeral (l1 ++ sep :: l2).
Proof.
  intros l1 sep l2 H1 N1 Hsep H2 N2. unfold es_numeral, a_float.
  rewrite replace_app. simpl.
  rewrite (replace_digitos _ H1).
  fold (replace_cp 44 46 l2). rewrite (replace_digitos _ H2).
  replace (if (sep =? 44)%N then 46%N else sep) with 46%N
    by (destruct Hsep; subst; reflexivity).
  unfold float_of_str. rewrite (split_at_dot_digitos _ _ H1). simpl.
  rewrite app_nil_r.
  destruct l1 as [|c1 l1]; [congruence|].
  destruct l2 as [|c2 l2]; [congruence|].
  destruct (digits_value_digitos _ (digitos_app _ _ H1 H2) 0%N) as [n Hn].
  simpl. simpl in Hn. rewrite Hn.
  eexists. split; [reflexivity|]. apply of_ratio_not_nan.
Qed.

Lemma es_numeral_no_vacio : forall t, es_numeral t -> t <> [].
Proof. intros t (x & H & _) ->. discriminate. Qed.

Section NumeralFacts.

Variable ic : bool.
Variable s : pystr.

(** A run of one character class: the span holds characters of the
    class only, and the groups stay. *)
Lemma iter_cset :
  forall neg items lo hi n i c j c',
    iter (sem ic s (CSet neg items)) lo hi n i c j c' ->
    c' = c /\ i <= j /\ lo <= n + (j - i)
    /\ Forall (fun x => set_has ic neg items x = true) (substr s i j).
Proof.
  intros neg items lo hi n i c j c' H.
  induction H as [n i c Hlo|n i c i1 c1 j c' U Hr Hlt Hit IH].
  - rewrite substr_nil. repeat split; try lia. constructor.
  - destruct Hr as (x & Hx & Hs & -> & ->).
    destruct IH as (-> & Hle & Hn & Hd).
    repeat split; try lia.
    rewrite (substr_cons _ _ _ _ Hx) by lia.
    constructor; assumption.
Qed.

Lemma iter_digitos :
  forall lo hi n i c j c',
    iter (sem ic s (CSet false [CDigit])) lo hi n i c j c' ->
    c' = c /\ i <= j /\ lo <= n + (j - i) /\ digitos (substr s i j).
Proof.
  intros lo hi n i c j c' H.
  apply iter_cset in H as (Hc & Hle & Hn & Hd).
  repeat split; try assumption.
  eapply Forall_impl; [|exact Hd]. apply set_has_digit.
Qed.

(** The numeral pattern matches texts that [a_float] reads, and sets
    no group. *)
Lemma sem_numeral :
  forall i c j c', sem ic s numeral i c j c' ->
    es_numeral (substr s i j) /\ c' = c.
Proof.
  intros i c j c' H. unfold numeral in H. cbn [sem] in H.
  destruct H as (m & c1 & H1 & H2).
  apply iter_digitos in H1 as H1'. destruct H1' as (-> & Him & Hn1 & Hd1).
  assert (Hne1 : substr s i m <> []).
  { inversion H1 as [|? ? ? ? ? ? ? _ (x & Hx & _) ? _]; subst; [lia|].
    rewrite (substr_cons _ _ _ _ Hx) by lia. discriminate. }
  inversion H2 as [|? ? ? i1 c2 ? ? _ Hr Hlt Hit]; subst.
  - split; [|reflexivity]. now apply es_numeral_entero.
  - destruct Hr as (m2 & c3 & (x & Hx & Hs & -> & ->) & H3).
    apply iter_digitos in H3 as H3'. destruct H3' as (-> & Hle3 & Hn3 & Hd3).
    inversion Hit as [|? ? ? ? ? ? ? U]; subst; [|discriminate].
    split; [|reflexivity].
    rewrite (substr_app s i m j) by lia.
    rewrite (substr_cons _ _ _ _ Hx) by lia.
    apply es_numeral_decimal; auto.
    + eapply set_has_sep; eauto.
    + inversion H3 as [|? ? ? ? ? ? ? _ (y & Hy & _) ? _]; subst; [lia|].
      rewrite (substr_cons _ _ _ _ Hy) by lia. discriminate.
Qed.

End NumeralFacts.

(* ================================================================== *)
(** * Facts about [re.search] *)
(* ================================================================== *)

Lemma match_at_sound :
  forall ic r s i m, match_at ic r s i = Some m ->
    m_start m = i
    /\ sem ic s r i (repeat None (ngroups r)) (m_end m) (m_caps m).
Proof.
  intros ic r s i m H. unfold match_at in H.
  destruct (run ic s r i _ _) as [[j c]|] eqn:E; [|discriminate].
  injection H as <-. simpl.
  apply run_sound in E as (j' & c' & Hs & [= <- <-]). auto.
Qed.

Lemma match_at_complete :
  forall ic r s i j c',
    sem ic s r i (repeat None (ngroups r)) j c' -> match_at ic r s i <> None.
Proof.
  intros ic r s i j c' H. unfold match_at.
  destruct (run ic s r i _ _) as [[j0 c0]|] eqn:E; [discriminate|].
  exfalso. revert E. eapply run_complete; eauto. discriminate.
Qed.

Lemma search_from_some :
  forall ic r s fuel i m, search_from ic r s fuel i = Some m ->
    i <= m_start m <= i + fuel
    /\ match_at ic r s (m_start m) = Some m
    /\ forall q, i <= q < m_start m -> match_at ic r s q = None.
Proof.
  intros ic r s. induction fuel as [|fuel IH]; intros i m H; simpl in H.
  - destruct (match_at ic r s i) as [m'|] eqn:E; [|discriminate].
    injection H as ->. destruct (match_at_sound _ _ _ _ _ E) as [Hs _].
    rewrite Hs. repeat split; try lia; assumption.
  - destruct (match_at ic r s i) as [m'|] eqn:E.
    + injection H as ->. destruct (match_at_sound _ _ _ _ _ E) as [Hs _].
      rewrite Hs. repeat split; try lia; assumption.
    + apply IH in H as (Hb & Hm & Hq). split; [lia|]. split; [assumption|].
      intros q Hq'. destruct (Nat.eq_dec q i) as [->|Hne]; [assumption|].
      apply Hq. lia.
Qed.

Lemma search_from_none :
  forall ic r s fuel i, search_from ic r s fuel i = None ->
    forall q, i <= q <= i + fuel -> match_at ic r s q = None.
Proof.
  intros ic r s. induction fuel as [|fuel IH]; intros i H q Hq; simpl in H;
    destruct (match_at ic r s i) as [m'|] eqn:E; try discriminate.
  - replace q with i by lia. assumption.
  - destruct (Nat.eq_dec q i) as [->|Hne]; [assumption|].
    apply (IH (S i)); [assumption|lia].
Qed.

Lemma repeat_None_ok :
  forall (P : nat -> nat -> Prop) n, caps_ok P (repeat None n).
Proof. intros P n. induction n; simpl; constructor; auto. Qed.

(** The spans of a match of a pattern whose groups are numerals. *)
Lemma match_at_numerales :
  forall ic r s i m, grupos_son numeral r -> match_at ic r s i = Some m ->
    caps_ok (fun a b => es_numeral (substr s a b)) (m_caps m).
Proof.
  intros ic r s i m Hg H. apply match_at_sound in H as [_ H].
  eapply sem_caps_ok; eauto using repeat_None_ok.
  intros. now apply sem_numeral with (ic := ic) (c := c).
Qed.

Lemma match_at_fija :
  forall ic r s i m g, match_at ic r s i = Some m ->
    fija g r = true -> 0 < g -> g <= ngroups r ->
    nth (g - 1) (m_caps m) None <> None.
Proof.
  intros ic r s i m g H Hf H0 Hl. apply match_at_sound in H as [_ H].
  apply sem_fija in H as (_ & _ & F). apply F; auto.
  now rewrite repeat_length.
Qed.

Lemma search_from_match_at :
  forall ic r s fuel i m, search_from ic r s fuel i = Some m ->
    match_at ic r s (m_start m) = Some m.
Proof. intros. now apply search_from_some in H. Qed.

(* ================================================================== *)
(** * The extraction steps never raise *)
(* ================================================================== *)

Lemma caps_ok_nth :
  forall (P : nat -> nat -> Prop) c k a b,
    caps_ok P c -> nth k c None = Some (a, b) -> P a b.
Proof.
  intros P c. induction c as [|x c IH]; intros k a b Hc Hn.
  - destruct k; discriminate.
  - inversion Hc; subst. destruct k; simpl in Hn; [subst; assumption|eauto].
Qed.

(** A dose pattern with numeral groups, the first of which is always
    set: the extraction returns, and never a NaN. *)
Lemma extraer_dosis_devuelve :
  forall patron texto,
    grupos_son numeral patron -> fija 1 patron = true -> 1 <= ngroups patron ->
    exists o, extraer_dosis patron texto = Devuelve o
              /\ forall x, o = Some x -> is_nan x = false.
Proof.
  intros patron texto Hg Hf Hn. unfold extraer_dosis, search_i.
  destruct (search_from true patron texto _ 0) as [m|] eqn:E.
  - apply search_from_match_at in E.
    pose proof (match_at_numerales _ _ _ _ _ Hg E) as Hc.
    pose proof (match_at_fija _ _ _ _ _ 1 E Hf (le_n 1) Hn) as Hs.
    unfold grupo1, group. change (1 - 1) with 0 in *.
    destruct (nth 0 (m_caps m) None) as [[a b]|] eqn:Hnth; [|congruence].
    cbn [span_text bind]. apply (caps_ok_nth _ _ 0 _ _ Hc) in Hnth.
    destruct Hnth as (x & Hx & Hnan). rewrite Hx. cbn [bind].
    exists (Some x). split; [reflexivity|]. now intros ? [= <-].
  - exists None. split; [reflexivity|]. discriminate.
Qed.

Lemma grupos_no_vacios_numerales :
  forall (s : pystr) c,
    caps_ok (fun a b => es_numeral (substr s a b)) c ->
    Forall es_numeral (grupos_no_vacios (map (span_text s) c)).
Proof.
  intros s c H. induction H as [|o c Ho Hc IH]; simpl; [constructor|].
  destruct o as [[a b]|]; simpl; [|assumption].
  destruct (no_vacio (substr s a b)); [constructor|]; assumption.
Qed.

Lemma last_Forall :
  forall (A : Type) (P : A -> Prop) l d, Forall P l -> l <> [] -> P (last l d).
Proof.
  intros A P l d H. induction H as [|x l Hx Hl IH]; intros Hne; [congruence|].
  destruct l as [|y l]; [assumption|]. apply IH. discriminate.
Qed.

Lemma extraer_dosis_max_devuelve :
  forall patrones evidencia_lower,
    Forall (fun pt => grupos_son numeral (fst pt)) patrones ->
    exists o txt tipo,
      extraer_dosis_max patrones evidencia_lower = Devuelve (o, txt, tipo)
      /\ forall x, o = Some x -> is_nan x = false.
Proof.
  intros patrones ev H.
  induction H as [|[patron tipo] resto Hp Hr IH]; simpl.
  - exists None, [], []. split; [reflexivity|discriminate].
  - unfold search. destruct (search_from false patron ev _ 0) as [m|] eqn:E;
      [|assumption].
    apply search_from_match_at in E.
    pose proof (match_at_numerales _ _ _ _ _ Hp E) as Hc.
    apply grupos_no_vacios_numerales in Hc. unfold groups.
    destruct (grupos_no_vacios _) as [|g gs] eqn:G; [assumption|].
    assert (Hl : es_numeral (last (g :: gs) [])).
    { apply last_Forall; [assumption|discriminate]. }
    destruct Hl as (x & Hx & Hnan). rewrite Hx. cbn [bind].
    do 3 eexists. split; [reflexivity|]. now intros ? [= <-].
Qed.

Lemma sem_digitos :
  forall ic s i c j c',
    sem ic s (Rep 1 None (CSet false [CDigit])) i c j c' ->
    (digitos (substr s i j) /\ substr s i j <> []) /\ c' = c.
Proof.
  intros ic s i c j c' H. cbn [sem] in H.
  apply iter_digitos in H as H'. destruct H' as (-> & Hle & Hn & Hd).
  repeat split; [assumption|].
  inversion H as [|? ? ? ? ? ? ? _ (x & Hx & _) ? _]; subst; [lia|].
  rewrite (substr_cons _ _ _ _ Hx) by lia. discriminate.
Qed.

(** [int] reads a run of at most 4300 digits and refuses a longer one. *)
Lemma a_int_digitos :
  forall t, digitos t -> t <> [] -> List.length t <= 4300 ->
            exists z, a_int t = Devuelve z.
Proof.
  intros t Hd Hne Hl. unfold a_int. destruct t as [|c t]; [congruence|].
  destruct (digits_value_digitos _ Hd 0%N) as [n Hn]. rewrite Hn.
  unfold int_max_str_digits.
  rewrite (proj2 (Nat.ltb_ge 4300 _) Hl). eauto.
Qed.

Lemma a_int_largo :
  forall t, digitos t -> 4300 < List.length t ->
            a_int t = Lanza (limite_de_cifras (List.length t)).
Proof.
  intros t Hd Hl. unfold a_int.
  destruct t as [|c t]; [cbn [List.length] in Hl; lia|].
  destruct (digits_value_digitos _ Hd 0%N) as [n Hn]. rewrite Hn.
  unfold int_max_str_digits.
  now rewrite (proj2 (Nat.ltb_lt 4300 _) Hl).
Qed.

Lemma extraer_frecuencia_devuelve :
  forall texto texto_lower,
    List.length texto <= 4300 ->
    exists ft fh,
      extraer_frecuencia texto texto_lower = Devuelve (ft, fh).
Proof.
  intros texto texto_lower Hlen. unfold extraer_frecuencia, search_i.
  destruct (search_from true patron_cada texto _ 0) as [m|] eqn:E.
  - apply search_from_match_at in E.
    pose proof (match_at_fija _ _ _ _ _ 1 E eq_refl (le_n 1) (le_n 1)) as Hs.
    apply match_at_sound in E as [_ E].
    eapply sem_caps_ok
      with (P := fun a b => digitos (substr texto a b) /\ substr texto a b <> [])
           (body := Rep 1 None (CSet false [CDigit])) in E;
      [|intros; eapply sem_digitos; eauto
       |cbn; repeat split; reflexivity
       |apply repeat_None_ok].
    unfold grupo1, group. change (1 - 1) with 0 in *.
    destruct (nth 0 (m_caps m) None) as [[a b]|] eqn:Hnth; [|congruence].
    cbn [span_text bind]. apply (caps_ok_nth _ _ 0 _ _ E) in Hnth.
    destruct Hnth as [Hd Hne].
    destruct (a_int_digitos _ Hd Hne) as [z Hz].
    { pose proof (substr_length_le texto a b). lia. }
    rewrite Hz. cbn [bind]. eauto.
  - destruct (contains _ _); [eauto|].
    destruct (_ || _); eauto.
Qed.

Lemma extraer_farmaco_devuelve :
  forall texto texto_lower, exists f,
    extraer_farmaco texto texto_lower = Devuelve f.
Proof.
  intros texto texto_lower. unfold extraer_farmaco.
  destruct (farmaco_conocido _ _); [eauto|]. unfold search.
  destruct (search_from false patron_palabra texto _ 0) as [m|] eqn:E;
    [|eauto].
  apply search_from_match_at in E.
  pose proof (match_at_fija _ _ _ _ _ 1 E eq_refl (le_n 1) (le_n 1)) as Hs.
  unfold grupo1, group. change (1 - 1) with 0 in *.
  destruct (nth 0 (m_caps m) None) as [[a b]|]; [|congruence].
  cbn [span_text bind]. eauto.
Qed.

Lemma patron_mg_kg_numeral :
  grupos_son numeral patron_mg_kg /\ fija 1 patron_mg_kg = true
  /\ 1 <= ngroups patron_mg_kg.
Proof. cbn. repeat split; auto. Qed.

Lemma patron_mg_abs_numeral :
  grupos_son numeral patron_mg_abs /\ fija 1 patron_mg_abs = true
  /\ 1 <= ngroups patron_mg_abs.
Proof. cbn. repeat split; auto. Qed.

Lemma patrones_dosis_max_numerales :
  Forall (fun pt => grupos_son numeral (fst pt)) patrones_dosis_max.
Proof.
  unfold patrones_dosis_max.
  repeat (constructor; [cbn; repeat split; reflexivity|]). constructor.
Qed.

(** What the local variables are, when PASO 1 to PASO 7 return. *)
Lemma pasos_1_a_7_inv :
  forall env texto_medico peso_paciente L,
    pasos_1_a_7 env texto_medico peso_paciente = Devuelve L ->
    let texto := match texto_medico with Some t => t | None => [] end in
    let d := decidir (l_farmaco L) (l_evidencia_texto L) (l_dosis_max_guia L)
               (l_dosis_max_texto L) (l_dosis_mg_kg L) (l_dosis_absoluta L)
               peso_paciente in
    extraer_farmaco texto (lower texto) = Devuelve (l_farmaco L)
    /\ extraer_dosis patron_mg_kg texto = Devuelve (l_dosis_mg_kg L)
    /\ extraer_dosis patron_mg_abs texto = Devuelve (l_dosis_absoluta L)
    /\ extraer_frecuencia texto (lower texto)
       = Devuelve (l_frecuencia_texto L, l_frecuencia_horas L)
    /\ l_evidencia_texto L = consultar_evidencia env (l_farmaco L)
    /\ (exists tipo,
          extraer_dosis_max patrones_dosis_max (lower (l_evidencia_texto L))
          = Devuelve (l_dosis_max_guia L, l_dosis_max_texto L, tipo))
    /\ l_es_aij L = d_es_aij d
    /\ l_decision L = d_decision d
    /\ l_razon L = d_razon d
    /\ l_dosis_calculada L
       = dosis_calculada (l_dosis_mg_kg L) (l_dosis_absoluta L) peso_paciente.
Proof.
  intros env texto_medico peso L H. unfold pasos_1_a_7 in H.
  set (texto := match texto_medico with Some t => t | None => [] end) in *.
  destruct (extraer_farmaco texto (lower texto)) as [f|] eqn:E1;
    [|discriminate]. cbn [bind] in H.
  destruct (extraer_dosis patron_mg_kg texto) as [k|] eqn:E2;
    [|discriminate]. cbn [bind] in H.
  destruct (extraer_dosis patron_mg_abs texto) as [a|] eqn:E3;
    [|discriminate]. cbn [bind] in H.
  destruct (extraer_frecuencia texto (lower texto)) as [[ft fh]|] eqn:E4;
    [|discriminate]. cbn [bind] in H.
  destruct (extraer_dosis_max patrones_dosis_max _) as [[[mx mt] tipo]|] eqn:E5;
    [|discriminate]. cbn [bind] in H.
  injection H as <-. cbn.
  repeat split; try reflexivity; try assumption. eauto.
Qed.

(** The length of the text the steps read. *)
Lemma texto_admitido_largo :
  forall texto_medico,
    texto_admitido texto_medico ->
    List.length (match texto_medico with Some t => t | None => [] end) <= 4300.
Proof. intros [t|] H; [exact H|]. cbn. lia. Qed.

(** PASO 1 to PASO 7 return on a text of at most 4300 characters, and
    no dose they read is a NaN. *)
Lemma pasos_1_a_7_devuelve :
  forall env texto_medico peso_paciente,
    texto_admitido texto_medico ->
    exists L,
      pasos_1_a_7 env texto_medico peso_paciente = Devuelve L
      /\ (forall x, l_dosis_mg_kg L = Some x -> is_nan x = false)
      /\ (forall x, l_dosis_absoluta L = Some x -> is_nan x = false)
      /\ (forall x, l_dosis_max_guia L = Some x -> is_nan x = false).
Proof.
  intros env texto_medico peso Hadm.
  apply texto_admitido_largo in Hadm. unfold pasos_1_a_7.
  set (texto := match texto_medico with Some t => t | None => [] end) in *.
  destruct (extraer_farmaco_devuelve texto (lower texto)) as [f ->].
  cbn [bind].
  destruct patron_mg_kg_numeral as (G1 & F1 & N1).
  destruct (extraer_dosis_devuelve _ texto G1 F1 N1) as (k & -> & Hk).
  cbn [bind].
  destruct patron_mg_abs_numeral as (G2 & F2 & N2).
  destruct (extraer_dosis_devuelve _ texto G2 F2 N2) as (a & -> & Ha).
  cbn [bind].
  destruct (extraer_frecuencia_devuelve texto (lower texto) Hadm)
    as (ft & fh & ->).
  cbn [bind].
  destruct (extraer_dosis_max_devuelve _
              (lower (consultar_evidencia env f))
              patrones_dosis_max_numerales) as (mx & mt & tipo & -> & Hmx).
  cbn [bind]. eexists. split; [reflexivity|]. cbn. auto.
Qed.

(** No dose the steps read is a NaN. *)
Lemma pasos_1_a_7_sin_nan :
  forall env texto_medico peso_paciente L,
    pasos_1_a_7 env texto_medico peso_paciente = Devuelve L ->
    (forall x, l_dosis_mg_kg L = Some x -> is_nan x = false)
    /\ (forall x, l_dosis_absoluta L = Some x -> is_nan x = false)
    /\ (forall x, l_dosis_max_guia L = Some x -> is_nan x = false).
Proof.
  intros env texto_medico peso L HL. apply pasos_1_a_7_inv in HL.
  cbv zeta in HL.
  destruct HL as (_ & E2 & E3 & _ & _ & (tipo & E5) & _).
  set (texto := match texto_medico with Some t => t | None => [] end) in *.
  destruct patron_mg_kg_numeral as (G1 & F1 & N1).
  destruct (extraer_dosis_devuelve _ texto G1 F1 N1) as (k & Ek & Hk).
  destruct patron_mg_abs_numeral as (G2 & F2 & N2).
  destruct (extraer_dosis_devuelve _ texto G2 F2 N2) as (a & Ea & Ha).
  destruct (extraer_dosis_max_devuelve _ (lower (l_evidencia_texto L))
              patrones_dosis_max_numerales) as (mx & mt & tipo' & Em & Hmx).
  rewrite Ek in E2. rewrite Ea in E3. rewrite Em in E5.
  injection E2 as <-. injection E3 as <-. injection E5 as <- _ _.
  auto.
Qed.

(* ================================================================== *)
(** * PASO 8: what the result carries *)
(* ================================================================== *)

Lemma paso_8_decision :
  forall L peso_paciente id_paciente,
    campo "decision" (paso_8 L peso_paciente id_paciente)
    = Some (JStr (l_decision L)).
Proof.
  intros L [w|] id; unfold paso_8, float_de_peso; cbn [bind try_except];
    [|reflexivity].
  destruct (si_verdadero (l_dosis_absoluta L)) as [a|];
    [destruct (si_verdadero (l_dosis_mg_kg L))|]; reflexivity.
Qed.

Lemma paso_8_razon :
  forall L peso_paciente id_paciente,
    campo2 "auditoria" "razon" (paso_8 L peso_paciente id_paciente)
    = Some (JStr (l_razon L)).
Proof.
  intros L [w|] id; unfold paso_8, float_de_peso; cbn [bind try_except];
    [|reflexivity].
  destruct (si_verdadero (l_dosis_absoluta L)) as [a|];
    [destruct (si_verdadero (l_dosis_mg_kg L))|]; reflexivity.
Qed.

Lemma ejecutar_de_pasos :
  forall env texto_medico peso_paciente id_paciente L,
    pasos_1_a_7 env texto_medico peso_paciente = Devuelve L ->
    ejecutar_validacion_medica env texto_medico peso_paciente id_paciente
    = Devuelve (paso_8 L peso_paciente id_paciente).
Proof.
  intros env texto peso id L H. unfold ejecutar_validacion_medica.
  now rewrite H.
Qed.

(** The function does not raise on a text of at most 4300 characters. *)
Lemma ejecutar_validacion_medica_devuelve :
  forall env texto_medico peso_paciente id_paciente,
    texto_admitido texto_medico ->
    exists r,
      ejecutar_validacion_medica env texto_medico peso_paciente id_paciente
      = Devuelve r.
Proof.
  intros env texto peso id Hadm.
  destruct (pasos_1_a_7_devuelve env texto peso Hadm) as (L & HL & _).
  rewrite (ejecutar_de_pasos _ _ _ id _ HL). eauto.
Qed.

Lemma decisiones_distintas :
  APROBADA <> ALERTA /\ APROBADA <> RECHAZADA /\ ALERTA <> RECHAZADA.
Proof. repeat split; discriminate. Qed.

Lemma si_verdadero_some :
  forall o x, si_verdadero o = Some x <-> o = Some x /\ truthy x = true.
Proof.
  intros [y|] x; simpl; [|split; [discriminate|intros [? _]; discriminate]].
  destruct (truthy y) eqn:E; split.
  - intros [= ->]. auto.
  - intros [[= ->] _]. reflexivity.
  - discriminate.
  - intros [[= ->] H]. congruence.
Qed.

Lemma si_verdadero_none :
  forall o, si_verdadero o = None <-> verdadero o = false.
Proof.
  intros [y|]; simpl; [|tauto]. destruct (truthy y); split; congruence.
Qed.

Lemma sin_dosis_max_alerta :
  forall farmaco evidencia_texto,
    d_decision (sin_dosis_max farmaco evidencia_texto) = ALERTA.
Proof.
  intros. unfold sin_dosis_max.
  destruct (_ || _ || _); [reflexivity|]. destruct (_ || _); reflexivity.
Qed.

(* ================================================================== *)
(** * The claims *)
(* ================================================================== *)

(** ** C10: the [estado] field of the result structurer *)

(** C10. In the dictionary [ProcesarRecetaTool._run] assembles, [estado]
    is "Aprobada" exactly when [es_tratamiento_aij] is true and "Alerta"
    otherwise; it is never "Rechazada", whatever [decision] is (so also
    when it is "RECHAZADA"). *)
Theorem estado_sigue_es_tratamiento_aij :
  forall id_paciente medico farmaco peso_paciente dosis_mg_kg
         frecuencia_texto frecuencia_horas es_tratamiento_aij
         razon_decision decision,
    let r := ProcesarRecetaTool_run id_paciente medico farmaco peso_paciente
               dosis_mg_kg frecuencia_texto frecuencia_horas
               es_tratamiento_aij razon_decision decision in
    campo "estado" r
    = Some (JStr (if es_tratamiento_aij then u "Aprobada" else u "Alerta"))
    /\ (campo "estado" r = Some (JStr (u "Aprobada"))
        <-> es_tratamiento_aij = true)
    /\ (campo "estado" r = Some (JStr (u "Alerta"))
        <-> es_tratamiento_aij = false)
    /\ campo "estado" r <> Some (JStr (u "Rechazada"))
    /\ campo "decision" r
       = Some (match decision with Some d => JStr d | None => JNone end).
Proof.
  intros id medico farmaco peso dosis ft fh es_aij razon decision r.
  assert (E : campo "estado" r
              = Some (JStr (if es_aij then u "Aprobada" else u "Alerta")))
    by reflexivity.
  rewrite E. split; [reflexivity|].
  destruct es_aij; repeat split; intros; try reflexivity; try discriminate.
Qed.

(** The same at a rejected prescription: the decision says RECHAZADA
    and the state says Alerta. *)
Example estado_de_una_rechazada :
  let r := ProcesarRecetaTool_run (u "P_001") (u "Sistema IA")
             (u "Metotrexato") (num "25") None (u "semanal") (Some 168%Z)
             false (u "DOSIS EXCESIVA") (Some RECHAZADA) in
  campo "decision" r = Some (JStr (u "RECHAZADA"))
  /\ campo "estado" r = Some (JStr (u "Alerta")).
Proof. split; reflexivity. Qed.

(** ** C7: the formatted dose *)

(** C7. At a weight of 15 kg and 0.5 mg/kg the computed dose is 7.5 mg;
    [ProcesarRecetaTool._run] writes it as "8 mg" (format [.0f]: no
    decimal place, ties to even), where the claim asks for "7.5 mg", the
    text [calcular_dosis_exactas] of structurer.py writes. *)
Theorem dosis_calculada_sin_decimal :
  let r := ProcesarRecetaTool_run (u "P_001") (u "Sistema IA")
             (u "Ibuprofeno") (num "15") (Some (num "0.5")) (u "diario")
             (Some 24%Z) true (u "ok") (Some APROBADA) in
  mul (num "15") (num "0.5") = num "7.5"
  /\ is_integer (num "7.5") = false
  /\ campo2 "analisis" "dosis_calculada" r = Some (JStr (u "8 mg"))
  /\ total_final (mul (num "15") (num "0.5")) = u "7.5 mg".
Proof. vm_compute. repeat split; reflexivity. Qed.

(** What [.0f] writes has no decimal point: every dose string of
    [ProcesarRecetaTool._run] is "N/D" or a text without "." before
    " mg" (digits, "inf" or "nan", with a sign). *)
Lemma place_point_0_sin_punto :
  forall n, ~ In 46%N (place_point 0 n).
Proof.
  intros n. unfold place_point. cbn [repeat Nat.sub app].
  assert (H : forall d, ~ In 46%N (bytes_of (NilEmpty.string_of_uint d))).
  { induction d; simpl; [tauto|..]; (intros [H|H]; [discriminate|auto]). }
  destruct (List.length (str_of_N n)) eqn:E; simpl; [|apply H].
  intros [H0|H0]; [discriminate|]. now apply H in H0.
Qed.

Lemma format_f_0_sin_punto :
  forall x, ~ In 46%N (format_f 0 x).
Proof.
  intros [s|s| |s m e]; unfold format_f, minus_if.
  - destruct s; simpl; intuition discriminate.
  - destruct s; vm_compute; intuition discriminate.
  - vm_compute; intuition discriminate.
  - destruct s; [intros [H|H]; [discriminate|revert H]|];
      apply place_point_0_sin_punto.
Qed.

(** ** C5: the precedence of the dose calculator *)

Lemma dosis_calculada_es_prescrita :
  forall k a w, dosis_calculada k a w = dosis_prescrita k a w.
Proof. reflexivity. Qed.

(** C5, as amended. Whenever PASO 1 to PASO 7 return, and they do on
    every text of at most 4300 characters, the calculated dose of PASO 7
    is the per-kg dose times the weight when both are present and not
    zero; else the absolute dose when it is present and not zero; else
    [None]. These three cases are all there is: the value is a function
    of the per-kg dose, the absolute dose and the weight alone. The
    prescribed dose compared in PASO 6 is the same value. *)
Theorem precedencia_dosis_calculada :
  forall env texto_medico peso_paciente,
    (texto_admitido texto_medico ->
     exists L, pasos_1_a_7 env texto_medico peso_paciente = Devuelve L)
    /\ forall L,
         pasos_1_a_7 env texto_medico peso_paciente = Devuelve L ->
         (forall d w,
             l_dosis_mg_kg L = Some d -> peso_paciente = Some w ->
             truthy d = true -> truthy w = true ->
             l_dosis_calculada L = Some (mul d w))
         /\ (verdadero (l_dosis_mg_kg L) && verdadero peso_paciente = false ->
             forall a, l_dosis_absoluta L = Some a -> truthy a = true ->
                       l_dosis_calculada L = Some a)
         /\ (verdadero (l_dosis_mg_kg L) && verdadero peso_paciente = false ->
             verdadero (l_dosis_absoluta L) = false ->
             l_dosis_calculada L = None)
         /\ l_dosis_calculada L
            = dosis_prescrita (l_dosis_mg_kg L) (l_dosis_absoluta L)
                peso_paciente.
Proof.
  intros env texto peso. split.
  { intros Hadm.
    destruct (pasos_1_a_7_devuelve env texto peso Hadm) as (L & HL & _).
    eauto. }
  intros L HL.
  apply pasos_1_a_7_inv in HL.
  destruct HL as (_ & _ & _ & _ & _ & _ & _ & _ & _ & ->).
  unfold dosis_calculada, dosis_prescrita.
  repeat split.
  - intros d w -> -> Hd Hw. simpl. rewrite Hd, Hw. reflexivity.
  - intros H a Ha Hta.
    assert (Ea : si_verdadero (l_dosis_absoluta L) = Some a)
      by (apply si_verdadero_some; auto).
    rewrite Ea. apply andb_false_iff in H as [H|H];
      apply si_verdadero_none in H; rewrite H; [reflexivity|].
    destruct (si_verdadero (l_dosis_mg_kg L)); reflexivity.
  - intros H Ha. apply si_verdadero_none in Ha. rewrite Ha.
    apply andb_false_iff in H as [H|H];
      apply si_verdadero_none in H; rewrite H; [reflexivity|].
    destruct (si_verdadero (l_dosis_mg_kg L)); reflexivity.
Qed.

(** C5, as stated, fails: for "Metotrexato 10 mg/m2 semanal" the
    calculated dose is the 10 mg the text names, not 10 mg/m2 times a
    body surface area (8 mg at 0.8 m2, which the specification's
    calculator gives). *)
Lemma mg_por_m2_tomado_por_absoluto :
  exists L,
    pasos_1_a_7 (guia "metotrexato: dosis segun peso")
      (Some (u "Metotrexato 10 mg/m2 semanal")) (Some (num "25"))
    = Devuelve L
    /\ l_dosis_mg_kg L = None
    /\ l_dosis_absoluta L = Some (num "10")
    /\ l_dosis_calculada L = Some (num "10")
    /\ computeDose_spec None (Some (num "25")) (Some (num "10"))
         (Some (num "0.8")) (Some (num "10"))
       = Some (num "8")
    /\ l_dosis_calculada L
       <> computeDose_spec None (Some (num "25")) (Some (num "10"))
            (Some (num "0.8")) (Some (num "10")).
Proof.
  eexists. split; [vm_compute; reflexivity|]. cbn [l_dosis_mg_kg l_dosis_absoluta l_dosis_calculada].
  vm_compute. repeat split; try reflexivity. discriminate.
Qed.

(** "Ibuprofeno 10 mg/kg cada 8 horas" at 20 kg: 200 mg. *)
Lemma dosis_por_kg_por_peso :
  exists L,
    pasos_1_a_7 (guia "ibuprofeno: dosis segun peso")
      (Some (u "Ibuprofeno 10 mg/kg cada 8 horas")) (Some (num "20"))
    = Devuelve L
    /\ l_dosis_calculada L = Some (num "200").
Proof.
  destruct (precedencia_dosis_calculada (guia "ibuprofeno: dosis segun peso")
              (Some (u "Ibuprofeno 10 mg/kg cada 8 horas")) (Some (num "20")))
    as [Hdev Hpre].
  destruct Hdev as (L & HL); [apply Nat.leb_le; vm_compute; reflexivity|].
  exists L. split; [exact HL|].
  destruct (Hpre L HL) as (Hkg & _).
  vm_compute in HL. injection HL as <-.
  exact (Hkg (num "10") (num "20") eq_refl eq_refl eq_refl eq_refl).
Defined.

(** ** The decision of PASO 6, case by case *)

Lemma decidir_casos :
  forall farmaco evidencia_texto dosis_max_guia dosis_max_texto
         dosis_mg_kg dosis_absoluta peso_paciente,
    let d := decidir farmaco evidencia_texto dosis_max_guia dosis_max_texto
               dosis_mg_kg dosis_absoluta peso_paciente in
    match buscar_contraindicacion patrones_contraindicacion
            (lower evidencia_texto) with
    | Some idx =>
      d_decision d = RECHAZADA
      /\ d_razon d
         = u "⚠️ " ++ farmaco
             ++ u " contraindicado para AIJ según la guía. Evidencia: '..."
             ++ contexto_contra evidencia_texto idx ++ u "...'"
    | None =>
      match si_verdadero dosis_max_guia with
      | Some mx =>
        match si_verdadero
                (dosis_prescrita dosis_mg_kg dosis_absoluta peso_paciente) with
        | Some dp =>
          d_decision d = (if ge dp mx then RECHAZADA else APROBADA)
        | None => d_decision d = ALERTA
        end
      | None => d_decision d = ALERTA
      end
    end.
Proof.
  intros. unfold d, decidir.
  destruct (buscar_contraindicacion _ _); [split; reflexivity|].
  destruct (si_verdadero dosis_max_guia); [|apply sin_dosis_max_alerta].
  destruct (si_verdadero (dosis_prescrita _ _ _)); [|reflexivity].
  destruct (ge _ _); reflexivity.
Qed.

Lemma buscar_contraindicacion_spec :
  forall patrones ev idx,
    buscar_contraindicacion patrones ev = Some idx ->
    exists antes patron despues m,
      patrones = antes ++ patron :: despues
      /\ Forall (fun q => search q ev = None) antes
      /\ search patron ev = Some m
      /\ m_start m = idx.
Proof.
  induction patrones as [|p ps IH]; intros ev idx H; simpl in H;
    [discriminate|].
  destruct (search p ev) as [m|] eqn:E.
  - injection H as <-. exists [], p, ps, m. auto.
  - apply IH in H as (antes & q & despues & m & -> & Hf & Hs & Hi).
    exists (p :: antes), q, despues, m. auto.
Qed.

Lemma buscar_contraindicacion_in :
  forall patrones ev patron m,
    In patron patrones -> search patron ev = Some m ->
    buscar_contraindicacion patrones ev <> None.
Proof.
  induction patrones as [|p ps IH]; intros ev patron m Hin Hs; [destruct Hin|].
  simpl. destruct (search p ev) eqn:E; [discriminate|].
  destruct Hin as [->|Hin]; [congruence|eauto].
Qed.

Lemma search_start_bound :
  forall r s m, search r s = Some m -> m_start m <= List.length s.
Proof.
  intros r s m H. unfold search in H. apply search_from_some in H. lia.
Qed.

Lemma clamp_index_dentro :
  forall n i, (0 <= i <= Z.of_nat n)%Z -> clamp_index n i = Z.to_nat i.
Proof.
  intros n i H. unfold clamp_index.
  rewrite (proj2 (Z.ltb_ge i 0)) by lia. cbv zeta.
  rewrite (proj2 (Z.ltb_ge i 0)) by lia.
  rewrite (proj2 (Z.ltb_ge (Z.of_nat n) i)) by lia. reflexivity.
Qed.

Lemma clamp_index_no_negativo :
  forall n i, (0 <= i)%Z -> clamp_index n i = Nat.min n (Z.to_nat i).
Proof.
  intros n i H. unfold clamp_index.
  rewrite (proj2 (Z.ltb_ge i 0)) by lia. cbv zeta.
  rewrite (proj2 (Z.ltb_ge i 0)) by lia.
  destruct (Z.ltb_spec (Z.of_nat n) i); lia.
Qed.

(** The window of the rationale: from 30 characters before the index
    to 100 characters after it, inside the text. *)
Lemma contexto_contra_ventana :
  forall evidencia_texto idx,
    contexto_contra evidencia_texto idx
    = substr evidencia_texto (idx - 30)
        (Nat.min (List.length evidencia_texto) (idx + 100)).
Proof.
  intros ev idx. unfold contexto_contra, slice.
  set (n := List.length ev).
  rewrite !clamp_index_no_negativo by lia.
  replace (Z.to_nat (Z.max 0 (Z.of_nat idx - 30))) with (idx - 30) by lia.
  replace (Z.to_nat (Z.min (Z.of_nat n) (Z.of_nat idx + 100)))
    with (Nat.min n (idx + 100)) by lia.
  replace (Nat.min n (Nat.min n (idx + 100))) with (Nat.min n (idx + 100))
    by lia.
  unfold substr.
  destruct (Nat.le_gt_cases (idx - 30) n) as [H|H].
  - now rewrite (Nat.min_r n (idx - 30)) by assumption.
  - replace (Nat.min n (idx + 100) - Nat.min n (idx - 30)) with 0 by lia.
    replace (Nat.min n (idx + 100) - (idx - 30)) with 0 by lia.
    reflexivity.
Qed.

(** ** A contraindication rejects *)

(** X28: if some contraindication pattern matches the lower-cased
    evidence, the function returns a result whose decision is RECHAZADA,
    whatever the doses and the maximum dose are. Its rationale quotes
    the evidence text from 30 characters before to 100 characters after
    the index [idx] at which the first pattern of the list that matches
    does so in the lower-cased evidence. When the evidence has no
    U+0130, lower-casing keeps every position, and [idx] is the position
    of the match in the evidence text itself. *)
Theorem contraindicacion_rechaza :
  forall env texto_medico peso_paciente id_paciente L patron m,
    pasos_1_a_7 env texto_medico peso_paciente = Devuelve L ->
    In patron patrones_contraindicacion ->
    search patron (lower (l_evidencia_texto L)) = Some m ->
    exists r idx,
      ejecutar_validacion_medica env texto_medico peso_paciente id_paciente
      = Devuelve r
      /\ campo "decision" r = Some (JStr RECHAZADA)
      /\ primera_contraindicacion (lower (l_evidencia_texto L)) idx
      /\ campo2 "auditoria" "razon" r
         = Some (JStr
                   (u "⚠️ " ++ l_farmaco L
                      ++ u " contraindicado para AIJ según la guía. Evidencia: '..."
                      ++ substr (l_evidencia_texto L) (idx - 30)
                           (Nat.min (List.length (l_evidencia_texto L))
                                    (idx + 100))
                      ++ u "...'"))
      /\ (~ In 304%N (l_evidencia_texto L) ->
          idx <= List.length (l_evidencia_texto L)
          /\ lower (firstn idx (l_evidencia_texto L))
             = firstn idx (lower (l_evidencia_texto L))).
Proof.
  intros env texto peso id L patron m HL Hin Hs.
  rewrite (ejecutar_de_pasos _ _ _ id _ HL).
  pose proof (buscar_contraindicacion_in _ _ _ _ Hin Hs) as Hb.
  apply pasos_1_a_7_inv in HL.
  destruct HL as (_ & _ & _ & _ & _ & _ & _ & Hd & Hr & _).
  pose proof (decidir_casos (l_farmaco L) (l_evidencia_texto L)
                (l_dosis_max_guia L) (l_dosis_max_texto L) (l_dosis_mg_kg L)
                (l_dosis_absoluta L) peso) as Hc.
  cbv zeta in Hc.
  destruct (buscar_contraindicacion _ _) as [idx|] eqn:Eb; [|congruence].
  destruct Hc as [Hc1 Hc2].
  apply buscar_contraindicacion_spec in Eb as Hp.
  eexists. exists idx. split; [reflexivity|].
  rewrite paso_8_decision, paso_8_razon, Hd, Hr, Hc1, Hc2.
  rewrite contexto_contra_ventana.
  split; [reflexivity|]. split; [exact Hp|]. split; [reflexivity|].
  intros Hsin. split.
  - destruct Hp as (_ & q & _ & m' & _ & _ & Hq & <-).
    apply search_start_bound in Hq. now rewrite lower_length in Hq.
  - now apply lower_firstn.
Qed.

(** At an evidence that says "contraindicado en niños" and also gives a
    maximum dose above the prescribed one, the result is RECHAZADA. *)
Lemma contraindicacion_rechaza_testigo :
  exists r,
    ejecutar_validacion_medica
      (guia "Metotrexato contraindicado en niños menores de 3 años. Dosis bajas (menos de 25 mg/semana).")
      (Some (u "Metotrexato 15 mg semanal")) (Some (num "25")) (u "P_001")
    = Devuelve r
    /\ campo "decision" r = Some (JStr RECHAZADA)
    /\ campo2 "auditoria" "razon" r
       = Some (JStr (u "⚠️ Metotrexato contraindicado para AIJ según la guía. Evidencia: '...ate.pdf - Pág 5]:
Metotrexato contraindicado en niños menores de 3 años. Dosis bajas (menos de 25 mg/semana).
...'")).
Proof.
  edestruct (contraindicacion_rechaza
               (guia "Metotrexato contraindicado en niños menores de 3 años. Dosis bajas (menos de 25 mg/semana).")
               (Some (u "Metotrexato 15 mg semanal")) (Some (num "25"))
               (u "P_001"))
    as (r & idx & Hr & Hd & Hp & Hz & _).
  - vm_compute. reflexivity.
  - left. reflexivity.
  - vm_compute. reflexivity.
  - exists r. split; [exact Hr|]. split; [exact Hd|].
    rewrite Hz. clear Hz Hr Hd.
    destruct Hp as (antes & q & despues & m & Hl & Hf & Hq & Hi).
    assert (Hidx : idx = 91).
    { unfold patrones_contraindicacion in Hl. destruct antes as [|a antes].
      - injection Hl as <- _. vm_compute in Hq. injection Hq as <-.
        now rewrite <- Hi.
      - injection Hl as <- _. inversion Hf as [|? ? Ha _]; subst.
        vm_compute in Ha. discriminate. }
    rewrite Hidx. vm_compute. reflexivity.
Defined.

(** ** C2: the window of the rationale *)

(** C2. The index of the match is taken in the lower-cased evidence and
    used in the evidence text. The lower case of U+0130 is two
    characters, so after an evidence fragment with this letter the two
    texts are out of step: here the pattern matches the evidence text at
    position 106 and its lower case at position 107. The decision is
    RECHAZADA, and the rationale quotes the evidence from position 77 to
    position 207, that is from 29 characters before the match to 101
    characters after it, where the claim has 30 and 100. *)
Theorem ventana_desplazada_por_minuscula :
  let env :=
    guia "Guía de İzmir. Metotrexato contraindicado en niños menores de 3 años por riesgo de efectos adversos graves; valorar siempre otras alternativas con el especialista." in
  let patron :=
    compile "contraindicado\s+(?:en|para)\s+(?:artritis|aij|niños|juvenil)" in
  exists L r m m',
    pasos_1_a_7 env (Some (u "Metotrexato 15 mg semanal"))
      (Some (num "25")) = Devuelve L
    /\ ejecutar_validacion_medica env
         (Some (u "Metotrexato 15 mg semanal")) (Some (num "25"))
         (u "P_001")
       = Devuelve r
    /\ campo "decision" r = Some (JStr RECHAZADA)
    /\ In patron patrones_contraindicacion
    /\ search patron (l_evidencia_texto L) = Some m
    /\ m_start m = 106
    /\ search patron (lower (l_evidencia_texto L)) = Some m'
    /\ m_start m' = 107
    /\ campo2 "auditoria" "razon" r
       = Some (JStr (u "⚠️ Metotrexato contraindicado para AIJ según la guía. Evidencia: '...:
Guía de İzmir. Metotrexato contraindicado en niños menores de 3 años por riesgo de efectos adversos graves; valorar siempre otra...'"))
    /\ substr (l_evidencia_texto L) (106 - 30) (106 + 100)
       = u "]:
Guía de İzmir. Metotrexato contraindicado en niños menores de 3 años por riesgo de efectos adversos graves; valorar siempre otr".
Proof.
  cbv zeta. do 4 eexists.
  split; [vm_compute; reflexivity|].
  split; [vm_compute; reflexivity|].
  split; [vm_compute; reflexivity|].
  split; [left; vm_compute; reflexivity|].
  split; [vm_compute; reflexivity|].
  split; [reflexivity|].
  split; [vm_compute; reflexivity|].
  split; [reflexivity|].
  split; vm_compute; reflexivity.
Qed.


(** ** C1: the comparison with the maximum dose *)

(** C1, as amended. When no contraindication pattern matches the
    evidence, the maximum dose read from it is not zero and the
    prescribed dose is computed (the value of PASO 7, which is the one
    PASO 6 compares) and not zero: a prescribed dose greater
    than or equal to the maximum gives RECHAZADA, a dose strictly below
    it gives APROBADA, and a dose equal to the maximum gives RECHAZADA. *)
Theorem dosis_contra_maximo :
  forall env texto_medico peso_paciente id_paciente L mx dp,
    pasos_1_a_7 env texto_medico peso_paciente = Devuelve L ->
    buscar_contraindicacion patrones_contraindicacion
      (lower (l_evidencia_texto L)) = None ->
    l_dosis_max_guia L = Some mx -> truthy mx = true ->
    l_dosis_calculada L = Some dp -> truthy dp = true ->
    exists r,
      ejecutar_validacion_medica env texto_medico peso_paciente id_paciente
      = Devuelve r
      /\ (ge dp mx = true -> campo "decision" r = Some (JStr RECHAZADA))
      /\ (lt dp mx = true -> campo "decision" r = Some (JStr APROBADA))
      /\ (SFeqb dp mx = true -> campo "decision" r = Some (JStr RECHAZADA)).
Proof.
  intros env texto peso id L mx dp HL Hb Hmx Tmx Hdp Tdp.
  rewrite (ejecutar_de_pasos _ _ _ id _ HL).
  apply pasos_1_a_7_inv in HL.
  destruct HL as (_ & _ & _ & _ & _ & _ & _ & Hd & _ & Hcalc).
  rewrite Hcalc, dosis_calculada_es_prescrita in Hdp.
  pose proof (decidir_casos (l_farmaco L) (l_evidencia_texto L)
                (l_dosis_max_guia L) (l_dosis_max_texto L) (l_dosis_mg_kg L)
                (l_dosis_absoluta L) peso) as Hc.
  cbv zeta in Hc. rewrite Hb in Hc.
  rewrite (proj2 (si_verdadero_some _ _) (conj Hmx Tmx)) in Hc.
  rewrite (proj2 (si_verdadero_some _ _) (conj Hdp Tdp)) in Hc.
  eexists. split; [reflexivity|].
  rewrite paso_8_decision, Hd, Hc.
  repeat split.
  - intros ->. reflexivity.
  - intros H. now rewrite (lt_not_ge _ _ H).
  - intros H. now rewrite (eqb_ge _ _ H).
Qed.

(** A prescribed dose exactly at the limit: 25 mg against "menos de
    25 mg/semana" is RECHAZADA. *)
Lemma dosis_igual_al_maximo_rechazada :
  exists r,
    ejecutar_validacion_medica (guia "Dosis bajas (menos de 25 mg/semana).")
      (Some (u "Metotrexato 25 mg semanal")) (Some (num "25")) (u "P_001")
    = Devuelve r
    /\ campo "decision" r = Some (JStr RECHAZADA).
Proof.
  edestruct (dosis_contra_maximo
               (guia "Dosis bajas (menos de 25 mg/semana).")
               (Some (u "Metotrexato 25 mg semanal")) (Some (num "25"))
               (u "P_001"))
    as (r & Hr & Hge & Hlt & Heq).
  - vm_compute. reflexivity.
  - vm_compute. reflexivity.
  - vm_compute. reflexivity.
  - vm_compute. reflexivity.
  - vm_compute. reflexivity.
  - vm_compute. reflexivity.
  - exists r. split; [exact Hr|]. apply Heq. vm_compute. reflexivity.
Defined.

(** C1, as stated, fails: with a maximum dose of 25 mg read from the
    evidence and a prescribed dose of 15 mg computed, strictly below it,
    the decision is RECHAZADA, because the evidence also matches a
    contraindication pattern. *)
Lemma dosis_menor_pero_contraindicada :
  exists L r,
    pasos_1_a_7
      (guia "Metotrexato contraindicado en niños menores de 3 años. Dosis bajas (menos de 25 mg/semana).")
      (Some (u "Metotrexato 15 mg semanal")) (Some (num "25"))
    = Devuelve L
    /\ l_dosis_max_guia L = Some (num "25")
    /\ l_dosis_calculada L = Some (num "15")
    /\ lt (num "15") (num "25") = true
    /\ ejecutar_validacion_medica
         (guia "Metotrexato contraindicado en niños menores de 3 años. Dosis bajas (menos de 25 mg/semana).")
         (Some (u "Metotrexato 15 mg semanal")) (Some (num "25")) (u "P_001")
       = Devuelve r
    /\ campo "decision" r = Some (JStr RECHAZADA)
    /\ campo "decision" r <> Some (JStr APROBADA).
Proof.
  do 2 eexists. split; [vm_compute; reflexivity|].
  vm_compute. repeat split; try reflexivity. discriminate.
Qed.

(** ** C4: a per-kg dose without a weight *)

(** C4, as amended. On a text of at most 4300 characters, when the
    weight is zero or absent and the text gives a dose per kg and no
    absolute dose, the function returns (it does not raise), and the
    decision is ALERTA unless the evidence matches a contraindication
    pattern, in which case it is RECHAZADA; it is never APROBADA. When
    the weight is absent, the calculated dose of the result is "N/D". *)
Theorem dosis_por_kg_sin_peso :
  forall env texto_medico peso_paciente id_paciente,
    texto_admitido texto_medico ->
    verdadero peso_paciente = false ->
    exists L r,
      pasos_1_a_7 env texto_medico peso_paciente = Devuelve L
      /\ ejecutar_validacion_medica env texto_medico peso_paciente id_paciente
         = Devuelve r
      /\ forall d,
           l_dosis_mg_kg L = Some d -> l_dosis_absoluta L = None ->
           (peso_paciente = None ->
            campo2 "analisis" "dosis_calculada" r = Some (JStr (u "N/D")))
           /\ (buscar_contraindicacion patrones_contraindicacion
                 (lower (l_evidencia_texto L)) = None ->
               campo "decision" r = Some (JStr ALERTA))
           /\ (buscar_contraindicacion patrones_contraindicacion
                 (lower (l_evidencia_texto L)) <> None ->
               campo "decision" r = Some (JStr RECHAZADA))
           /\ campo "decision" r <> Some (JStr APROBADA).
Proof.
  intros env texto peso id Hadm Hp.
  destruct (pasos_1_a_7_devuelve env texto peso Hadm) as (L & HL & _).
  exists L. eexists. split; [exact HL|].
  rewrite (ejecutar_de_pasos _ _ _ id _ HL). split; [reflexivity|].
  intros d Hk Ha.
  apply pasos_1_a_7_inv in HL.
  destruct HL as (_ & _ & _ & _ & _ & _ & _ & Hd & _ & Hcalc).
  assert (Hpre : dosis_prescrita (l_dosis_mg_kg L) (l_dosis_absoluta L) peso
                 = None).
  { unfold dosis_prescrita. rewrite Ha.
    rewrite (proj2 (si_verdadero_none peso) Hp).
    destruct (si_verdadero (l_dosis_mg_kg L)); reflexivity. }
  pose proof (decidir_casos (l_farmaco L) (l_evidencia_texto L)
                (l_dosis_max_guia L) (l_dosis_max_texto L) (l_dosis_mg_kg L)
                (l_dosis_absoluta L) peso) as Hc.
  cbv zeta in Hc. rewrite Hpre in Hc. cbn [si_verdadero] in Hc.
  rewrite paso_8_decision, Hd.
  split.
  { intros ->. unfold paso_8, float_de_peso. cbn [bind try_except].
    unfold resultado_manual, campo2, campo. cbn [dict_get].
    rewrite Hcalc, dosis_calculada_es_prescrita, Hpre. reflexivity. }
  destruct (buscar_contraindicacion _ _) as [idx|].
  - destruct Hc as [-> _]. repeat split; try congruence. discriminate.
  - assert (E : d_decision
                  (decidir (l_farmaco L) (l_evidencia_texto L)
                     (l_dosis_max_guia L) (l_dosis_max_texto L)
                     (l_dosis_mg_kg L) (l_dosis_absoluta L) peso) = ALERTA)
      by (destruct (si_verdadero (l_dosis_max_guia L)); exact Hc).
    rewrite E. repeat split; try congruence. discriminate.
Qed.

(** A dose per kg with a weight of zero: the decision is ALERTA. *)
Lemma dosis_por_kg_peso_cero :
  exists r,
    ejecutar_validacion_medica (guia "Dosis bajas (menos de 25 mg/semana).")
      (Some (u "Metotrexato 0,5 mg/kg semanal")) (Some (num "0")) (u "P_001")
    = Devuelve r
    /\ campo "decision" r = Some (JStr ALERTA).
Proof.
  destruct (dosis_por_kg_sin_peso
              (guia "Dosis bajas (menos de 25 mg/semana).")
              (Some (u "Metotrexato 0,5 mg/kg semanal")) (Some (num "0"))
              (u "P_001"))
    as (L & r & HL & Hr & H).
  - apply Nat.leb_le. vm_compute. reflexivity.
  - reflexivity.
  - exists r. split; [exact Hr|].
    vm_compute in HL. injection HL as <-.
    destruct (H (num "0.5") eq_refl eq_refl) as (_ & Ha & _).
    apply Ha. vm_compute. reflexivity.
Defined.

(** C4, as stated, fails: with a dose per kg, a weight of zero and no
    absolute dose the decision is RECHAZADA, not ALERTA, when the
    evidence matches a contraindication pattern. *)
Lemma dosis_por_kg_sin_peso_contraindicada :
  exists L r,
    pasos_1_a_7
      (guia "Ibuprofeno: no usar en niños menores de 3 meses.")
      (Some (u "Ibuprofeno 10 mg/kg cada 8 horas")) (Some (num "0"))
    = Devuelve L
    /\ l_dosis_mg_kg L = Some (num "10")
    /\ l_dosis_absoluta L = None
    /\ ejecutar_validacion_medica
         (guia "Ibuprofeno: no usar en niños menores de 3 meses.")
         (Some (u "Ibuprofeno 10 mg/kg cada 8 horas")) (Some (num "0"))
         (u "P_001")
       = Devuelve r
    /\ campo "decision" r = Some (JStr RECHAZADA)
    /\ campo "decision" r <> Some (JStr ALERTA).
Proof.
  do 2 eexists. split; [vm_compute; reflexivity|].
  vm_compute. repeat split; try reflexivity. discriminate.
Qed.

(** On the main path the dose string of the result is written by
    [ProcesarRecetaTool._run] from [peso_paciente * dosis_mg_kg]: at a
    weight of zero it reads "0 mg", while the calculated dose of PASO 7
    is [None]; with no weight at all the [except] branch writes "N/D". *)
Example dosis_mostrada_sin_peso :
  (exists r,
      ejecutar_validacion_medica (guia "Dosis bajas (menos de 25 mg/semana).")
        (Some (u "Metotrexato 0,5 mg/kg semanal")) (Some (num "0")) (u "P_001")
      = Devuelve r
      /\ campo2 "analisis" "dosis_calculada" r = Some (JStr (u "0 mg")))
  /\ (exists r,
        ejecutar_validacion_medica (guia "Dosis bajas (menos de 25 mg/semana).")
          (Some (u "Metotrexato 0,5 mg/kg semanal")) None (u "P_001")
        = Devuelve r
        /\ campo2 "analisis" "dosis_calculada" r = Some (JStr (u "N/D"))
        /\ campo "decision" r = Some (JStr ALERTA)).
Proof.
  split; eexists; (split; [vm_compute; reflexivity|]); vm_compute;
    repeat split; reflexivity.
Qed.

(** ** C9: APROBADA is never the unexamined default *)

Lemma dosis_prescrita_no_nan :
  forall k a w dp,
    (forall x, k = Some x -> is_nan x = false) ->
    (forall x, a = Some x -> is_nan x = false) ->
    peso_es_numero w ->
    dosis_prescrita k a w = Some dp -> is_nan dp = false.
Proof.
  intros k a w dp Hk Ha Hw. unfold dosis_prescrita.
  destruct (si_verdadero k) as [d|] eqn:Ek.
  - destruct (si_verdadero w) as [p|] eqn:Ew.
    + intros [= <-].
      apply si_verdadero_some in Ek as [Ek Td].
      apply si_verdadero_some in Ew as [Ew Tp].
      apply mul_not_nan; auto.
    + intros H. apply si_verdadero_some in H as [H _]. auto.
  - intros H. apply si_verdadero_some in H as [H _]. auto.
Qed.

(** X1: for every input whose weight, when present, is a number, the
    function returns a result whose decision is the one PASO 6 assigns,
    one of APROBADA, ALERTA and RECHAZADA. It is APROBADA only when no
    contraindication pattern matches, a maximum dose that is not zero was
    read from the evidence, a prescribed dose that is not zero was
    computed, and that dose is strictly below the maximum. A
    contraindication gives RECHAZADA; without one, a missing maximum
    dose or a dose that cannot be computed gives ALERTA. *)
Theorem aprobada_solo_bajo_el_maximo :
  forall env texto_medico peso_paciente id_paciente L,
    peso_es_numero peso_paciente ->
    pasos_1_a_7 env texto_medico peso_paciente = Devuelve L ->
    let contra :=
      buscar_contraindicacion patrones_contraindicacion
        (lower (l_evidencia_texto L)) in
    let prescrita :=
      dosis_prescrita (l_dosis_mg_kg L) (l_dosis_absoluta L) peso_paciente in
    exists r,
      ejecutar_validacion_medica env texto_medico peso_paciente id_paciente
      = Devuelve r
      /\ campo "decision" r = Some (JStr (l_decision L))
      /\ (l_decision L = APROBADA \/ l_decision L = ALERTA
          \/ l_decision L = RECHAZADA)
      /\ (l_decision L = APROBADA ->
          contra = None
          /\ exists mx dp,
               l_dosis_max_guia L = Some mx /\ truthy mx = true
               /\ prescrita = Some dp /\ truthy dp = true
               /\ lt dp mx = true)
      /\ (contra <> None -> l_decision L = RECHAZADA)
      /\ (contra = None -> verdadero (l_dosis_max_guia L) = false ->
          l_decision L = ALERTA)
      /\ (contra = None -> verdadero prescrita = false ->
          l_decision L = ALERTA).
Proof.
  intros env texto peso id L Hw HL contra prescrita.
  rewrite (ejecutar_de_pasos _ _ _ id _ HL).
  eexists. split; [reflexivity|]. split; [apply paso_8_decision|].
  destruct (pasos_1_a_7_sin_nan _ _ _ _ HL) as (Nk & Na & Nm).
  apply pasos_1_a_7_inv in HL.
  destruct HL as (_ & _ & _ & _ & _ & _ & _ & Hd & _).
  pose proof (decidir_casos (l_farmaco L) (l_evidencia_texto L)
                (l_dosis_max_guia L) (l_dosis_max_texto L) (l_dosis_mg_kg L)
                (l_dosis_absoluta L) peso) as Hc.
  cbv zeta in Hc. rewrite <- Hd in Hc. fold contra prescrita in Hc.
  destruct contra as [idx|].
  { destruct Hc as [Hc _]. rewrite Hc.
    repeat split; auto; try discriminate; congruence. }
  destruct (si_verdadero (l_dosis_max_guia L)) as [mx|] eqn:Em.
  2:{ rewrite Hc. apply si_verdadero_none in Em.
      repeat split; auto; try discriminate; congruence. }
  destruct (si_verdadero prescrita) as [dp|] eqn:Ep.
  2:{ rewrite Hc. apply si_verdadero_none in Ep.
      repeat split; auto; try discriminate; congruence. }
  apply si_verdadero_some in Em as [Em Tm].
  apply si_verdadero_some in Ep as [Ep Tp].
  assert (Vm : verdadero (l_dosis_max_guia L) = true)
    by (rewrite Em; exact Tm).
  assert (Vp : verdadero prescrita = true) by (rewrite Ep; exact Tp).
  rewrite Hc. destruct (ge dp mx) eqn:G.
  - repeat split; auto; try discriminate; congruence.
  - repeat split; auto; try congruence.
    exists mx, dp. repeat split; auto.
    apply not_ge_lt; [|now apply Nm|assumption].
    exact (dosis_prescrita_no_nan _ _ _ _ Nk Na Hw Ep).
Qed.

(** A prescription that is approved: 15 mg against a limit of 25 mg. *)
Lemma aprobada_bajo_el_maximo_testigo :
  exists r,
    ejecutar_validacion_medica (guia "Dosis bajas (menos de 25 mg/semana).")
      (Some (u "Prescribo Metotrexato 15 mg semanal y acido folico."))
      (Some (num "25")) (u "PACIENTE_PRUEBA")
    = Devuelve r
    /\ campo "decision" r = Some (JStr APROBADA)
    /\ lt (num "15") (num "25") = true.
Proof.
  edestruct (aprobada_solo_bajo_el_maximo
               (guia "Dosis bajas (menos de 25 mg/semana).")
               (Some (u "Prescribo Metotrexato 15 mg semanal y acido folico."))
               (Some (num "25")) (u "PACIENTE_PRUEBA"))
    as (r & Hr & Hd & _ & Hap & _).
  - intros w [= <-]. reflexivity.
  - vm_compute. reflexivity.
  - exists r. split; [exact Hr|]. split; [exact Hd|].
    destruct Hap as (_ & mx & dp & Hmx & _ & Hdp & _ & Hlt);
      [reflexivity|].
    vm_compute in Hmx. vm_compute in Hdp.
    injection Hmx as <-. injection Hdp as <-. exact Hlt.
Defined.

(** C9. With a weight that is NaN the claim fails: a maximum dose of
    25 mg is read, the prescribed dose [0.5 * nan] is NaN, which passes
    [if dosis_prescrita:] and for which [>=] is false, so the branch of
    APROBADA is taken although the dose is not strictly below the
    maximum. *)
Theorem peso_nan_aprobada :
  exists L r,
    pasos_1_a_7 (guia "Dosis bajas (menos de 25 mg/semana).")
      (Some (u "Metotrexato 0.5 mg/kg semanal")) (Some S754_nan)
    = Devuelve L
    /\ l_dosis_max_guia L = Some (num "25")
    /\ l_dosis_calculada L = Some S754_nan
    /\ lt S754_nan (num "25") = false
    /\ ejecutar_validacion_medica (guia "Dosis bajas (menos de 25 mg/semana).")
         (Some (u "Metotrexato 0.5 mg/kg semanal")) (Some S754_nan)
         (u "P_001")
       = Devuelve r
    /\ campo "decision" r = Some (JStr APROBADA)
    /\ campo "estado" r = Some (JStr (u "Aprobada")).
Proof.
  do 2 eexists. split; [vm_compute; reflexivity|].
  vm_compute. repeat split; reflexivity.
Qed.

(** ** C3: a range gives its upper bound *)

Lemma sem_seq :
  forall ic s a b i c j c',
    sem ic s (Seq a b) i c j c' ->
    exists m c1, sem ic s a i c m c1 /\ sem ic s b m c1 j c'.
Proof. intros ic s a b i c j c' H. exact H. Qed.

(** A pattern without groups leaves the spans as they are. *)
Lemma sem_sin_grupos :
  forall ic s r i c j c',
    ngroups r = 0 -> sem ic s r i c j c' -> c' = c.
Proof.
  intros ic s.
  induction r as [|neg items|a IHa b IHb|a IHa b IHb|lo hi a IHa|g a IHa|a IHa|];
    intros i c j c' Hn H; cbn [sem ngroups] in *.
  - now destruct H.
  - now destruct H as (x & _ & _ & _ & ->).
  - destruct H as (m & c1 & Ha & Hb).
    apply IHa in Ha; [|lia]. apply IHb in Hb; [|lia]. congruence.
  - destruct H as [H|H]; [apply IHa in H|apply IHb in H]; auto; lia.
  - assert (G : forall n, iter (sem ic s a) lo hi n i c j c' -> c' = c).
    { clear H. intros n H.
      induction H as [|n i c i1 c1 j c' U Hr Hlt Hit IH]; [reflexivity|].
      apply IHa in Hr; [|assumption]. congruence. }
    exact (G 0 H).
  - destruct H as (c1 & Ha & ->). apply IHa in Ha; [|lia]. subst c1.
    assert (g = 0) by lia. subst g. now destruct c.
  - now destruct H as (_ & -> & _).
  - now destruct H as (_ & _ & ->).
Qed.

Lemma set_has_space :
  forall x, set_has false false [CSpace] x = true -> is_space x = true.
Proof.
  intros x H. unfold set_has, existsb, item_has in H.
  destruct (is_space x); [reflexivity|discriminate H].
Qed.

Lemma set_has_char :
  forall c x, set_has false false [CChar c] x = true -> x = c.
Proof.
  intros c x H. unfold set_has, existsb, item_has in H.
  destruct (N.eqb_spec x c); [assumption|discriminate H].
Qed.

Lemma extraer_dosis_max_app :
  forall antes despues ev,
    Forall (fun pt => search (fst pt) ev = None) antes ->
    extraer_dosis_max (antes ++ despues) ev = extraer_dosis_max despues ev.
Proof.
  intros antes despues ev H.
  induction H as [|[p t] antes Hp Ha IH]; [reflexivity|].
  simpl in *. now rewrite Hp.
Qed.


(** What a match of the range pattern looks like: a numeral, spaces, a
    hyphen, spaces, a numeral, and the rest; the two numerals are the
    two groups. *)
Lemma patron_rango_forma :
  forall ev i m, match_at false patron_rango ev i = Some m ->
    exists a b c d,
      m_caps m = [Some (i, a); Some (c, d)]
      /\ i <= a /\ a <= b /\ b < c /\ c <= d /\ d <= m_end m
      /\ es_numeral (substr ev i a)
      /\ espacios (substr ev a b)
      /\ nth_error ev b = Some 45%N
      /\ espacios (substr ev (S b) c)
      /\ es_numeral (substr ev c d).
Proof.
  intros ev i m H. apply match_at_sound in H as [_ H].
  unfold patron_rango in H. cbn [ngroups Nat.max repeat] in H.
  apply sem_seq in H as (a & c1 & (c0 & Hn1 & ->) & H).
  apply sem_numeral in Hn1 as Hn1'. destruct Hn1' as [N1 ->].
  apply sem_bounds in Hn1 as [B1 _].
  apply sem_seq in H as (b & c2 & Hs1 & H).
  apply iter_cset in Hs1 as (-> & B2 & _ & S1).
  apply sem_seq in H as (b' & c3 & (x & Hx & Hc & -> & ->) & H).
  apply set_has_char in Hc. subst x.
  apply sem_seq in H as (c & c4 & Hs2 & H).
  apply iter_cset in Hs2 as (-> & B3 & _ & S2).
  apply sem_seq in H as (d & c5 & (c6 & Hn2 & ->) & H).
  apply sem_numeral in Hn2 as Hn2'. destruct Hn2' as [N2 ->].
  apply sem_bounds in Hn2 as [B4 _].
  apply sem_bounds in H as HB. destruct HB as [B5 _].
  apply sem_sin_grupos in H; [|reflexivity].
  exists a, b, c, d. rewrite H. simpl.
  repeat split; try assumption; try lia;
    (eapply Forall_impl; [|eassumption]); apply set_has_space.
Qed.

(** C3. When none of the first eight patterns of [patrones_dosis_max]
    matches the evidence and the range pattern does, the match reads
    "N - M ..." with two numerals N and M (its two groups), and the
    maximum dose extracted is [float(M)], the upper bound, of type
    "semanal". *)
Theorem rango_toma_cota_superior :
  forall evidencia_lower m,
    Forall (fun pt => search (fst pt) evidencia_lower = None)
           (firstn 8 patrones_dosis_max) ->
    search patron_rango evidencia_lower = Some m ->
    exists N M esp1 esp2 resto x,
      group evidencia_lower m 1 = Some N
      /\ group evidencia_lower m 2 = Some M
      /\ substr evidencia_lower (m_start m) (m_end m)
         = N ++ esp1 ++ 45%N :: esp2 ++ M ++ resto
      /\ es_numeral N /\ espacios esp1 /\ espacios esp2
      /\ a_float M = Devuelve x
      /\ extraer_dosis_max patrones_dosis_max evidencia_lower
         = Devuelve (Some x, repr x ++ u " mg/semanal", u "semanal").
Proof.
  intros ev m Hnone Hs.
  assert (Hm : match_at false patron_rango ev (m_start m) = Some m)
    by (eapply search_from_match_at; exact Hs).
  destruct (patron_rango_forma _ _ _ Hm)
    as (a & b & c & d & Hc & B1 & B2 & B3 & B4 & B5 & N1 & S1 & Hh & S2 & N2).
  destruct N2 as (x & Hx & Hnan).
  exists (substr ev (m_start m) a), (substr ev c d), (substr ev a b),
         (substr ev (S b) c), (substr ev d (m_end m)), x.
  assert (G1 : group ev m 1 = Some (substr ev (m_start m) a))
    by (unfold group; rewrite Hc; reflexivity).
  assert (G2 : group ev m 2 = Some (substr ev c d))
    by (unfold group; rewrite Hc; reflexivity).
  repeat split; try assumption.
  - rewrite (substr_app ev (m_start m) a (m_end m)) by lia. f_equal.
    rewrite (substr_app ev a b (m_end m)) by lia. f_equal.
    rewrite (substr_cons ev b (m_end m) _ Hh) by lia. f_equal.
    rewrite (substr_app ev (S b) c (m_end m)) by lia. f_equal.
    apply substr_app; lia.
  - replace patrones_dosis_max
      with (firstn 8 patrones_dosis_max ++ [(patron_rango, u "semanal")])
      by reflexivity.
    rewrite (extraer_dosis_max_app _ _ _ Hnone). cbn [extraer_dosis_max].
    rewrite Hs. unfold groups. rewrite Hc. cbn [map span_text grupos_no_vacios].
    pose proof (es_numeral_no_vacio _ N1) as E1.
    pose proof (es_numeral_no_vacio _ (ex_intro _ x (conj Hx Hnan))) as E2.
    destruct (substr ev (m_start m) a) as [|n1 r1] eqn:EN1; [congruence|].
    destruct (substr ev c d) as [|n2 r2] eqn:EN2; [congruence|].
    cbn [no_vacio last]. rewrite Hx. reflexivity.
Qed.

(** Evidence "10-20 mg/semana": the maximum dose is 20 mg. *)
Lemma rango_10_20_da_20 :
  extraer_dosis_max patrones_dosis_max (u "10-20 mg/semana")
  = Devuelve (Some (num "20"), u "20.0 mg/semanal", u "semanal").
Proof.
  destruct (rango_toma_cota_superior (u "10-20 mg/semana")
              {| m_start := 0; m_end := 15;
                 m_caps := [Some (0, 2); Some (3, 5)] |})
    as (N & M & e1 & e2 & resto & x & _ & G2 & _ & _ & _ & _ & Hx & Hr).
  - repeat (constructor; [vm_compute; reflexivity|]). constructor.
  - vm_compute. reflexivity.
  - rewrite Hr. vm_compute in G2. injection G2 as <-.
    vm_compute in Hx. injection Hx as <-. vm_compute. reflexivity.
Defined.

(** ** C6: the fallback of the drug *)

Lemma patron_palabra_forma :
  patron_palabra
  = Seq WordB (Seq (Group 1 (Rep 4 None (CSet false letras))) WordB).
Proof. reflexivity. Qed.

Lemma substr_nth :
  forall (P : N -> Prop) (s : pystr) i j p,
    Forall P (substr s i j) -> i <= p < j -> j <= List.length s ->
    exists x, nth_error s p = Some x /\ P x.
Proof.
  intros P s i j p H Hp Hj.
  destruct (nth_error s p) as [x|] eqn:Hx.
  - exists x. split; [reflexivity|].
    rewrite (substr_app s i p j) in H by lia.
    apply Forall_app in H as [_ H].
    rewrite (substr_cons s p j x Hx) in H by lia.
    now inversion H.
  - apply nth_error_None in Hx. lia.
Qed.

(** A run of characters of a class is matched by the loop. *)
Lemma iter_cset_todo :
  forall ic (s : pystr) neg items lo c k i j n,
    j = i + k -> j <= List.length s ->
    Forall (fun x => set_has ic neg items x = true) (substr s i j) ->
    lo <= n + k ->
    iter (sem ic s (CSet neg items)) lo None n i c j c.
Proof.
  intros ic s neg items lo c.
  induction k as [|k IH]; intros i j n Hj Hl Hf Hlo.
  - replace j with i by lia. apply iter_stop. lia.
  - destruct (substr_nth _ s i j i Hf) as (x & Hx & Px); [lia|lia|].
    rewrite (substr_cons s i j x Hx) in Hf by lia.
    inversion Hf as [|? ? _ Hf']; subst.
    apply iter_step with (i1 := S i) (c1 := c); [reflexivity| |lia|].
    + cbn [sem]. exists x. auto.
    + apply IH; auto; lia.
Qed.

Lemma es_letra_es_word : forall x, es_letra x = true -> is_word x = true.
Proof.
  intros x H. unfold es_letra, set_has, letras, existsb, item_has in H.
  cbn [xorb andb] in H. rewrite !orb_false_r in H.
  assert (R : forall lo hi, (lo <= x <= hi)%N ->
              ((lo <=? x) && (x <=? hi))%N = true).
  { intros lo hi [A B]. apply andb_true_iff.
    split; apply N.leb_le; assumption. }
  assert (C : (65 <= x <= 90)%N \/ (97 <= x <= 122)%N
              \/ (192 <= x <= 214)%N \/ (216 <= x <= 246)%N
              \/ (248 <= x <= 255)%N).
  { repeat match type of H with
           | (_ || _) = true => apply orb_true_iff in H as [H|H]
           end; bprop; lia. }
  unfold is_word.
  destruct C as [C|[C|[C|[C|C]]]]; rewrite (R _ _ C);
    rewrite ?orb_true_r; reflexivity.
Qed.

Lemma word_at_letra :
  forall texto i j p,
    Forall (fun x => es_letra x = true) (substr texto i j) ->
    i <= p < j -> j <= List.length texto -> word_at texto p = true.
Proof.
  intros texto i j p H Hp Hj.
  destruct (substr_nth _ texto i j p H Hp Hj) as (x & Hx & Px).
  unfold word_at. rewrite Hx. now apply es_letra_es_word.
Qed.

(** At a position, the word (if any) is one. *)
Lemma es_palabra_unica :
  forall texto i j j', es_palabra texto i j -> es_palabra texto i j' -> j <= j'.
Proof.
  intros texto i j j' (Bi & Bj & Hlen & Hf & Hl) (Bi' & Bj' & Hlen' & Hf' & Hl').
  destruct (Nat.le_gt_cases j j') as [|Hgt]; [assumption|exfalso].
  unfold boundary in Bj'. destruct j' as [|p]; [lia|].
  rewrite (word_at_letra texto i j p Hf) in Bj' by lia.
  rewrite (word_at_letra texto i j (S p) Hf) in Bj' by lia.
  discriminate.
Qed.

Lemma match_at_palabra :
  forall texto i m, match_at false patron_palabra texto i = Some m ->
    exists j, es_palabra texto i j /\ m_caps m = [Some (i, j)].
Proof.
  intros texto i m H. apply match_at_sound in H as [_ H].
  rewrite patron_palabra_forma in H. cbn [ngroups Nat.max repeat] in H.
  apply sem_seq in H as (i' & c1 & (Bi & -> & ->) & H).
  apply sem_seq in H as (j & c2 & (c3 & Hit & ->) & (Bj & Hj & Hc)).
  apply sem_bounds in Hit as Hb.
  apply iter_cset in Hit as (-> & Hle & Hn & Hf).
  exists j. split; [|rewrite Hc; reflexivity].
  unfold es_palabra. repeat split; try assumption; lia.
Qed.

Lemma palabra_match_at :
  forall texto i j, es_palabra texto i j ->
    match_at false patron_palabra texto i <> None.
Proof.
  intros texto i j (Bi & Bj & Hlen & Hf & Hl).
  apply match_at_complete with (j := j) (c' := [Some (i, j)]).
  rewrite patron_palabra_forma. cbn [ngroups Nat.max repeat sem].
  exists i, [None]. split; [auto|].
  exists j, [Some (i, j)]. split; [|auto].
  exists [None]. split; [|reflexivity].
  apply iter_cset_todo with (k := j - i); auto; lia.
Qed.

(** C6, as amended. In a text of Basic Latin and Latin-1 characters,
    when no known drug name occurs in the lower-cased text, the drug is
    the first run of at least four letters (A-Z, a-z, the accented
    vowels and the letter enye) that stands between two word boundaries,
    whatever its case, returned capitalized (first letter in upper case,
    the rest in lower case); when the text has no such run it is
    "Desconocido". *)
Theorem farmaco_primera_palabra :
  forall texto,
    texto_latino texto ->
    farmaco_conocido farmacos_conocidos (lower texto) = None ->
    (exists i j,
        es_palabra texto i j
        /\ (forall i' j', es_palabra texto i' j' -> i <= i')
        /\ extraer_farmaco texto (lower texto)
           = Devuelve (capitalize (substr texto i j)))
    \/ ((forall i j, ~ es_palabra texto i j)
        /\ extraer_farmaco texto (lower texto) = Devuelve (u "Desconocido")).
Proof.
  intros texto _ Hk. unfold extraer_farmaco. rewrite Hk. unfold search.
  destruct (search_from false patron_palabra texto _ 0) as [m|] eqn:E.
  - left. apply search_from_some in E as (_ & Hm & Hq).
    destruct (match_at_palabra _ _ _ Hm) as (j & Hp & Hc).
    exists (m_start m), j. split; [assumption|]. split.
    + intros i' j' Hp'. destruct (Nat.le_gt_cases (m_start m) i'); [assumption|].
      exfalso. apply (palabra_match_at _ _ _ Hp'). apply Hq. lia.
    + unfold grupo1, group. rewrite Hc. reflexivity.
  - right. split; [|reflexivity].
    intros i j Hp. apply (palabra_match_at _ _ _ Hp).
    apply (search_from_none _ _ _ _ _ E).
    destruct Hp as (_ & _ & ? & _ & ?). lia.
Qed.

(** "Follow up in clinic": the drug is the word "Follow". *)
Lemma farmaco_follow :
  exists i j,
    es_palabra (u "Follow up in clinic") i j
    /\ substr (u "Follow up in clinic") i j = u "Follow"
    /\ extraer_farmaco (u "Follow up in clinic")
         (lower (u "Follow up in clinic"))
       = Devuelve (u "Follow").
Proof.
  assert (P : es_palabra (u "Follow up in clinic") 0 6).
  { unfold es_palabra. repeat split; try reflexivity.
    - simpl. lia.
    - vm_compute. repeat constructor.
    - vm_compute. lia. }
  destruct (farmaco_primera_palabra (u "Follow up in clinic"))
    as [(i & j & Hp & Hmin & He)|(Hn & _)].
  - vm_compute. repeat constructor.
  - reflexivity.
  - assert (i = 0) by (specialize (Hmin 0 6 P); lia). subst i.
    assert (j = 6).
    { pose proof (es_palabra_unica _ _ _ _ Hp P).
      pose proof (es_palabra_unica _ _ _ _ P Hp). lia. }
    subst j. exists 0, 6. split; [exact Hp|]. split; [reflexivity|exact He].
  - destruct (Hn 0 6 P).
Defined.

(** C6, as stated, fails: in "toma Aspirina 100 mg" the first
    capitalized word of four characters or more is "Aspirina"; the drug
    extracted is "Toma", the first word made a capitalized one. *)
Lemma farmaco_toma :
  farmaco_conocido farmacos_conocidos (lower (u "toma Aspirina 100 mg")) = None
  /\ extraer_farmaco (u "toma Aspirina 100 mg")
       (lower (u "toma Aspirina 100 mg"))
     = Devuelve (u "Toma")
  /\ farmaco_segun_spec (u "toma Aspirina 100 mg") = u "Aspirina"
  /\ contains (u "Toma") (u "toma Aspirina 100 mg") = false
  /\ u "Toma" <> farmaco_segun_spec (u "toma Aspirina 100 mg").
Proof. vm_compute. repeat split; try reflexivity. discriminate. Qed.

(** ** C8: the answer of the completion service *)

Lemma find_from_char :
  forall (s : pystr) c i0 k,
    nth_error s k = Some c -> (forall q, q < k -> nth_error s q <> Some c) ->
    find_from [c] s i0 = Some (i0 + k).
Proof.
  induction s as [|x t IH]; intros c i0 k Hk Hq.
  - destruct k; discriminate.
  - cbn [find_from starts_with]. destruct k as [|k].
    + injection Hk as ->. rewrite N.eqb_refl. simpl. f_equal. lia.
    + destruct (N.eqb_spec c x) as [->|Hne].
      * exfalso. apply (Hq 0); [lia|reflexivity].
      * simpl. rewrite (IH c (S i0) k Hk).
        -- f_equal. lia.
        -- intros q Hlt. apply (Hq (S q)). lia.
Qed.

Lemma rfind_from_none :
  forall (s : pystr) c i0,
    (forall q, nth_error s q <> Some c) -> rfind_from [c] s i0 = None.
Proof.
  induction s as [|x t IH]; intros c i0 Hq; [reflexivity|].
  cbn [rfind_from starts_with].
  rewrite (IH c (S i0)) by (intros q; apply (Hq (S q))).
  destruct (N.eqb_spec c x) as [->|Hne]; [|reflexivity].
  exfalso. now apply (Hq 0).
Qed.

Lemma rfind_from_char :
  forall (s : pystr) c i0 k,
    nth_error s k = Some c -> (forall q, k < q -> nth_error s q <> Some c) ->
    rfind_from [c] s i0 = Some (i0 + k).
Proof.
  induction s as [|x t IH]; intros c i0 k Hk Hq.
  - destruct k; discriminate.
  - cbn [rfind_from starts_with]. destruct k as [|k].
    + injection Hk as ->.
      rewrite rfind_from_none by (intros q; apply (Hq (S q)); lia).
      rewrite N.eqb_refl. simpl. f_equal. lia.
    + rewrite (IH c (S i0) k Hk) by (intros q Hlt; apply (Hq (S q)); lia).
      f_equal. lia.
Qed.

(** The text handed to [json.loads] runs from the first "{" to the last
    "}", both included. *)
Lemma texto_json_llaves :
  forall respuesta i j,
    primera_en 123 respuesta i -> ultima_en 125 respuesta j ->
    texto_json respuesta = substr respuesta i (S j).
Proof.
  intros s i j [Hi Hqi] [Hj Hqj]. unfold texto_json, find, rfind.
  change (u "{") with [123%N]. change (u "}") with [125%N].
  rewrite (find_from_char s 123 0 i Hi Hqi).
  rewrite (rfind_from_char s 125 0 j Hj Hqj).
  cbn [index_or_minus1 Nat.add]. unfold slice.
  assert (i < List.length s) by (apply nth_error_Some; congruence).
  assert (j < List.length s) by (apply nth_error_Some; congruence).
  rewrite !clamp_index_dentro by lia. f_equal; lia.
Qed.

(** C8. Once the prompt is built, [validar_pauta] returns and never
    raises: if the completion service answers [respuesta] and
    [json.loads] reads [respuesta[inicio:fin]], the result is the value
    read; if the service or the reading raises [e], the result is the
    error dictionary, with [aprobado] false and [str(e)] under [debug].
    The text read runs from the first "{" to the last "}" of the
    answer. *)
Theorem validar_pauta_respuesta :
  forall (json_dumps : json -> pystr) (json_loads : pystr -> resultado json)
         (self : AgenteAuditor) (pauta_json : dict) (prompt : pystr),
    preparar_prompt json_dumps self pauta_json = Devuelve prompt ->
    exists r,
      validar_pauta json_dumps json_loads self pauta_json = Devuelve r
      /\ match llm_invoke self prompt with
         | Devuelve respuesta =>
           match json_loads (texto_json respuesta) with
           | Devuelve v => r = v
           | Lanza e => r = resultado_error e
           end
           /\ (forall i j,
                 primera_en 123 respuesta i -> ultima_en 125 respuesta j ->
                 texto_json respuesta = substr respuesta i (S j))
         | Lanza e => r = resultado_error e
         end
      /\ (forall e,
            campo "aprobado" (resultado_error e) = Some (JBool false)
            /\ campo "debug" (resultado_error e) = Some (JStr (exc_str e))).
Proof.
  intros jd jl self pauta prompt Hp.
  unfold validar_pauta. rewrite Hp. cbn [bind].
  eexists. split; [reflexivity|]. split.
  - unfold invocar_y_parsear.
    destruct (llm_invoke self prompt) as [respuesta|e]; cbn [bind try_except].
    + split; [|apply texto_json_llaves].
      destruct (jl (texto_json respuesta)); reflexivity.
    + reflexivity.
  - intros e. split; reflexivity.
Qed.

(** An answer with text around the object is read; an answer without a
    readable object gives the error dictionary. *)
Lemma validar_pauta_testigo :
  validar_pauta (fun _ => []) json_loads_ejemplo
    (auditor_ejemplo "Claro, aqui esta: {} Espero que ayude.") []
  = Devuelve (JDict [])
  /\ exists r,
       validar_pauta (fun _ => []) json_loads_ejemplo
         (auditor_ejemplo "Lo siento, no puedo responder.") []
       = Devuelve r
       /\ campo "aprobado" r = Some (JBool false).
Proof.
  split.
  - destruct (validar_pauta_respuesta (fun _ => []) json_loads_ejemplo
                (auditor_ejemplo "Claro, aqui esta: {} Espero que ayude.") []
                _ eq_refl) as (r & Hr & Hc & _).
    rewrite Hr. cbn [llm_invoke auditor_ejemplo] in Hc.
    destruct Hc as [Hc Ht].
    rewrite (Ht 18 19) in Hc.
    + vm_compute in Hc. now rewrite Hc.
    + split; [reflexivity|]. intros q Hq.
      do 18 (destruct q as [|q]; [discriminate|]). lia.
    + split; [reflexivity|]. intros q Hq.
      do 20 (destruct q as [|q]; [lia|]).
      do 18 (destruct q as [|q]; [discriminate|]).
      destruct q; discriminate.
  - destruct (validar_pauta_respuesta (fun _ => []) json_loads_ejemplo
                (auditor_ejemplo "Lo siento, no puedo responder.") []
                _ eq_refl) as (r & Hr & Hc & He).
    exists r. split; [exact Hr|].
    cbn [llm_invoke auditor_ejemplo] in Hc. destruct Hc as [Hc _].
    vm_compute in Hc. rewrite Hc. reflexivity.
Defined.

(* ================================================================== *)
(** * The result of [ejecutar_validacion_medica] *)
(* ================================================================== *)

(** In every case of PASO 6 the flag [es_aij] and the decision go
    together: RECHAZADA has it false, APROBADA has it true. *)
Lemma decidir_es_aij :
  forall farmaco evidencia_texto dosis_max_guia dosis_max_texto
         dosis_mg_kg dosis_absoluta peso_paciente,
    let d := decidir farmaco evidencia_texto dosis_max_guia dosis_max_texto
               dosis_mg_kg dosis_absoluta peso_paciente in
    (d_decision d = RECHAZADA /\ d_es_aij d = false)
    \/ (d_decision d = APROBADA /\ d_es_aij d = true)
    \/ d_decision d = ALERTA.
Proof.
  intros. unfold d, decidir.
  destruct (buscar_contraindicacion _ _); [left; split; reflexivity|].
  destruct (si_verdadero dosis_max_guia);
    [|right; right; apply sin_dosis_max_alerta].
  destruct (si_verdadero (dosis_prescrita _ _ _));
    [|right; right; reflexivity].
  destruct (ge _ _); [left|right; left]; split; reflexivity.
Qed.

(** With a weight, PASO 8 returns what [ProcesarRecetaTool._run] built,
    with the absolute dose added to [analisis] in one case. *)
Lemma paso_8_con_peso :
  forall L w id_paciente,
    let parsed :=
      ProcesarRecetaTool_run id_paciente (u "Sistema IA") (l_farmaco L) w
        (l_dosis_mg_kg L) (l_frecuencia_texto L) (l_frecuencia_horas L)
        (l_es_aij L) (l_razon L) (Some (l_decision L)) in
    paso_8 L (Some w) id_paciente
    = match si_verdadero (l_dosis_absoluta L), si_verdadero (l_dosis_mg_kg L)
      with
      | Some a, None =>
        match parsed with
        | JDict d =>
          match dict_get (u "analisis") d with
          | Some (JDict an) =>
            JDict (dict_set (u "analisis")
                     (JDict (dict_set (u "dosis_absoluta_mg") (JFloat a) an))
                     d)
          | _ => parsed
          end
        | _ => parsed
        end
      | _, _ => parsed
      end.
Proof.
  intros L w id. unfold paso_8, float_de_peso. cbn [bind].
  destruct (si_verdadero (l_dosis_absoluta L)) as [a|];
    [destruct (si_verdadero (l_dosis_mg_kg L))|]; reflexivity.
Qed.

Lemma paso_8_estado_con_peso :
  forall L w id_paciente,
    campo "estado" (paso_8 L (Some w) id_paciente)
    = Some (JStr (if l_es_aij L then u "Aprobada" else u "Alerta"))
    /\ campo2 "auditoria" "es_aij" (paso_8 L (Some w) id_paciente)
       = Some (JBool (l_es_aij L)).
Proof.
  intros L w id. rewrite paso_8_con_peso.
  destruct (si_verdadero (l_dosis_absoluta L)) as [a|];
    [destruct (si_verdadero (l_dosis_mg_kg L))|]; split; reflexivity.
Qed.

(** X2: with a weight, the state of the result is "Aprobada" or "Alerta"
    and follows the flag [es_aij] of the audit: an approved prescription
    is "Aprobada", a rejected one is "Alerta", and "Rechazada" is never
    written. The decision is one of APROBADA, ALERTA and RECHAZADA. *)
Theorem estado_y_decision_con_peso :
  forall env texto_medico w id_paciente,
    texto_admitido texto_medico ->
    exists r decision estado,
      ejecutar_validacion_medica env texto_medico (Some w) id_paciente
      = Devuelve r
      /\ campo "decision" r = Some (JStr decision)
      /\ campo "estado" r = Some (JStr estado)
      /\ (decision = APROBADA \/ decision = ALERTA \/ decision = RECHAZADA)
      /\ (estado = u "Aprobada" \/ estado = u "Alerta")
      /\ (decision = APROBADA -> estado = u "Aprobada")
      /\ (decision = RECHAZADA -> estado = u "Alerta")
      /\ campo2 "auditoria" "es_aij" r
         = Some (JBool (str_eqb estado (u "Aprobada"))).
Proof.
  intros env texto w id Hadm.
  destruct (pasos_1_a_7_devuelve env texto (Some w) Hadm) as (L & HL & _).
  rewrite (ejecutar_de_pasos _ _ _ id _ HL).
  destruct (paso_8_estado_con_peso L w id) as [He Ha].
  exists (paso_8 L (Some w) id), (l_decision L),
         (if l_es_aij L then u "Aprobada" else u "Alerta").
  split; [reflexivity|]. split; [apply paso_8_decision|].
  split; [exact He|].
  apply pasos_1_a_7_inv in HL.
  destruct HL as (_ & _ & _ & _ & _ & _ & Hes & Hd & _).
  pose proof (decidir_es_aij (l_farmaco L) (l_evidencia_texto L)
                (l_dosis_max_guia L) (l_dosis_max_texto L) (l_dosis_mg_kg L)
                (l_dosis_absoluta L) (Some w)) as Hc.
  cbv zeta in Hc. rewrite <- Hes, <- Hd in Hc.
  destruct decisiones_distintas as (D1 & D2 & D3).
  rewrite Ha.
  destruct Hc as [[Hr Hf]|[[Hap Ht]|Hal]].
  - rewrite Hf, Hr. repeat split; auto. intros E. congruence.
  - rewrite Ht, Hap. repeat split; auto. intros E. congruence.
  - rewrite Hal. destruct (l_es_aij L); repeat split; auto;
      intros E; congruence.
Qed.

(** "Metotrexato 30 mg semanal" for a child of 25 kg, against "menos de
    25 mg/semana": RECHAZADA, with the state "Alerta". *)
Lemma rechazada_con_estado_alerta :
  exists r,
    ejecutar_validacion_medica (guia "Dosis bajas (menos de 25 mg/semana).")
      (Some (u "Metotrexato 30 mg semanal")) (Some (num "25")) (u "P_001")
    = Devuelve r
    /\ campo "decision" r = Some (JStr RECHAZADA)
    /\ campo "estado" r = Some (JStr (u "Alerta")).
Proof.
  destruct (estado_y_decision_con_peso
              (guia "Dosis bajas (menos de 25 mg/semana).")
              (Some (u "Metotrexato 30 mg semanal")) (num "25") (u "P_001"))
    as (r & decision & estado & Hr & Hd & He & _ & _ & _ & Hre & _).
  - simpl. lia.
  - exists r. split; [exact Hr|].
    assert (E : decision = RECHAZADA).
    { vm_compute in Hr. injection Hr as <-. vm_compute in Hd.
      injection Hd as <-. reflexivity. }
    rewrite Hd, He, E, (Hre E). split; reflexivity.
Defined.

(** ** What the retrieval tool answers *)

Lemma fold_left_formatear :
  forall (f : Documento -> pystr) docs inicio,
    fold_left (fun contexto doc => contexto ++ f doc) docs inicio
    = inicio ++ List.concat (map f docs).
Proof.
  intros f docs. induction docs as [|d docs IH]; intros inicio; simpl.
  - now rewrite app_nil_r.
  - rewrite IH. now rewrite <- app_assoc.
Qed.

(** The four forms of an answer of [ConsultarGuiaRAGTool._run]. *)
Lemma ConsultarGuiaRAGTool_run_formas :
  forall env pregunta,
    let r := ConsultarGuiaRAGTool_run env pregunta in
    r = u "Error: No existe DB vectorial. Ejecuta ingest_knowledge.py primero."
    \/ (exists e, r = u "Error RAG: " ++ exc_str e)
    \/ r = u "No se encontró información en las guías médicas."
    \/ (exists docs,
          docs <> []
          /\ r = u "--- EVIDENCIA ENCONTRADA ---" ++ nl
                   ++ List.concat (map formatear_doc docs)).
Proof.
  intros env pregunta r. unfold r, ConsultarGuiaRAGTool_run.
  destruct (existe_db env); cbn [negb]; [|left; reflexivity].
  destruct (abrir_db env) as [vdb|e]; cbn [bind try_except];
    [|right; left; eauto].
  set (filtrada :=
         match ficha_de farmacos_fichas (lower pregunta) with
         | Some (farmaco_encontrado, ficha_objetivo) =>
             try_except
               (similarity_search vdb
                  (u "dosis máxima " ++ farmaco_encontrado ++ u " mg kg niños")
                  6 (Some ficha_objetivo)) (fun _ => [])
         | None => []
         end).
  destruct filtrada as [|d0 ds].
  - destruct (similarity_search vdb pregunta 5 None) as [[|d1 ds1]|e];
      cbn [bind try_except].
    + right; right; left; reflexivity.
    + right; right; right. exists (d1 :: ds1). split; [discriminate|].
      rewrite fold_left_formatear. now rewrite <- app_assoc.
    + right; left; eauto.
  - cbn [bind try_except]. right; right; right.
    exists (d0 :: ds). split; [discriminate|].
    rewrite fold_left_formatear. now rewrite <- app_assoc.
Qed.

Lemma ConsultarGuiaRAGTool_run_no_vacio :
  forall env pregunta, no_vacio (ConsultarGuiaRAGTool_run env pregunta) = true.
Proof.
  intros env pregunta.
  destruct (ConsultarGuiaRAGTool_run_formas env pregunta)
    as [H|[[e H]|[H|(docs & _ & H)]]]; rewrite H; reflexivity.
Qed.

(** ** The evidence kept by PASO 4 *)

Lemma buscar_evidencia_devuelve :
  forall (rag : pystr -> pystr) farmaco nombres mejor,
    exists ev,
      buscar_evidencia (fun q => Devuelve (rag q)) farmaco nombres mejor
      = Devuelve ev
      /\ (ev = mejor
          \/ exists nombre,
               In nombre nombres
               /\ ev = rag (u "dosis " ++ nombre ++ u " niños artritis juvenil mg")).
Proof.
  intros rag farmaco nombres.
  induction nombres as [|n ns IH]; intros mejor; cbn [buscar_evidencia bind].
  - eauto.
  - destruct (_ || _).
    + eexists. split; [reflexivity|]. right. exists n. split; [now left|reflexivity].
    + destruct (IH (if no_vacio mejor then mejor
                    else rag (u "dosis " ++ n ++ u " niños artritis juvenil mg")))
        as (ev & -> & [E|(n' & Hin & E)]).
      * exists ev. split; [reflexivity|].
        destruct (no_vacio mejor); [now left|].
        right. exists n. split; [now left|exact E].
      * exists ev. split; [reflexivity|]. right. exists n'.
        split; [now right|exact E].
Qed.

Lemma nombres_buscar_no_vacio : forall farmaco, nombres_buscar farmaco <> [].
Proof.
  intros farmaco. unfold nombres_buscar, variantes_farmaco.
  cbn [variantes_get].
  repeat (destruct (str_eqb farmaco _); [discriminate|]). discriminate.
Qed.

(** The evidence of PASO 4 is an answer of the tool to the question on
    one of the names of the drug; it is never empty. *)
Lemma consultar_evidencia_es_respuesta :
  forall env farmaco,
    exists nombre,
      In nombre (nombres_buscar farmaco)
      /\ consultar_evidencia env farmaco
         = ConsultarGuiaRAGTool_run env
             (u "dosis " ++ nombre ++ u " niños artritis juvenil mg").
Proof.
  intros env farmaco. unfold consultar_evidencia.
  pose proof (nombres_buscar_no_vacio farmaco) as Hne.
  destruct (nombres_buscar farmaco) as [|n ns] eqn:En; [congruence|].
  cbn [buscar_evidencia bind].
  destruct (_ || _); cbn [try_except].
  - exists n. split; [now left|reflexivity].
  - cbn [no_vacio].
    destruct (buscar_evidencia_devuelve (ConsultarGuiaRAGTool_run env)
                farmaco ns
                (ConsultarGuiaRAGTool_run env
                   (u "dosis " ++ n ++ u " niños artritis juvenil mg")))
      as (ev & -> & [E|(n' & Hin & E)]); cbn [try_except].
    + exists n. split; [now left|exact E].
    + exists n'. split; [now right|exact E].
Qed.

Lemma consultar_evidencia_no_vacia :
  forall env farmaco, no_vacio (consultar_evidencia env farmaco) = true.
Proof.
  intros env farmaco.
  destruct (consultar_evidencia_es_respuesta env farmaco) as (n & _ & ->).
  apply ConsultarGuiaRAGTool_run_no_vacio.
Qed.

(** ** The result without a weight *)

Lemma clamp_index_nat :
  forall len n, clamp_index len (Z.of_nat n) = Nat.min n len.
Proof.
  intros len n. unfold clamp_index.
  destruct (Z.ltb_spec (Z.of_nat n) 0) as [H|_]; [lia|].
  destruct (Z.ltb_spec (Z.of_nat n) 0) as [H|_]; [lia|].
  destruct (Z.ltb_spec (Z.of_nat len) (Z.of_nat n)) as [H|H]; lia.
Qed.

Lemma slice_to_firstn :
  forall (s : pystr) n, slice_to s (Z.of_nat n) = firstn n s.
Proof.
  intros s n. unfold slice_to, slice, substr.
  rewrite (clamp_index_nat _ n). rewrite (clamp_index_nat _ 0).
  cbn [Nat.min skipn]. rewrite Nat.sub_0_r.
  destruct (Nat.le_ge_cases n (List.length s)) as [H|H].
  - now rewrite Nat.min_l.
  - rewrite Nat.min_r by assumption. rewrite firstn_all.
    symmetry. now apply firstn_all2.
Qed.

Lemma si_verdadero_idem :
  forall o, si_verdadero (si_verdadero o) = si_verdadero o.
Proof.
  intros [x|]; [|reflexivity]. simpl. destruct (truthy x) eqn:E; simpl;
    [now rewrite E|reflexivity].
Qed.

(** X3: without a weight ([None]) the result is the dictionary of the
    [except] branch of PASO 8. Its state is "Aprobada" for APROBADA and
    otherwise the decision itself, in capitals; the dose it shows is the
    absolute dose of the text; and the audit carries the maximum dose of
    the guideline and the first 500 characters of the evidence, which is
    never empty. *)
Theorem resultado_sin_peso :
  forall env texto_medico id_paciente,
    texto_admitido texto_medico ->
    exists r L,
      pasos_1_a_7 env texto_medico None = Devuelve L
      /\ ejecutar_validacion_medica env texto_medico None id_paciente
         = Devuelve r
      /\ campo "decision" r = Some (JStr (l_decision L))
      /\ campo "estado" r
         = Some (JStr (if str_eqb (l_decision L) APROBADA then u "Aprobada"
                       else l_decision L))
      /\ (l_decision L = ALERTA -> campo "estado" r = Some (JStr ALERTA))
      /\ (l_decision L = RECHAZADA -> campo "estado" r = Some (JStr RECHAZADA))
      /\ campo2 "analisis" "dosis_calculada" r
         = Some (JStr (match si_verdadero (l_dosis_absoluta L) with
                       | Some a => format_f 0 a ++ u " mg"
                       | None => u "N/D"
                       end))
      /\ campo2 "analisis" "dosis_absoluta_mg" r
         = Some (json_opt_float (l_dosis_absoluta L))
      /\ campo2 "auditoria" "dosis_max_guia" r
         = Some (json_opt_float (l_dosis_max_guia L))
      /\ campo2 "auditoria" "evidencia_raw" r
         = Some (JStr (firstn 500 (l_evidencia_texto L)))
      /\ l_evidencia_texto L <> [].
Proof.
  intros env texto id Hadm.
  destruct (pasos_1_a_7_devuelve env texto None Hadm) as (L & HL & _).
  exists (paso_8 L None id), L. split; [exact HL|].
  split; [exact (ejecutar_de_pasos _ _ _ id _ HL)|].
  apply pasos_1_a_7_inv in HL.
  destruct HL as (_ & _ & _ & _ & Hev & _ & _ & _ & _ & Hcalc).
  pose proof (consultar_evidencia_no_vacia env (l_farmaco L)) as Hne.
  rewrite <- Hev in Hne.
  unfold paso_8, float_de_peso. cbn [bind try_except].
  unfold resultado_manual, campo2, campo. cbn [dict_get str_eqb].
  change (str_eqb (u "estado") (u "estado")) with true.
  split; [reflexivity|]. split; [reflexivity|].
  split; [intros ->; reflexivity|]. split; [intros ->; reflexivity|].
  split.
  { vm_compute dict_get. rewrite Hcalc. unfold dosis_calculada.
    cbn [si_verdadero].
    assert (E : match si_verdadero (l_dosis_mg_kg L) with
                | Some _ | _ => si_verdadero (l_dosis_absoluta L)
                end = si_verdadero (l_dosis_absoluta L))
      by (destruct (si_verdadero (l_dosis_mg_kg L)); reflexivity).
    rewrite E, si_verdadero_idem. reflexivity. }
  split; [reflexivity|]. split; [reflexivity|].
  split.
  - assert (S : slice_to (l_evidencia_texto L) 500
                = firstn 500 (l_evidencia_texto L))
      by exact (slice_to_firstn (l_evidencia_texto L) 500).
    rewrite Hne, S. reflexivity.
  - destruct (l_evidencia_texto L); [discriminate|discriminate].
Qed.

(** "Metotrexato 30 mg semanal" without a weight: RECHAZADA, and the
    state is "RECHAZADA" too. *)
Lemma rechazada_sin_peso :
  exists r,
    ejecutar_validacion_medica (guia "Dosis bajas (menos de 25 mg/semana).")
      (Some (u "Metotrexato 30 mg semanal")) None (u "P_001")
    = Devuelve r
    /\ campo "decision" r = Some (JStr RECHAZADA)
    /\ campo "estado" r = Some (JStr RECHAZADA)
    /\ campo2 "analisis" "dosis_calculada" r = Some (JStr (u "30 mg")).
Proof.
  destruct (resultado_sin_peso
              (guia "Dosis bajas (menos de 25 mg/semana).")
              (Some (u "Metotrexato 30 mg semanal")) (u "P_001"))
    as (r & L & HL & Hr & Hd & _ & _ & He & Hc & _).
  - simpl. lia.
  - exists r. split; [exact Hr|].
    vm_compute in HL. injection HL as <-.
    split; [exact Hd|]. split; [apply He; reflexivity|].
    rewrite Hc. vm_compute. reflexivity.
Defined.

(** ** The dose the result shows *)

(** X4: with a weight, the dose shown in [analisis] is the one
    [ProcesarRecetaTool._run] computes: "N/D" when the text has no dose
    per kg, even if it has an absolute dose, and otherwise the weight
    times the dose per kg, written without decimals. The absolute dose
    goes to [dosis_absoluta_mg], an entry that exists only when the
    absolute dose is not zero and there is no dose per kg (or it is
    zero). *)
Theorem dosis_mostrada_con_peso :
  forall env texto_medico w id_paciente,
    texto_admitido texto_medico ->
    exists r L,
      pasos_1_a_7 env texto_medico (Some w) = Devuelve L
      /\ ejecutar_validacion_medica env texto_medico (Some w) id_paciente
         = Devuelve r
      /\ campo2 "analisis" "dosis_calculada" r
         = Some (JStr (match l_dosis_mg_kg L with
                       | Some d => format_f 0 (mul w d) ++ u " mg"
                       | None => u "N/D"
                       end))
      /\ campo2 "analisis" "dosis_mg_kg_detectada" r
         = Some (json_opt_float (l_dosis_mg_kg L))
      /\ campo2 "analisis" "dosis_absoluta_mg" r
         = match si_verdadero (l_dosis_absoluta L),
                 si_verdadero (l_dosis_mg_kg L) with
           | Some a, None => Some (JFloat a)
           | _, _ => None
           end.
Proof.
  intros env texto w id Hadm.
  destruct (pasos_1_a_7_devuelve env texto (Some w) Hadm) as (L & HL & _).
  exists (paso_8 L (Some w) id), L. split; [exact HL|].
  split; [exact (ejecutar_de_pasos _ _ _ id _ HL)|].
  rewrite paso_8_con_peso.
  destruct (si_verdadero (l_dosis_absoluta L)) as [a|];
    [destruct (si_verdadero (l_dosis_mg_kg L))|];
    repeat split; reflexivity.
Qed.

(** "Metotrexato 15 mg semanal" for 25 kg: the dose shown is "N/D" and
    the 15 mg are in [dosis_absoluta_mg]. *)
Lemma dosis_absoluta_mostrada_nd :
  exists r,
    ejecutar_validacion_medica (guia "Dosis bajas (menos de 25 mg/semana).")
      (Some (u "Metotrexato 15 mg semanal")) (Some (num "25")) (u "P_001")
    = Devuelve r
    /\ campo2 "analisis" "dosis_calculada" r = Some (JStr (u "N/D"))
    /\ campo2 "analisis" "dosis_absoluta_mg" r = Some (JFloat (num "15")).
Proof.
  destruct (dosis_mostrada_con_peso
              (guia "Dosis bajas (menos de 25 mg/semana).")
              (Some (u "Metotrexato 15 mg semanal")) (num "25") (u "P_001"))
    as (r & L & HL & Hr & Hc & _ & Ha).
  - simpl. lia.
  - exists r. split; [exact Hr|].
    vm_compute in HL. injection HL as <-.
    split; [exact Hc|exact Ha].
Defined.

(** ** The drug is never an empty name *)

Lemma farmaco_conocido_no_vacio :
  forall texto_lower f,
    farmaco_conocido farmacos_conocidos texto_lower = Some f -> f <> [].
Proof.
  intros tl f. unfold farmacos_conocidos. cbn [map farmaco_conocido].
  repeat (destruct (contains _ tl);
          [intros [= <-]; vm_compute; discriminate|]).
  discriminate.
Qed.

Lemma extraer_farmaco_no_vacio :
  forall texto texto_lower f,
    extraer_farmaco texto texto_lower = Devuelve f -> f <> [].
Proof.
  intros texto tl f. unfold extraer_farmaco.
  destruct (farmaco_conocido farmacos_conocidos tl) as [k|] eqn:Ek.
  - intros [= <-]. eapply farmaco_conocido_no_vacio; eauto.
  - unfold search.
    destruct (search_from false patron_palabra texto _ 0) as [m|] eqn:E.
    + apply search_from_match_at in E.
      destruct (match_at_palabra _ _ _ E) as (j & Hp & Hc).
      unfold grupo1, group. rewrite Hc. cbn [nth Nat.sub span_text bind].
      intros [= <-].
      destruct Hp as (_ & _ & Hlen & _ & Hl).
      pose proof (substr_length texto (m_start m) j) as SL.
      destruct (substr texto (m_start m) j) as [|c t] eqn:Es.
      * simpl in SL. lia.
      * unfold capitalize, title_full. destruct (c =? 223)%N; discriminate.
    + intros [= <-]. discriminate.
Qed.

(** ** The function returns, whatever the text and the weight *)

(** X5: for a text (or [None]) and a weight that is a float or [None],
    the validation returns: no exception of its steps escapes. The
    result is a dictionary with the entries [estado], [decision],
    [analisis] and [auditoria]; the decision is APROBADA, ALERTA or
    RECHAZADA; [analisis] names the drug, never empty, and [auditoria]
    gives the reason. *)
Theorem validacion_devuelve :
  forall env texto_medico peso_paciente id_paciente,
    texto_admitido texto_medico ->
    exists r estado decision analisis auditoria farmaco razon,
      ejecutar_validacion_medica env texto_medico peso_paciente id_paciente
      = Devuelve r
      /\ campo "estado" r = Some (JStr estado)
      /\ campo "decision" r = Some (JStr decision)
      /\ campo "analisis" r = Some (JDict analisis)
      /\ campo "auditoria" r = Some (JDict auditoria)
      /\ (decision = APROBADA \/ decision = ALERTA \/ decision = RECHAZADA)
      /\ dict_get (u "farmaco") analisis = Some (JStr farmaco)
      /\ farmaco <> []
      /\ dict_get (u "razon") auditoria = Some (JStr razon).
Proof.
  intros env texto peso id Hadm.
  destruct (pasos_1_a_7_devuelve env texto peso Hadm) as (L & HL & _).
  rewrite (ejecutar_de_pasos _ _ _ id _ HL).
  apply pasos_1_a_7_inv in HL.
  destruct HL as (Hf & _ & _ & _ & _ & _ & _ & Hd & _).
  pose proof (decidir_es_aij (l_farmaco L) (l_evidencia_texto L)
                (l_dosis_max_guia L) (l_dosis_max_texto L) (l_dosis_mg_kg L)
                (l_dosis_absoluta L) peso) as Hc.
  cbv zeta in Hc. rewrite <- Hd in Hc.
  assert (D3 : l_decision L = APROBADA \/ l_decision L = ALERTA
               \/ l_decision L = RECHAZADA) by tauto.
  assert (Fne : l_farmaco L <> []).
  { revert Hf. generalize (l_farmaco L).
    intros f Hf. eapply extraer_farmaco_no_vacio; eauto. }
  destruct peso as [w|].
  - rewrite paso_8_con_peso.
    destruct (si_verdadero (l_dosis_absoluta L)) as [a|];
      [destruct (si_verdadero (l_dosis_mg_kg L))|];
      do 7 eexists; repeat split; try reflexivity; assumption.
  - unfold paso_8, float_de_peso. cbn [bind try_except].
    do 7 eexists; repeat split; try reflexivity; assumption.
Qed.

(** No text and no weight: the validation returns, with the drug
    "Desconocido". *)
Lemma validacion_sin_texto_ni_peso :
  exists r,
    ejecutar_validacion_medica (guia "Dosis bajas (menos de 25 mg/semana).")
      None None (u "P_001")
    = Devuelve r
    /\ campo2 "analisis" "farmaco" r = Some (JStr (u "Desconocido")).
Proof.
  destruct (validacion_devuelve
              (guia "Dosis bajas (menos de 25 mg/semana).") None None
              (u "P_001"))
    as (r & estado & decision & analisis & auditoria & farmaco & razon
        & Hr & _).
  - exact I.
  - exists r. split; [exact Hr|].
    vm_compute in Hr. injection Hr as <-. reflexivity.
Defined.

(* ================================================================== *)
(** * The evidence: PASO 4 and [ConsultarGuiaRAGTool._run] *)
(* ================================================================== *)

Lemma buscar_evidencia_ninguna :
  forall (rag : pystr -> pystr) farmaco nombres mejor,
    no_vacio mejor = true ->
    Forall (fun n => nombra_al_farmaco farmaco n (rag (pregunta_rag n)) = false)
           nombres ->
    buscar_evidencia (fun q => Devuelve (rag q)) farmaco nombres mejor
    = Devuelve mejor.
Proof.
  intros rag farmaco nombres mejor Hm H.
  induction H as [|n ns Hn Hns IH]; cbn [buscar_evidencia bind];
    [reflexivity|].
  unfold nombra_al_farmaco, pregunta_rag in Hn. rewrite Hn, Hm. exact IH.
Qed.

Lemma buscar_evidencia_primera :
  forall (rag : pystr -> pystr) farmaco antes nombre despues mejor,
    no_vacio mejor = true ->
    Forall (fun n => nombra_al_farmaco farmaco n (rag (pregunta_rag n)) = false)
           antes ->
    nombra_al_farmaco farmaco nombre (rag (pregunta_rag nombre)) = true ->
    buscar_evidencia (fun q => Devuelve (rag q)) farmaco
      (antes ++ nombre :: despues) mejor
    = Devuelve (rag (pregunta_rag nombre)).
Proof.
  intros rag farmaco antes nombre despues mejor Hm H Hn.
  induction H as [|n ns Hn' Hns IH]; cbn [app buscar_evidencia bind].
  - unfold nombra_al_farmaco, pregunta_rag in Hn. now rewrite Hn.
  - unfold nombra_al_farmaco, pregunta_rag in Hn'. rewrite Hn', Hm. exact IH.
Qed.

Lemma primera_que_nombra :
  forall (P : pystr -> bool) (l : list pystr),
    Forall (fun n => P n = false) l
    \/ exists antes nombre despues,
         l = antes ++ nombre :: despues
         /\ Forall (fun n => P n = false) antes /\ P nombre = true.
Proof.
  intros P l. induction l as [|x l IH]; [left; constructor|].
  destruct (P x) eqn:E.
  - right. exists [], x, l. repeat split; auto.
  - destruct IH as [IH|(a & n & d & -> & Ha & Hn)].
    + left. now constructor.
    + right. exists (x :: a), n, d. repeat split; auto.
Qed.

(** X6: the evidence PASO 4 keeps. The tool is asked about the names of
    the drug in turn; the answer kept is the first that names the drug
    (the name asked about or the drug itself, in any case of letters),
    and the names after it are not asked about. When no answer names
    the drug, the answer to the first name is kept. *)
Theorem evidencia_elegida :
  forall env farmaco,
    let respuesta nombre := ConsultarGuiaRAGTool_run env (pregunta_rag nombre) in
    (exists antes nombre despues,
        nombres_buscar farmaco = antes ++ nombre :: despues
        /\ Forall (fun n => nombra_al_farmaco farmaco n (respuesta n) = false)
                  antes
        /\ nombra_al_farmaco farmaco nombre (respuesta nombre) = true
        /\ consultar_evidencia env farmaco = respuesta nombre)
    \/ (exists primero resto,
          nombres_buscar farmaco = primero :: resto
          /\ Forall (fun n => nombra_al_farmaco farmaco n (respuesta n) = false)
                    (primero :: resto)
          /\ consultar_evidencia env farmaco = respuesta primero).
Proof.
  intros env farmaco respuesta.
  pose proof (nombres_buscar_no_vacio farmaco) as Hne.
  unfold consultar_evidencia.
  destruct (primera_que_nombra
              (fun n => nombra_al_farmaco farmaco n (respuesta n))
              (nombres_buscar farmaco))
    as [Hall|(antes & nombre & despues & E & Ha & Hn)].
  - right. destruct (nombres_buscar farmaco) as [|p resto]; [congruence|].
    exists p, resto. split; [reflexivity|]. split; [exact Hall|].
    inversion Hall as [|? ? Hp Hr]; subst.
    cbn [buscar_evidencia bind no_vacio].
    unfold nombra_al_farmaco, respuesta, pregunta_rag in Hp. rewrite Hp.
    rewrite (buscar_evidencia_ninguna (ConsultarGuiaRAGTool_run env));
      [reflexivity|apply ConsultarGuiaRAGTool_run_no_vacio|exact Hr].
  - left. exists antes, nombre, despues. split; [exact E|].
    split; [exact Ha|]. split; [exact Hn|]. rewrite E.
    destruct antes as [|a antes].
    + cbn [app buscar_evidencia bind].
      unfold nombra_al_farmaco, respuesta, pregunta_rag in Hn. now rewrite Hn.
    + inversion Ha as [|? ? Hp Hr]; subst.
      cbn [app buscar_evidencia bind no_vacio].
      unfold nombra_al_farmaco, respuesta, pregunta_rag in Hp. rewrite Hp.
      rewrite (buscar_evidencia_primera (ConsultarGuiaRAGTool_run env));
        [reflexivity|apply ConsultarGuiaRAGTool_run_no_vacio|exact Hr|exact Hn].
Qed.

(** ** The two searches of the tool *)

(** X7: when the question names a drug of the table of fichas (the
    first entry of the table whose key occurs in the lower-cased
    question) and the search restricted to its ficha gives fragments,
    the answer is built from these fragments alone: the wording of the
    question plays no part, and the general search is not used. *)
Theorem respuesta_de_la_ficha :
  forall env vector_db pregunta farmaco ficha docs,
    existe_db env = true ->
    abrir_db env = Devuelve vector_db ->
    ficha_de farmacos_fichas (lower pregunta) = Some (farmaco, ficha) ->
    similarity_search vector_db
      (u "dosis máxima " ++ farmaco ++ u " mg kg niños") 6 (Some ficha)
    = Devuelve docs ->
    docs <> [] ->
    ConsultarGuiaRAGTool_run env pregunta = evidencia_de docs.
Proof.
  intros env vdb pregunta farmaco ficha docs He Ha Hf Hs Hd.
  unfold ConsultarGuiaRAGTool_run. rewrite He, Ha. cbn [negb bind].
  rewrite Hf, Hs. cbn [try_except].
  destruct docs as [|d ds]; [congruence|]. cbn [bind try_except].
  rewrite fold_left_formatear. unfold evidencia_de.
  now rewrite <- app_assoc.
Qed.

(** X8: when the question names no drug of the table, or the search
    restricted to the ficha raises or finds nothing, the general search
    (the question itself, five fragments, no filter) answers: its
    fragments, the fixed text when it has none, and the text "Error RAG:"
    with the message when it raises. An exception of the restricted
    search leaves no trace in the answer. *)
Theorem respuesta_de_la_busqueda_general :
  forall env vector_db pregunta,
    existe_db env = true ->
    abrir_db env = Devuelve vector_db ->
    match ficha_de farmacos_fichas (lower pregunta) with
    | Some (farmaco, ficha) =>
      match similarity_search vector_db
              (u "dosis máxima " ++ farmaco ++ u " mg kg niños") 6 (Some ficha)
      with
      | Devuelve docs => docs = []
      | Lanza _ => True
      end
    | None => True
    end ->
    ConsultarGuiaRAGTool_run env pregunta
    = match similarity_search vector_db pregunta 5 None with
      | Devuelve [] => u "No se encontró información en las guías médicas."
      | Devuelve docs => evidencia_de docs
      | Lanza e => u "Error RAG: " ++ exc_str e
      end.
Proof.
  intros env vdb pregunta He Ha Hf.
  unfold ConsultarGuiaRAGTool_run. rewrite He, Ha. cbn [negb bind].
  assert (E : match ficha_de farmacos_fichas (lower pregunta) with
              | Some (farmaco_encontrado, ficha_objetivo) =>
                try_except
                  (similarity_search vdb
                     (u "dosis máxima " ++ farmaco_encontrado
                        ++ u " mg kg niños") 6 (Some ficha_objetivo))
                  (fun _ => [])
              | None => []
              end = []).
  { destruct (ficha_de farmacos_fichas (lower pregunta)) as [[f fi]|];
      [|reflexivity].
    destruct (similarity_search vdb _ 6 (Some fi)) as [docs|e];
      cbn [try_except]; [exact Hf|reflexivity]. }
  rewrite E.
  destruct (similarity_search vdb pregunta 5 None) as [[|d ds]|e];
    cbn [bind try_except]; try reflexivity.
  rewrite fold_left_formatear. unfold evidencia_de.
  now rewrite <- app_assoc.
Qed.

(** The question about "metotrexato" is answered from the ficha of
    methotrexate. *)
Lemma respuesta_de_la_ficha_de_metotrexato :
  ConsultarGuiaRAGTool_run (guia "Dosis bajas (menos de 25 mg/semana).")
    (pregunta_rag (u "metotrexato"))
  = evidencia_de [documento "Dosis bajas (menos de 25 mg/semana)."].
Proof.
  apply (respuesta_de_la_ficha
           (guia "Dosis bajas (menos de 25 mg/semana).")
           {| similarity_search := fun _ _ _ =>
                Devuelve [documento "Dosis bajas (menos de 25 mg/semana)."] |}
           (pregunta_rag (u "metotrexato")) (u "metotrexato")
           (u "data/ficha tecnica metotrexate.pdf")).
  - reflexivity.
  - reflexivity.
  - vm_compute. reflexivity.
  - reflexivity.
  - discriminate.
Defined.

(** The restricted search raises: the answer is the one of the general
    search. *)
Lemma respuesta_con_filtro_fallido :
  ConsultarGuiaRAGTool_run (guia_sin_filtro "Dosis bajas (menos de 25 mg/semana).")
    (pregunta_rag (u "metotrexato"))
  = evidencia_de [documento "Dosis bajas (menos de 25 mg/semana)."].
Proof.
  rewrite (respuesta_de_la_busqueda_general
             (guia_sin_filtro "Dosis bajas (menos de 25 mg/semana).")
             {| similarity_search := fun _ _ filtro =>
                  match filtro with
                  | Some _ => Lanza (Excepcion (u "filter not supported"))
                  | None =>
                    Devuelve [documento "Dosis bajas (menos de 25 mg/semana)."]
                  end |}
             (pregunta_rag (u "metotrexato"))).
  - reflexivity.
  - reflexivity.
  - reflexivity.
  - vm_compute. exact I.
Defined.

(** ** Without guidelines *)

Lemma respuesta_sin_guias :
  forall env, sin_guias env ->
    exists t,
      (forall pregunta, ConsultarGuiaRAGTool_run env pregunta = t)
      /\ (t = u "Error: No existe DB vectorial. Ejecuta ingest_knowledge.py primero."
          \/ t = u "No se encontró información en las guías médicas.").
Proof.
  intros env [He|(He & vdb & Ha & Hs)].
  - eexists. split; [|left; reflexivity].
    intros pregunta. unfold ConsultarGuiaRAGTool_run. now rewrite He.
  - eexists. split; [|right; reflexivity].
    intros pregunta. unfold ConsultarGuiaRAGTool_run.
    rewrite He, Ha. cbn [negb bind].
    destruct (ficha_de farmacos_fichas (lower pregunta)) as [[f fi]|];
      rewrite ?Hs; cbn [try_except bind]; rewrite ?Hs; reflexivity.
Qed.

Lemma paso_8_farmaco :
  forall L peso_paciente id_paciente,
    campo2 "analisis" "farmaco" (paso_8 L peso_paciente id_paciente)
    = Some (JStr (l_farmaco L)).
Proof.
  intros L [w|] id; [rewrite paso_8_con_peso|reflexivity].
  destruct (si_verdadero (l_dosis_absoluta L)) as [a|];
    [destruct (si_verdadero (l_dosis_mg_kg L))|]; reflexivity.
Qed.

Lemma paso_8_es_aij :
  forall L peso_paciente id_paciente,
    campo2 "auditoria" "es_aij" (paso_8 L peso_paciente id_paciente)
    = Some (JBool (l_es_aij L)).
Proof.
  intros L [w|] id; [apply paso_8_estado_con_peso|reflexivity].
Qed.

(** X9: without guidelines (the index does not exist, or it has no
    fragment for any query) no prescription is approved or rejected:
    whatever the text and the weight, the decision is ALERTA, the
    prescription is not marked as a JIA treatment, and the reason is
    that no information on the drug was found. *)
Theorem sin_guias_alerta :
  forall env texto_medico peso_paciente id_paciente,
    texto_admitido texto_medico ->
    sin_guias env ->
    exists r farmaco,
      ejecutar_validacion_medica env texto_medico peso_paciente id_paciente
      = Devuelve r
      /\ campo "decision" r = Some (JStr ALERTA)
      /\ campo2 "auditoria" "es_aij" r = Some (JBool false)
      /\ campo2 "analisis" "farmaco" r = Some (JStr farmaco)
      /\ campo2 "auditoria" "razon" r
         = Some (JStr (u "⚠️ No se encontró información de " ++ farmaco
                         ++ u " en las guías médicas. Verificar manualmente.")).
Proof.
  intros env texto peso id Hadm Hs.
  destruct (respuesta_sin_guias env Hs) as (t & Ht & Hcases).
  destruct (pasos_1_a_7_devuelve env texto peso Hadm) as (L & HL & _).
  rewrite (ejecutar_de_pasos _ _ _ id _ HL).
  exists (paso_8 L peso id), (l_farmaco L). split; [reflexivity|].
  rewrite paso_8_decision, paso_8_es_aij, paso_8_farmaco, paso_8_razon.
  apply pasos_1_a_7_inv in HL.
  destruct HL as (_ & _ & _ & _ & Hev & (tipo & Hmx) & Hes & Hd & Hrz & _).
  destruct (consultar_evidencia_es_respuesta env (l_farmaco L))
    as (n & _ & En).
  rewrite Ht in En. rewrite <- Hev in En.
  rewrite Hes, Hd, Hrz. rewrite En in *.
  assert (Hmax : l_dosis_max_guia L = None).
  { assert (E : extraer_dosis_max patrones_dosis_max (lower t)
                 = Devuelve (None, [], []))
      by (destruct Hcases as [-> | ->]; vm_compute; reflexivity).
    rewrite E in Hmx. now injection Hmx as <- _ _. }
  rewrite Hmax. unfold decidir.
  assert (Hb : buscar_contraindicacion patrones_contraindicacion (lower t)
               = None)
    by (destruct Hcases as [-> | ->]; vm_compute; reflexivity).
  rewrite Hb. cbn [si_verdadero]. unfold sin_dosis_max.
  assert (Hc : contains (u "no se encontr") (lower t)
               || contains (u "error") (lower t)
               || negb (no_vacio (strip t)) = true)
    by (destruct Hcases as [-> | ->]; vm_compute; reflexivity).
  rewrite Hc. cbn [d_decision d_es_aij d_razon].
  repeat split; reflexivity.
Qed.

(** Without an index, "Metotrexato 30 mg semanal" for 25 kg is not
    rejected: the decision is ALERTA. *)
Lemma sin_indice_alerta :
  exists r,
    ejecutar_validacion_medica sin_indice
      (Some (u "Metotrexato 30 mg semanal")) (Some (num "25")) (u "P_001")
    = Devuelve r
    /\ campo "decision" r = Some (JStr ALERTA)
    /\ campo "estado" r = Some (JStr (u "Alerta")).
Proof.
  destruct (sin_guias_alerta sin_indice
              (Some (u "Metotrexato 30 mg semanal")) (Some (num "25"))
              (u "P_001"))
    as (r & farmaco & Hr & Hd & _).
  - simpl. lia.
  - left. reflexivity.
  - exists r. split; [exact Hr|]. split; [exact Hd|].
    vm_compute in Hr. injection Hr as <-. reflexivity.
Defined.

(* ================================================================== *)
(** * PASO 3: the frequency *)
(* ================================================================== *)

Lemma a_int_no_negativo :
  forall t z, a_int t = Devuelve z -> (0 <= z)%Z.
Proof.
  intros t z. unfold a_int. destruct t as [|c t]; [discriminate|].
  destruct (digits_value 0 (c :: t)); [|discriminate].
  destruct (int_max_str_digits <? _); [discriminate|].
  intros [= <-]. lia.
Qed.

(** The group of a match of [patron_cada] is a run of digits, which
    [int] reads when the text has at most 4300 characters. *)
Lemma patron_cada_grupo :
  forall texto i m,
    List.length texto <= 4300 ->
    match_at true patron_cada texto i = Some m ->
    exists a b h,
      m_caps m = [Some (a, b)]
      /\ digitos (substr texto a b) /\ substr texto a b <> []
      /\ a_int (substr texto a b) = Devuelve h.
Proof.
  intros texto i m Hmax E.
  pose proof (match_at_fija _ _ _ _ _ 1 E eq_refl (le_n 1) (le_n 1)) as Hs.
  apply match_at_sound in E as [_ E].
  pose proof (sem_fija _ _ _ _ _ _ _ E) as (Hlen & _ & _).
  eapply sem_caps_ok
    with (P := fun a b => digitos (substr texto a b) /\ substr texto a b <> [])
         (body := Rep 1 None (CSet false [CDigit])) in E;
    [|intros; eapply sem_digitos; eauto
     |cbn; repeat split; reflexivity
     |apply repeat_None_ok].
  change (1 - 1) with 0 in Hs. cbn in Hlen.
  destruct (m_caps m) as [|[[a b]|] [|? ?]]; try discriminate;
    cbn [nth] in Hs; [|congruence].
  apply (caps_ok_nth _ _ 0 a b) in E; [|reflexivity].
  destruct E as [Hd Hne].
  destruct (a_int_digitos _ Hd Hne) as [z Hz].
  { pose proof (substr_length_le texto a b). lia. }
  exists a, b, z. auto.
Qed.

(** The four outcomes of PASO 3. *)
Lemma extraer_frecuencia_casos :
  forall texto texto_lower,
    List.length texto <= 4300 ->
    (exists h,
        search_i patron_cada texto <> None /\ (0 <= h)%Z
        /\ extraer_frecuencia texto texto_lower
           = Devuelve (u "cada " ++ str_of_Z h ++ u " horas", Some h))
    \/ (search_i patron_cada texto = None
        /\ contains (u "semanal") texto_lower = true
        /\ extraer_frecuencia texto texto_lower
           = Devuelve (u "semanal", Some 168%Z))
    \/ (search_i patron_cada texto = None
        /\ contains (u "semanal") texto_lower = false
        /\ contains (u "diario") texto_lower
           || contains (u "diaria") texto_lower = true
        /\ extraer_frecuencia texto texto_lower
           = Devuelve (u "diario", Some 24%Z))
    \/ (search_i patron_cada texto = None
        /\ contains (u "semanal") texto_lower = false
        /\ contains (u "diario") texto_lower
           || contains (u "diaria") texto_lower = false
        /\ extraer_frecuencia texto texto_lower = Devuelve ([], None)).
Proof.
  intros texto tl Hmax. unfold extraer_frecuencia.
  destruct (search_i patron_cada texto) as [m|] eqn:E.
  - left. unfold search_i in E. apply search_from_match_at in E.
    destruct (patron_cada_grupo _ _ _ Hmax E) as (a & b & h & Hc & _ & _ & Hh).
    exists h. split; [discriminate|].
    split; [eapply a_int_no_negativo; eauto|].
    unfold grupo1, group. rewrite Hc. cbn [nth Nat.sub span_text bind].
    rewrite Hh. reflexivity.
  - right. destruct (contains (u "semanal") tl); [left; auto|].
    right. destruct (_ || _); [left|right]; auto.
Qed.

Lemma paso_8_frecuencia :
  forall L peso_paciente id_paciente,
    campo2 "analisis" "frecuencia" (paso_8 L peso_paciente id_paciente)
    = Some (JStr (l_frecuencia_texto L))
    /\ campo2 "analisis" "frecuencia_horas" (paso_8 L peso_paciente id_paciente)
       = Some (json_opt_int (l_frecuencia_horas L)).
Proof.
  intros L [w|] id; [rewrite paso_8_con_peso|split; reflexivity].
  destruct (si_verdadero (l_dosis_absoluta L)) as [a|];
    [destruct (si_verdadero (l_dosis_mg_kg L))|]; split; reflexivity.
Qed.

(** X10: the frequency of the result. The text and the hours go
    together, in one of four forms. "cada N horas" with the hours [N],
    not negative, when the text has "cada", white space, digits,
    optional white space and an "h" (in any case of letters); this form
    comes before the others. Otherwise "semanal" with 168 hours when the
    lower-cased text has "semanal"; otherwise "diario" with 24 hours
    when it has "diario" or "diaria"; otherwise the empty text with no
    hours. *)
Theorem frecuencia_del_resultado :
  forall env texto_medico peso_paciente id_paciente,
    texto_admitido texto_medico ->
    let texto := match texto_medico with Some t => t | None => [] end in
    exists r frecuencia horas,
      ejecutar_validacion_medica env texto_medico peso_paciente id_paciente
      = Devuelve r
      /\ campo2 "analisis" "frecuencia" r = Some (JStr frecuencia)
      /\ campo2 "analisis" "frecuencia_horas" r = Some horas
      /\ ((exists h,
              search_i patron_cada texto <> None /\ (0 <= h)%Z
              /\ frecuencia = u "cada " ++ str_of_Z h ++ u " horas"
              /\ horas = JInt h)
          \/ (search_i patron_cada texto = None
              /\ contains (u "semanal") (lower texto) = true
              /\ frecuencia = u "semanal" /\ horas = JInt 168)
          \/ (search_i patron_cada texto = None
              /\ contains (u "semanal") (lower texto) = false
              /\ contains (u "diario") (lower texto)
                 || contains (u "diaria") (lower texto) = true
              /\ frecuencia = u "diario" /\ horas = JInt 24)
          \/ (search_i patron_cada texto = None
              /\ contains (u "semanal") (lower texto) = false
              /\ contains (u "diario") (lower texto)
                 || contains (u "diaria") (lower texto) = false
              /\ frecuencia = [] /\ horas = JNone)).
Proof.
  intros env texto_medico peso id Hadm texto.
  destruct (pasos_1_a_7_devuelve env texto_medico peso Hadm) as (L & HL & _).
  rewrite (ejecutar_de_pasos _ _ _ id _ HL).
  destruct (paso_8_frecuencia L peso id) as [Hf Hh].
  exists (paso_8 L peso id), (l_frecuencia_texto L),
         (json_opt_int (l_frecuencia_horas L)).
  split; [reflexivity|]. split; [exact Hf|]. split; [exact Hh|].
  apply pasos_1_a_7_inv in HL.
  destruct HL as (_ & _ & _ & Hfr & _). fold texto in Hfr.
  destruct (extraer_frecuencia_casos texto (lower texto)
              (texto_admitido_largo _ Hadm))
    as [(h & Hs & H0 & E)|[(Hs & Hsem & E)|[(Hs & Hsem & Hd & E)
                                           |(Hs & Hsem & Hd & E)]]];
    rewrite E in Hfr; injection Hfr as <- <-.
  - left. exists h. auto.
  - right; left. auto.
  - right; right; left. auto.
  - right; right; right. auto.
Qed.

(** "Ibuprofeno 10 mg/kg cada 8 horas, tratamiento semanal": every 8
    hours. *)
Lemma frecuencia_cada_8_horas :
  exists r,
    ejecutar_validacion_medica (guia "Dosis bajas (menos de 25 mg/semana).")
      (Some (u "Ibuprofeno 10 mg/kg cada 8 horas, tratamiento semanal"))
      (Some (num "25")) (u "P_001")
    = Devuelve r
    /\ campo2 "analisis" "frecuencia" r = Some (JStr (u "cada 8 horas"))
    /\ campo2 "analisis" "frecuencia_horas" r = Some (JInt 8).
Proof.
  destruct (frecuencia_del_resultado
              (guia "Dosis bajas (menos de 25 mg/semana).")
              (Some (u "Ibuprofeno 10 mg/kg cada 8 horas, tratamiento semanal"))
              (Some (num "25")) (u "P_001"))
    as (r & frecuencia & horas & Hr & Hf & Hh & _).
  - simpl. lia.
  - exists r. split; [exact Hr|].
    vm_compute in Hr. injection Hr as <-. split; reflexivity.
Defined.

(** ** Texts given by their parts *)

Lemma skipn_parte :
  forall (s : pystr) p m resto,
    p <= List.length s ->
    skipn p s = m ++ resto ->
    substr s p (p + List.length m) = m
    /\ skipn (p + List.length m) s = resto
    /\ p + List.length m <= List.length s.
Proof.
  intros s p m resto Hp H. unfold substr.
  replace (p + List.length m - p) with (List.length m) by lia.
  rewrite H. split; [|split].
  - rewrite firstn_app, Nat.sub_diag, firstn_all. cbn [firstn].
    now rewrite app_nil_r.
  - rewrite Nat.add_comm, <- skipn_skipn, H.
    rewrite skipn_app, Nat.sub_diag, skipn_all. reflexivity.
  - pose proof (length_skipn p s) as L. rewrite H, length_app in L. lia.
Qed.

Lemma skipn_caracter :
  forall (s : pystr) p x resto,
    skipn p s = x :: resto ->
    nth_error s p = Some x /\ skipn (S p) s = resto /\ p < List.length s.
Proof.
  intros s p x resto H.
  assert (Hp : p < List.length s).
  { pose proof (length_skipn p s) as L. rewrite H in L. simpl in L. lia. }
  destruct (skipn_parte s p [x] resto (Nat.lt_le_incl _ _ Hp) H)
    as (H1 & H2 & H3).
  cbn [List.length] in *. rewrite Nat.add_1_r in *.
  split; [|split; assumption].
  rewrite <- (firstn_skipn p s), H.
  rewrite nth_error_app2; rewrite length_firstn; [|lia].
  replace (p - Nat.min p (List.length s)) with 0 by lia. reflexivity.
Qed.

Lemma skipn_inicio :
  forall (a b : pystr), skipn (List.length a) (a ++ b) = b.
Proof.
  intros a b. rewrite skipn_app, Nat.sub_diag, skipn_all. reflexivity.
Qed.

(** ** Characters and classes *)

Lemma digito_casos :
  forall x, is_digit x = true ->
    x = 48%N \/ x = 49%N \/ x = 50%N \/ x = 51%N \/ x = 52%N \/ x = 53%N
    \/ x = 54%N \/ x = 55%N \/ x = 56%N \/ x = 57%N.
Proof. intros x H. apply is_digit_range in H. lia. Qed.

Lemma digito_no_espacio :
  forall x, is_digit x = true -> is_space x = false.
Proof.
  intros x H. apply digito_casos in H.
  repeat (destruct H as [->|H]; [reflexivity|]). subst. reflexivity.
Qed.

Lemma set_has_letra_ic :
  forall c x, lower_cp x = c -> set_has true false [CChar c] x = true.
Proof.
  intros c x H. unfold set_has, existsb, item_has. rewrite H, N.eqb_refl.
  cbn. now rewrite orb_true_r.
Qed.

Lemma set_has_letra :
  forall ic c, set_has ic false [CChar c] c = true.
Proof.
  intros ic c. unfold set_has, existsb, item_has. now rewrite N.eqb_refl.
Qed.

Lemma set_has_espacio :
  forall ic x, is_space x = true -> set_has ic false [CSpace] x = true.
Proof.
  intros ic x H. unfold set_has, existsb, item_has. now rewrite H.
Qed.

Lemma set_has_digito :
  forall ic x, is_digit x = true -> set_has ic false [CDigit] x = true.
Proof.
  intros ic x H. unfold set_has, existsb, item_has. now rewrite H.
Qed.

(** A class that holds no digit, in either case of letters, matches no
    digit. *)
Lemma clase_sin_digitos :
  forall ic items x,
    forallb (fun d => negb (set_has ic false items d))
      [48; 49; 50; 51; 52; 53; 54; 55; 56; 57]%N = true ->
    set_has ic false items x = true -> is_digit x = false.
Proof.
  intros ic items x Hall Hx.
  destruct (is_digit x) eqn:E; [|reflexivity].
  rewrite forallb_forall in Hall.
  assert (Hin : In x [48; 49; 50; 51; 52; 53; 54; 55; 56; 57]%N).
  { apply digito_casos in E. simpl. intuition. }
  apply Hall in Hin. rewrite Hx in Hin. discriminate.
Qed.

(* ================================================================== *)
(** * PASO 2: the absolute dose is not a dose per kg *)
(* ================================================================== *)

(** Where [patron_mg_abs] matches, ["\s*/\s*kg"] does not match what
    follows. *)
Lemma patron_mg_abs_no_seguido :
  forall texto i m,
    match_at true patron_mg_abs texto i = Some m ->
    m_end m <= List.length texto
    /\ exists c,
         run true texto
           (Seq (Rep 0 None (CSet false [CSpace]))
              (Seq (CSet false [CChar 47])
                 (Seq (Rep 0 None (CSet false [CSpace]))
                    (Seq (CSet false [CChar 107]) (CSet false [CChar 103])))))
           (m_end m) c (fun j c' => Some (j, c')) = None.
Proof.
  intros texto i m H. apply match_at_sound in H as [_ H].
  unfold patron_mg_abs in H. cbn [ngroups Nat.max repeat] in H.
  apply sem_seq in H as (a & c1 & Hg & H).
  apply sem_seq in H as (b & c2 & Hs & H).
  apply sem_seq in H as (b1 & c3 & Hm & H).
  apply sem_seq in H as (b2 & c4 & Hgg & H).
  cbn [sem] in H. destruct H as (He & Hc & Hn).
  destruct Hgg as (x & Hx & _ & -> & _).
  assert (b1 < List.length texto) by (apply nth_error_Some; congruence).
  split; [lia|]. exists c4. rewrite He. exact Hn.
Qed.

(** X11: a dose per kg is not read as an absolute dose. When PASO 2 reads
    an absolute dose, it is the number of the first place of the text
    where a numeral, optional white space and "mg" (in any case of
    letters) are not followed by optional white space, "/", optional
    white space and "kg": what follows the "mg" of that match never
    begins that way. *)
Theorem dosis_absoluta_no_es_por_kg :
  forall texto x,
    extraer_dosis patron_mg_abs texto = Devuelve (Some x) ->
    exists m N,
      search_i patron_mg_abs texto = Some m
      /\ group texto m 1 = Some N
      /\ a_float N = Devuelve x
      /\ forall esp1 esp2 k g resto,
           espacios esp1 -> espacios esp2 ->
           lower_cp k = 107%N -> lower_cp g = 103%N ->
           skipn (m_end m) texto <> esp1 ++ 47%N :: esp2 ++ k :: g :: resto.
Proof.
  intros texto x H. unfold extraer_dosis in H.
  destruct (search_i patron_mg_abs texto) as [m|] eqn:E; [|discriminate].
  unfold grupo1 in H.
  destruct (group texto m 1) as [N|] eqn:G; [|discriminate].
  cbn [bind] in H.
  destruct (a_float N) as [y|] eqn:F; [|discriminate].
  cbn [bind] in H. injection H as ->.
  exists m, N. repeat split; try reflexivity; try assumption.
  intros esp1 esp2 k g resto S1 S2 Hk Hg Hsk.
  unfold search_i in E. apply search_from_match_at in E.
  destruct (patron_mg_abs_no_seguido _ _ _ E) as [Hle [c Hn]].
  revert Hn.
  destruct (skipn_parte _ _ _ _ Hle Hsk) as (P1 & Q1 & B1).
  destruct (skipn_caracter _ _ _ _ Q1) as (P2 & Q2 & B2).
  assert (B2' : S (m_end m + List.length esp1) <= List.length texto) by lia.
  destruct (skipn_parte _ _ _ _ B2' Q2) as (P3 & Q3 & B3).
  destruct (skipn_caracter _ _ _ _ Q3) as (P4 & Q4 & B4).
  destruct (skipn_caracter _ _ _ _ Q4) as (P5 & Q5 & B5).
  apply (run_complete true texto)
    with (j := S (S (S (m_end m + List.length esp1) + List.length esp2)))
         (c' := c); [|discriminate].
  cbn [sem].
  exists (m_end m + List.length esp1), c. split.
  { apply iter_cset_todo with (k := List.length esp1); auto; [|lia].
    rewrite P1. eapply Forall_impl; [|exact S1].
    intros; now apply set_has_espacio. }
  exists (S (m_end m + List.length esp1)), c. split.
  { exists 47%N. repeat split; auto using set_has_letra. }
  exists (S (m_end m + List.length esp1) + List.length esp2), c. split.
  { apply iter_cset_todo with (k := List.length esp2); auto; [|lia].
    rewrite P3. eapply Forall_impl; [|exact S2].
    intros; now apply set_has_espacio. }
  exists (S (S (m_end m + List.length esp1) + List.length esp2)), c. split.
  - exists k. repeat split; auto using set_has_letra_ic.
  - exists g. repeat split; auto using set_has_letra_ic.
Qed.

(** "0.5 mg/kg, total 12 mg": the absolute dose is read from "12 mg",
    and the numeral of the dose per kg is passed over. *)
Lemma dosis_absoluta_tras_la_por_kg :
  exists m,
    search_i patron_mg_abs (u "Metotrexato 0.5 mg/kg, total 12 mg") = Some m
    /\ group (u "Metotrexato 0.5 mg/kg, total 12 mg") m 1 = Some (u "12")
    /\ skipn (m_end m) (u "Metotrexato 0.5 mg/kg, total 12 mg") <> u "/kg".
Proof.
  destruct (dosis_absoluta_no_es_por_kg
              (u "Metotrexato 0.5 mg/kg, total 12 mg") (num "12"))
    as (m & N & Hm & HN & Hx & Hno).
  - vm_compute. reflexivity.
  - exists m. split; [exact Hm|]. split.
    + vm_compute in Hm. injection Hm as <-. vm_compute. reflexivity.
    + apply (Hno [] [] 107%N 103%N []); try constructor; reflexivity.
Defined.

(** ** "cada N h" comes first *)

Lemma search_from_encuentra :
  forall ic r s fuel i q,
    i <= q <= i + fuel -> match_at ic r s q <> None ->
    search_from ic r s fuel i <> None.
Proof.
  intros ic r s fuel i q Hq Hm Hn.
  apply Hm. eapply search_from_none; eauto.
Qed.

Lemma search_from_inmediato :
  forall ic r s fuel i m,
    match_at ic r s i = Some m -> search_from ic r s fuel i = Some m.
Proof.
  intros ic r s fuel i m H. destruct fuel; cbn [search_from]; now rewrite H.
Qed.

(** What a match of [patron_cada] looks like: four letters, white
    space, the digits of the group, white space and a letter. *)
Lemma patron_cada_forma :
  forall texto i m, match_at true patron_cada texto i = Some m ->
    exists a b c x,
      m_caps m = [Some (a, b)]
      /\ i + 4 < a /\ a < b /\ b <= c
      /\ Forall (fun y => set_has true false [CSpace] y = true)
                (substr texto (i + 4) a)
      /\ digitos (substr texto a b)
      /\ Forall (fun y => set_has true false [CSpace] y = true)
                (substr texto b c)
      /\ nth_error texto c = Some x
      /\ set_has true false [CChar 104] x = true.
Proof.
  intros texto i m H. apply match_at_sound in H as [_ H].
  unfold patron_cada in H. cbn [ngroups Nat.max repeat] in H.
  apply sem_seq in H as (i1 & c1 & (x1 & _ & _ & -> & ->) & H).
  apply sem_seq in H as (i2 & c2 & (x2 & _ & _ & -> & ->) & H).
  apply sem_seq in H as (i3 & c3 & (x3 & _ & _ & -> & ->) & H).
  apply sem_seq in H as (i4 & c4 & (x4 & _ & _ & -> & ->) & H).
  apply sem_seq in H as (a & c5 & Hs1 & H).
  cbn [sem] in Hs1. apply iter_cset in Hs1 as (-> & B1 & N1 & S1).
  apply sem_seq in H as (b & c6 & (c7 & Hd & ->) & H).
  cbn [sem] in Hd. apply iter_digitos in Hd as (-> & B2 & N2 & D).
  apply sem_seq in H as (c & c8 & Hs2 & (x & Hx & Sx & _ & ->)).
  cbn [sem] in Hs2. apply iter_cset in Hs2 as (-> & B3 & _ & S2).
  exists a, b, c, x.
  replace (i + 4) with (S (S (S (S i)))) by lia.
  repeat split; try assumption; try lia. 
Qed.

(** A text whose lower case has no combining dot is lower-cased
    character by character. *)
Lemma lower_sin_punto_combinado :
  forall s t, lower s = t -> ~ In 775%N t -> map lower_cp s = t.
Proof.
  induction s as [|c s IH]; intros t E H; [exact E|].
  cbn [lower flat_map] in E. unfold lower_full in E.
  destruct (N.eqb_spec c 304) as [->|_].
  - exfalso. apply H. rewrite <- E. right. now left.
  - cbn [app] in E. destruct t as [|x t]; [discriminate|].
    injection E as <- E. cbn [map]. f_equal.
    apply IH; [exact E|]. intros Hin. apply H. now right.
Qed.

(** Where the parts stand, the pattern matches; and a match at the
    beginning of the text has the digits as its group. *)
Lemma patron_cada_en :
  forall antes cada esp1 ds esp2 h despues,
    map lower_cp cada = u "cada" ->
    esp1 <> [] -> espacios esp1 ->
    ds <> [] -> digitos ds ->
    espacios esp2 ->
    lower_cp h = 104%N ->
    let texto := antes ++ cada ++ esp1 ++ ds ++ esp2 ++ h :: despues in
    match_at true patron_cada texto (List.length antes) <> None
    /\ (antes = [] ->
        forall m, match_at true patron_cada texto 0 = Some m ->
                  grupo1 texto m = Devuelve ds).
Proof.
  intros antes cada esp1 ds esp2 h despues Hcada Hne1 He1 Hned Hd He2 Hh texto.
  destruct cada as [|k1 [|k2 [|k3 [|k4 [|? ?]]]]]; try discriminate.
  injection Hcada as L1 L2 L3 L4.
  set (p0 := List.length antes).
  assert (Q0 : skipn p0 texto
               = k1 :: k2 :: k3 :: k4 :: esp1 ++ ds ++ esp2 ++ h :: despues)
    by (unfold texto, p0; apply skipn_inicio).
  destruct (skipn_caracter _ _ _ _ Q0) as (P1 & Q1 & _).
  destruct (skipn_caracter _ _ _ _ Q1) as (P2 & Q2 & _).
  destruct (skipn_caracter _ _ _ _ Q2) as (P3 & Q3 & _).
  destruct (skipn_caracter _ _ _ _ Q3) as (P4 & Q4 & B4).
  destruct (skipn_parte _ _ _ _ B4 Q4) as (P5 & Q5 & B5).
  destruct (skipn_parte _ _ _ _ B5 Q5) as (P6 & Q6 & B6).
  destruct (skipn_parte _ _ _ _ B6 Q6) as (P7 & Q7 & B7).
  destruct (skipn_caracter _ _ _ _ Q7) as (P8 & Q8 & B8).
  set (p1 := S (S (S (S p0)))) in *.
  set (p2 := p1 + List.length esp1) in *.
  set (p3 := p2 + List.length ds) in *.
  set (p4 := p3 + List.length esp2) in *.
  assert (L1' : 0 < List.length esp1) by (destruct esp1; [congruence|simpl; lia]).
  assert (Ld' : 0 < List.length ds) by (destruct ds; [congruence|simpl; lia]).
  (* the pattern matches at [p0] *)
  assert (M : match_at true patron_cada texto p0 <> None).
  { apply match_at_complete with (j := S p4) (c' := [Some (p2, p3)]).
    unfold patron_cada. cbn [ngroups Nat.max repeat sem].
    exists (S p0), [None]. split; [exists k1; auto using set_has_letra_ic|].
    exists (S (S p0)), [None]. split; [exists k2; auto using set_has_letra_ic|].
    exists (S (S (S p0))), [None].
    split; [exists k3; auto using set_has_letra_ic|].
    exists p1, [None]. split; [exists k4; auto using set_has_letra_ic|].
    exists p2, [None]. split.
    { apply iter_cset_todo with (k := List.length esp1);
        [reflexivity|exact B5| |lia].
      rewrite P5. eapply Forall_impl; [|exact He1].
      intros; now apply set_has_espacio. }
    exists p3, [Some (p2, p3)]. split.
    { exists [None]. split; [|reflexivity].
      apply iter_cset_todo with (k := List.length ds);
        [reflexivity|exact B6| |lia].
      rewrite P6. eapply Forall_impl; [|exact Hd].
      intros; now apply set_has_digito. }
    exists p4, [Some (p2, p3)]. split.
    { apply iter_cset_todo with (k := List.length esp2);
        [reflexivity|exact B7| |lia].
      rewrite P7. eapply Forall_impl; [|exact He2].
      intros; now apply set_has_espacio. }
    exists h. auto using set_has_letra_ic. }
  split; [exact M|]. clear M.
  intros -> m Em'. cbn [List.length] in *. subst p0.
  destruct (patron_cada_forma _ _ _ Em')
    as (a & b & c & x & Hc & Ba & Bb & Bc & Sa & Da & Sb & Hx & Sx).
  cbn [Nat.add] in Ba, Sa.
  assert (NS : forall y, set_has true false [CSpace] y = true ->
                         is_digit y = false)
    by (intros y; apply clase_sin_digitos; reflexivity).
  assert (NH : forall y, set_has true false [CChar 104] y = true ->
                         is_digit y = false)
    by (intros y; apply clase_sin_digitos; reflexivity).
  assert (Hlen : c < List.length texto)
    by (apply nth_error_Some; congruence).
  (* the group begins where the digits begin *)
  assert (Ea : a = p2).
  { destruct (Nat.lt_trichotomy a p2) as [Hlt|[Heq|Hgt]]; [|exact Heq|];
      exfalso.
    - destruct (substr_nth _ texto a b a Da) as (y & Hy & Dy); [lia|lia|].
      assert (In1 : Forall (fun z => is_space z = true) (substr texto p1 p2))
        by (rewrite P5; exact He1).
      destruct (substr_nth _ texto p1 p2 a In1) as (y' & Hy' & Sy');
        [unfold p1; lia|lia|].
      rewrite Hy in Hy'. injection Hy' as <-.
      rewrite (digito_no_espacio _ Dy) in Sy'. discriminate.
    - destruct (substr_nth _ texto 4 a p2 Sa) as (y & Hy & Sy);
        [unfold p2, p1; lia|lia|].
      assert (In2 : Forall (fun z => is_digit z = true) (substr texto p2 p3))
        by (rewrite P6; exact Hd).
      destruct (substr_nth _ texto p2 p3 p2 In2) as (y' & Hy' & Dy');
        [unfold p3; lia|lia|].
      rewrite Hy in Hy'. injection Hy' as <-.
      rewrite (NS _ Sy) in Dy'. discriminate. }
  subst a.
  (* and ends where they end *)
  assert (Eb : b = p3).
  { assert (In2 : Forall (fun z => is_digit z = true) (substr texto p2 p3))
      by (rewrite P6; exact Hd).
    destruct (Nat.lt_trichotomy b p3) as [Hlt|[Heq|Hgt]]; [|exact Heq|];
      exfalso.
    - destruct (substr_nth _ texto p2 p3 b In2) as (y & Hy & Dy); [lia|lia|].
      destruct (Nat.eq_dec b c) as [->|Hbc].
      + rewrite Hx in Hy. injection Hy as <-.
        rewrite (NH _ Sx) in Dy. discriminate.
      + destruct (substr_nth _ texto b c b Sb) as (y' & Hy' & Sy');
          [lia|lia|].
        rewrite Hy in Hy'. injection Hy' as <-.
        rewrite (NS _ Sy') in Dy. discriminate.
    - destruct (substr_nth _ texto p2 b p3 Da) as (y & Hy & Dy); [lia|lia|].
      destruct esp2 as [|e esp2'].
      + cbn [List.length] in *. unfold p4 in P8.
        rewrite Nat.add_0_r in P8. rewrite P8 in Hy. injection Hy as <-.
        assert (Hd104 : is_digit h = false)
          by (apply NH; now apply set_has_letra_ic).
        congruence.
      + assert (In3 : Forall (fun z => is_space z = true)
                             (substr texto p3 p4))
          by (rewrite P7; exact He2).
        destruct (substr_nth _ texto p3 p4 p3 In3) as (y' & Hy' & Sy');
          [unfold p4; simpl; lia|lia|].
        rewrite Hy in Hy'. injection Hy' as <-.
        rewrite (digito_no_espacio _ Dy) in Sy'. discriminate. }
  subst b.
  unfold grupo1, group. rewrite Hc.
  cbn [nth Nat.sub span_text]. now rewrite P6.
Qed.

(** The same for a text that begins with the parts: the search finds
    the match at the beginning. *)
Lemma patron_cada_al_inicio :
  forall cada esp1 ds esp2 h despues,
    lower cada = u "cada" ->
    esp1 <> [] -> espacios esp1 ->
    ds <> [] -> digitos ds ->
    espacios esp2 ->
    lower_cp h = 104%N ->
    let texto := cada ++ esp1 ++ ds ++ esp2 ++ h :: despues in
    exists m,
      search_i patron_cada texto = Some m
      /\ grupo1 texto m = Devuelve ds.
Proof.
  intros cada esp1 ds esp2 h despues Hcada Hne1 He1 Hned Hd He2 Hh texto.
  apply lower_sin_punto_combinado in Hcada;
    [|vm_compute; intuition discriminate].
  destruct (patron_cada_en [] cada esp1 ds esp2 h despues
              Hcada Hne1 He1 Hned Hd He2 Hh) as [M G].
  cbn [app List.length] in M, G. fold texto in M, G.
  destruct (match_at true patron_cada texto 0) as [m|] eqn:Em; [|congruence].
  exists m. split; [|exact (G eq_refl m eq_refl)].
  unfold search_i. now apply search_from_inmediato.
Qed.

(** X12: a text of at most 4300 characters that has "cada", white
    space, digits, optional white space and "h" (in any case of letters)
    gets an hourly frequency, "cada N horas", whatever else it says:
    "semanal" or "diario" in the same text is not looked at. When the
    text begins with these parts, [N] is the number the digits write. *)
Theorem frecuencia_por_horas :
  forall antes cada esp1 ds esp2 h despues,
    lower cada = u "cada" ->
    esp1 <> [] -> espacios esp1 ->
    ds <> [] -> digitos ds ->
    espacios esp2 ->
    lower_cp h = 104%N ->
    List.length (antes ++ cada ++ esp1 ++ ds ++ esp2 ++ h :: despues)
    <= 4300 ->
    let texto := antes ++ cada ++ esp1 ++ ds ++ esp2 ++ h :: despues in
    exists n,
      (0 <= n)%Z
      /\ extraer_frecuencia texto (lower texto)
         = Devuelve (u "cada " ++ str_of_Z n ++ u " horas", Some n)
      /\ (antes = [] -> a_int ds = Devuelve n).
Proof.
  intros antes cada esp1 ds esp2 h despues Hcada Hne1 He1 Hned Hd He2 Hh
         Hmax texto.
  assert (S0 : search_i patron_cada texto <> None).
  { apply lower_sin_punto_combinado in Hcada;
      [|vm_compute; intuition discriminate].
    destruct (patron_cada_en antes cada esp1 ds esp2 h despues
                Hcada Hne1 He1 Hned Hd He2 Hh) as [M _].
    unfold search_i.
    apply search_from_encuentra with (q := List.length antes); [|exact M].
    unfold texto. rewrite length_app. lia. }
  destruct (extraer_frecuencia_casos texto (lower texto) Hmax)
    as [(n & _ & H0 & E)|[(Hs & _)|[(Hs & _)|(Hs & _)]]]; try congruence.
  exists n. split; [exact H0|]. split; [exact E|].
  intros ->.
  destruct (patron_cada_al_inicio cada esp1 ds esp2 h despues
              Hcada Hne1 He1 Hned Hd He2 Hh) as (m & Hs & Hg).
  unfold extraer_frecuencia in E. cbn [app] in texto. fold texto in Hs, Hg.
  rewrite Hs, Hg in E. cbn [bind] in E.
  destruct (a_int ds) as [z|]; cbn [bind] in E; [|discriminate].
  now injection E as _ ->.
Qed.

(** "cada 8 horas" at the beginning of a text that also says
    "semanal": 8 hours. *)
Lemma frecuencia_de_cada_8_horas :
  extraer_frecuencia (u "Cada 8 horas, control semanal")
    (lower (u "Cada 8 horas, control semanal"))
  = Devuelve (u "cada 8 horas", Some 8%Z).
Proof.
  destruct (frecuencia_por_horas [] (u "Cada") (u " ") (u "8") (u " ")
              104%N (u "oras, control semanal"))
    as (n & _ & E & Hn).
  - reflexivity.
  - discriminate.
  - repeat constructor.
  - discriminate.
  - repeat constructor.
  - repeat constructor.
  - reflexivity.
  - apply Nat.leb_le. vm_compute. reflexivity.
  - specialize (Hn eq_refl). vm_compute in Hn. injection Hn as <-.
    exact E.
Defined.

(** ** A numeral [int] refuses *)

(** X29: a frequency of more than 4300 digits ends the validation. When
    the text begins with "cada" (in any case of letters), white space,
    a run of more than 4300 digits, optional white space and "h", the
    function raises the [ValueError] of [int], which PASO 3 calls
    outside any [try]: no result is returned, whatever the guides and
    the weight. *)
Theorem cifras_de_mas_lanzan :
  forall env cada esp1 ds esp2 h despues peso_paciente id_paciente,
    lower cada = u "cada" ->
    esp1 <> [] -> espacios esp1 ->
    digitos ds -> 4300 < List.length ds ->
    espacios esp2 ->
    lower_cp h = 104%N ->
    ejecutar_validacion_medica env
      (Some (cada ++ esp1 ++ ds ++ esp2 ++ h :: despues))
      peso_paciente id_paciente
    = Lanza (limite_de_cifras (List.length ds)).
Proof.
  intros env cada esp1 ds esp2 h despues peso id Hcada Hne1 He1 Hd Hlen He2 Hh.
  assert (Hned : ds <> []) by (intros ->; cbn [List.length] in Hlen; lia).
  destruct (patron_cada_al_inicio cada esp1 ds esp2 h despues
              Hcada Hne1 He1 Hned Hd He2 Hh) as (m & Hs & Hg).
  cbv zeta in Hs, Hg.
  set (texto := cada ++ esp1 ++ ds ++ esp2 ++ h :: despues) in *.
  unfold ejecutar_validacion_medica, pasos_1_a_7.
  destruct (extraer_farmaco_devuelve texto (lower texto)) as [f ->].
  cbn [bind].
  destruct patron_mg_kg_numeral as (G1 & F1 & N1).
  destruct (extraer_dosis_devuelve _ texto G1 F1 N1) as (k & -> & _).
  cbn [bind].
  destruct patron_mg_abs_numeral as (G2 & F2 & N2).
  destruct (extraer_dosis_devuelve _ texto G2 F2 N2) as (a & -> & _).
  cbn [bind].
  unfold extraer_frecuencia. rewrite Hs, Hg. cbn [bind].
  rewrite (a_int_largo ds Hd Hlen). reflexivity.
Qed.

(** "cada", a blank, 4301 times the digit 1, a blank and "h". *)
Lemma cifras_de_mas_4301 :
  ejecutar_validacion_medica sin_indice
    (Some (u "cada " ++ repeat 49%N 4301 ++ u " h")) (Some (num "20"))
    (u "P_001")
  = Lanza (limite_de_cifras 4301).
Proof.
  rewrite <- (repeat_length 49%N 4301) at 2.
  apply (cifras_de_mas_lanzan sin_indice (u "cada") (u " ")
           (repeat 49%N 4301) (u " ") 104%N [] (Some (num "20")) (u "P_001")).
  - reflexivity.
  - discriminate.
  - repeat constructor.
  - apply Forall_forall. intros x Hx. apply repeat_spec in Hx. now subst.
  - rewrite repeat_length. apply Nat.ltb_lt. vm_compute. reflexivity.
  - repeat constructor.
  - reflexivity.
Defined.

(** ** A maximum dose of zero *)

(** X13: a maximum dose of zero read from the evidence is taken as no
    maximum at all. Without a contraindication the decision is then
    ALERTA, whatever the prescribed dose: nothing is rejected against a
    limit of 0 mg. *)
Theorem maximo_cero_no_rechaza :
  forall env texto_medico peso_paciente id_paciente L z,
    pasos_1_a_7 env texto_medico peso_paciente = Devuelve L ->
    buscar_contraindicacion patrones_contraindicacion
      (lower (l_evidencia_texto L)) = None ->
    l_dosis_max_guia L = Some z -> truthy z = false ->
    exists r,
      ejecutar_validacion_medica env texto_medico peso_paciente id_paciente
      = Devuelve r
      /\ campo "decision" r = Some (JStr ALERTA)
      /\ campo2 "auditoria" "razon" r
         = Some (JStr (d_razon (sin_dosis_max (l_farmaco L)
                                  (l_evidencia_texto L)))).
Proof.
  intros env texto peso id L z HL Hb Hz Tz.
  rewrite (ejecutar_de_pasos _ _ _ id _ HL).
  eexists. split; [reflexivity|].
  rewrite paso_8_decision, paso_8_razon.
  apply pasos_1_a_7_inv in HL.
  destruct HL as (_ & _ & _ & _ & _ & _ & _ & Hd & Hr & _).
  rewrite Hd, Hr. unfold decidir. rewrite Hb, Hz.
  cbn [si_verdadero]. rewrite Tz.
  split; [now rewrite sin_dosis_max_alerta|reflexivity].
Qed.

(** "Dosis máxima de 0 mg": 500 mg a week are not rejected. *)
Lemma maximo_cero_500_mg :
  exists r,
    ejecutar_validacion_medica
      (guia "Metotrexato: la dosis máxima de 0 mg.")
      (Some (u "Metotrexato 500 mg semanal")) (Some (num "25")) (u "P_001")
    = Devuelve r
    /\ campo "decision" r = Some (JStr ALERTA).
Proof.
  edestruct (maximo_cero_no_rechaza
               (guia "Metotrexato: la dosis máxima de 0 mg.")
               (Some (u "Metotrexato 500 mg semanal")) (Some (num "25"))
               (u "P_001"))
    as (r & Hr & Hd & _).
  - vm_compute. reflexivity.
  - vm_compute. reflexivity.
  - vm_compute. reflexivity.
  - reflexivity.
  - exists r. split; [exact Hr|exact Hd].
Defined.

(* ================================================================== *)
(** * [AgenteAuditor.validar_pauta]: before the [try] block *)
(* ================================================================== *)

Lemma nombres_de_sin_nombre :
  forall l, Exists sin_nombre l -> exists e, nombres_de l = Lanza e.
Proof.
  intros l H. induction H as [m l Hm|m l _ IH]; cbn [nombres_de].
  - unfold item. destruct m as [| | | | | |d]; cbn [bind]; eauto.
    cbn [sin_nombre] in Hm. rewrite Hm. cbn [bind]. eauto.
  - destruct (item m (u "nombre")) as [v|e]; cbn [bind]; [|eauto].
    destruct IH as [e ->]. cbn [bind]. eauto.
Qed.

(** X14: a medicine without "nombre" makes the validation itself fail.
    When "lista_medicamentos" is a list and one of its items is not a
    dictionary with the key "nombre", [validar_pauta] raises: the names
    are read before the [try] block, so the error is not turned into
    the rejection with "Error técnico". *)
Theorem validar_pauta_sin_nombre :
  forall (json_dumps : json -> pystr) (json_loads : pystr -> resultado json)
         (self : AgenteAuditor) (pauta_json : dict) (l : list json),
    dict_get (u "lista_medicamentos") pauta_json = Some (JList l) ->
    Exists sin_nombre l ->
    exists e, validar_pauta json_dumps json_loads self pauta_json = Lanza e.
Proof.
  intros dumps loads self pauta l Hl Hex.
  unfold validar_pauta, preparar_prompt. rewrite Hl. cbn [iterar bind].
  destruct (nombres_de_sin_nombre l Hex) as [e ->]. cbn [bind]. eauto.
Qed.

(** A medicine that only has a dose. *)
Lemma validar_pauta_solo_dosis :
  exists e,
    validar_pauta (fun _ => []) json_loads_ejemplo (auditor_ejemplo "{}")
      [(u "lista_medicamentos",
        JList [JDict [(u "dosis", JStr (u "400mg"))]])]
    = Lanza e.
Proof.
  apply (validar_pauta_sin_nombre (fun _ => []) json_loads_ejemplo
           (auditor_ejemplo "{}") _
           [JDict [(u "dosis", JStr (u "400mg"))]]).
  - reflexivity.
  - constructor. reflexivity.
Defined.

Lemma nombres_de_con_nombre :
  forall l nombres, Forall2 tiene_nombre l nombres ->
    nombres_de l = Devuelve (map JStr nombres)
    /\ textos_de (map JStr nombres) = Devuelve nombres.
Proof.
  intros l nombres H.
  induction H as [|m n l ns (d & -> & Hn) _ [IH1 IH2]];
    cbn [nombres_de textos_de map]; [split; reflexivity|].
  unfold item. rewrite Hn. cbn [bind]. rewrite IH1, IH2. cbn [bind].
  split; reflexivity.
Qed.

Lemma validar_pauta_de_nombres :
  forall (json_dumps : json -> pystr) (json_loads : pystr -> resultado json)
         (self : AgenteAuditor) (pauta_json : dict)
         (l : list json) (nombres : list pystr),
    lista_medicamentos pauta_json = JList l ->
    Forall2 tiene_nombre l nombres ->
    validar_pauta json_dumps json_loads self pauta_json
    = match similarity_search (db self) (consulta_auditor nombres) 5 None with
      | Devuelve docs_relacionados =>
        Devuelve
          (invocar_y_parsear json_loads self
             (construir_prompt (join (u ", ") nombres)
                (join (nl ++ nl) (map page_content docs_relacionados))
                (json_dumps (JDict pauta_json))))
      | Lanza e => Lanza e
      end.
Proof.
  intros dumps loads self pauta l nombres Hl Hn.
  unfold validar_pauta, preparar_prompt.
  fold (lista_medicamentos pauta). rewrite Hl. cbn [iterar bind].
  destruct (nombres_de_con_nombre l nombres Hn) as [E1 E2].
  rewrite E1. cbn [bind]. rewrite E2. cbn [bind].
  unfold consulta_auditor.
  destruct (similarity_search (db self) _ 5 None); reflexivity.
Qed.

(** X15: what [validar_pauta] does with well formed medicines (a list of
    dictionaries, each with a text under "nombre"; a prescription
    without the key "lista_medicamentos" has none). The store is
    searched once, for five fragments and without a filter, with the
    names joined by ", " after a fixed heading. If the search raises,
    so does [validar_pauta]; otherwise the completion service gets the
    prompt built from the names, the fragments joined by a blank line
    and the prescription as JSON text, and its answer is read as in the
    [try] block. *)
Theorem validar_pauta_con_nombres :
  forall (json_dumps : json -> pystr) (json_loads : pystr -> resultado json)
         (self : AgenteAuditor) (pauta_json : dict)
         (l : list json) (nombres : list pystr),
    lista_medicamentos pauta_json = JList l ->
    Forall2 tiene_nombre l nombres ->
    validar_pauta json_dumps json_loads self pauta_json
    = match similarity_search (db self) (consulta_auditor nombres) 5 None with
      | Devuelve docs_relacionados =>
        Devuelve
          (invocar_y_parsear json_loads self
             (construir_prompt (join (u ", ") nombres)
                (join (nl ++ nl) (map page_content docs_relacionados))
                (json_dumps (JDict pauta_json))))
      | Lanza e => Lanza e
      end.
Proof. exact validar_pauta_de_nombres. Qed.

(** One medicine, "Ibuprofeno", an empty store and a completion service
    that answers "{}": the validation returns what [json.loads] reads. *)
Lemma validar_pauta_ibuprofeno :
  validar_pauta (fun _ => []) json_loads_ejemplo (auditor_ejemplo "{}")
    [(u "lista_medicamentos",
      JList [JDict [(u "nombre", JStr (u "Ibuprofeno"))]])]
  = Devuelve (JDict []).
Proof.
  rewrite (validar_pauta_con_nombres (fun _ => []) json_loads_ejemplo
             (auditor_ejemplo "{}") _
             [JDict [(u "nombre", JStr (u "Ibuprofeno"))]]
             [u "Ibuprofeno"]).
  - vm_compute. reflexivity.
  - reflexivity.
  - constructor; [|constructor]. eexists. split; reflexivity.
Defined.

(* ================================================================== *)
(** * [AgenteMatematico.calcular_dosis_exactas] *)
(* ================================================================== *)

(** ** Dictionaries: what is read after an assignment *)

Lemma dict_get_set_igual :
  forall k v d, dict_get k (dict_set k v d) = Some v.
Proof.
  intros k v d. induction d as [|[k' v'] d IH]; cbn [dict_set dict_get].
  - now rewrite str_eqb_refl.
  - destruct (str_eqb k k') eqn:E; cbn [dict_get].
    + now rewrite str_eqb_refl.
    + now rewrite E.
Qed.

Lemma dict_get_set_otra :
  forall k k' v d, k' <> k -> dict_get k' (dict_set k v d) = dict_get k' d.
Proof.
  intros k k' v d Hk. induction d as [|[k0 v0] d IH]; cbn [dict_set dict_get].
  - destruct (str_eqb k' k) eqn:E; [|reflexivity].
    apply str_eqb_eq in E. congruence.
  - destruct (str_eqb k k0) eqn:E; cbn [dict_get].
    + apply str_eqb_eq in E. subst k0.
      destruct (str_eqb k' k) eqn:E'; [|reflexivity].
      apply str_eqb_eq in E'. congruence.
    + now rewrite IH.
Qed.

(** ** The numeral of the dose pattern *)

(** The first group of [patron_mg_por_kg] begins where the match
    begins and holds a numeral. *)
Lemma patron_mg_por_kg_grupo :
  forall texto i m, match_at false patron_mg_por_kg texto i = Some m ->
    exists a,
      nth 0 (m_caps m) None = Some (i, a)
      /\ es_numeral (substr texto i a)
      /\ i < a /\ a + 2 <= m_end m.
Proof.
  intros texto i m H. apply match_at_sound in H as [_ H].
  unfold patron_mg_por_kg in H. cbn [ngroups Nat.max repeat] in H.
  apply sem_seq in H as (a & c1 & (c0 & Hb & ->) & H).
  apply sem_bounds in H as HB.
  assert (Hmg : a + 2 <= m_end m).
  { apply sem_seq in H as (b & c2 & Hs & H).
    apply sem_bounds in Hs as [? _].
    apply sem_seq in H as (b1 & c3 & (? & _ & _ & -> & _) & H).
    apply sem_seq in H as (b2 & c4 & (? & _ & _ & -> & _) & H).
    apply sem_bounds in H as [? _]. lia. }
  apply sem_sin_grupos in H; [|reflexivity].
  apply sem_fija in Hb as Hf. destruct Hf as (Hlen & _ & _).
  exists a. rewrite H.
  assert (N : es_numeral (substr texto i a) /\ i < a).
  { clear - Hb. cbn [sem] in Hb.
    destruct Hb as (m & c1 & H1 & H2).
    apply iter_digitos in H1 as H1'. destruct H1' as (-> & Him & Hn1 & Hd1).
    assert (Hne1 : substr texto i m <> []).
    { inversion H1 as [|? ? ? ? ? ? ? _ (x & Hx & _) ? _]; subst; [lia|].
      rewrite (substr_cons _ _ _ _ Hx) by lia. discriminate. }
    inversion H2 as [|? ? ? i1 c2 ? ? _ Hr Hlt Hit]; subst.
    - split; [now apply es_numeral_entero|lia].
    - destruct Hr as (c3 & (m2 & c4 & (x & Hx & Hs & -> & ->) & H3) & ->).
      apply iter_digitos in H3 as H3'.
      destruct H3' as (-> & Hle3 & Hn3 & Hd3).
      inversion Hit as [|? ? ? ? ? ? ? U]; subst; [|discriminate].
      split; [|lia].
      rewrite (substr_app texto i m a) by lia.
      rewrite (substr_cons _ _ _ _ Hx) by lia.
      apply es_numeral_decimal; auto.
      + eapply set_has_sep; eauto.
      + inversion H3 as [|? ? ? ? ? ? ? _ (y & Hy & _) ? _]; subst; [lia|].
        rewrite (substr_cons _ _ _ _ Hy) by lia. discriminate. }
  destruct N as [N Hlt].
  repeat split; try assumption.
  cbn [List.length repeat] in Hlen.
  destruct c0 as [|x0 c0]; [discriminate|]. reflexivity.
Qed.

(** ** One item of the loop *)

(** What the loop body leaves of an item that is a dictionary: the
    dose computed from the first numeral of the pattern, or the dose
    text itself. *)
Lemma calcular_item_casos :
  forall (str_contenedor : json -> pystr) w d,
    let dosis := match dict_get (u "dosis") d with
                 | Some v => v
                 | None => JStr []
                 end in
    let dosis_texto := lower (py_str str_contenedor dosis) in
    match search patron_mg_por_kg dosis_texto with
    | Some m =>
      exists N x,
        group dosis_texto m 1 = Some N /\ a_float N = Devuelve x
        /\ calcular_item str_contenedor w (JDict d)
           = Devuelve
               (JDict
                  (dict_set (u "explicacion_calculo")
                     (JStr (repr x ++ u " mg/kg x " ++ repr w ++ u " kg"))
                     (dict_set (u "dosis_calculada")
                        (JStr (total_final (mul x w))) d)))
    | None =>
      calcular_item str_contenedor w (JDict d)
      = Devuelve
          (JDict
             (match dict_get (u "dosis_calculada") d with
              | Some _ => d
              | None =>
                dict_set (u "dosis_calculada")
                  (match dict_get (u "dosis") d with
                   | Some v => v
                   | None => JNone
                   end) d
              end))
    end.
Proof.
  intros strc w d dosis dosis_texto.
  unfold calcular_item, get_o. cbn [bind].
  fold dosis. fold dosis_texto.
  destruct (search patron_mg_por_kg dosis_texto) as [m|] eqn:E.
  - unfold search in E. apply search_from_match_at in E.
    destruct (patron_mg_por_kg_grupo _ _ _ E) as (a & Hc & (x & Hx & _) & _).
    exists (substr dosis_texto (m_start m) a), x.
    unfold dosis_por_peso, grupo1, group. change (1 - 1) with 0.
    rewrite Hc. cbn [span_text bind]. rewrite Hx. cbn [bind try_except].
    repeat split; reflexivity.
  - destruct (dict_get (u "dosis_calculada") d); reflexivity.
Qed.

Lemma calcular_item_conserva :
  forall (str_contenedor : json -> pystr) w d,
    exists d',
      calcular_item str_contenedor w (JDict d) = Devuelve (JDict d')
      /\ dict_get (u "dosis_calculada") d' <> None
      /\ forall k, k <> u "dosis_calculada" -> k <> u "explicacion_calculo" ->
                   dict_get k d' = dict_get k d.
Proof.
  intros strc w d.
  pose proof (calcular_item_casos strc w d) as H. cbv zeta in H.
  destruct (search patron_mg_por_kg _) as [m|].
  - destruct H as (N & x & _ & _ & ->). eexists. split; [reflexivity|].
    split.
    + rewrite dict_get_set_otra by discriminate.
      rewrite dict_get_set_igual. discriminate.
    + intros k K1 K2. now rewrite !dict_get_set_otra by assumption.
  - rewrite H. eexists. split; [reflexivity|].
    destruct (dict_get (u "dosis_calculada") d) eqn:E.
    + split; [congruence|reflexivity].
    + split; [rewrite dict_get_set_igual; discriminate|].
      intros k K1 _. now rewrite dict_get_set_otra by assumption.
Qed.

(** ** The whole prescription *)

Lemma para_cada_items :
  forall (str_contenedor : json -> pystr) w l,
    Forall (fun it => exists d, it = JDict d) l ->
    exists l',
      para_cada (calcular_item str_contenedor w) l = Devuelve l'
      /\ Forall2
           (fun it it' =>
              exists d d',
                it = JDict d /\ it' = JDict d'
                /\ calcular_item str_contenedor w it = Devuelve it'
                /\ dict_get (u "dosis_calculada") d' <> None
                /\ forall k, k <> u "dosis_calculada" ->
                             k <> u "explicacion_calculo" ->
                             dict_get k d' = dict_get k d) l l'.
Proof.
  intros strc w l H. induction H as [|it l (d & ->) _ (l' & E & F)].
  - exists []. split; [reflexivity|constructor].
  - destruct (calcular_item_conserva strc w d) as (d' & Hc & Hk & Ho).
    exists (JDict d' :: l'). cbn [para_cada]. rewrite Hc. cbn [bind].
    rewrite E. cbn [bind]. split; [reflexivity|].
    constructor; [|exact F]. exists d, d'. auto.
Qed.

(** X16: with a weight that counts (not zero, not negative) and a
    prescription whose "tratamiento_secuencial" is a list of
    dictionaries, [calcular_dosis_exactas] returns the prescription with
    that list replaced, item by item: the list keeps its length and its
    order, every item has the entry "dosis_calculada" afterwards, and
    every other entry of an item but "explicacion_calculo" is as it
    was. The other entries of the prescription are as they were too. *)
Theorem calcular_dosis_exactas_conserva :
  forall (str_contenedor : json -> pystr) (p : dict) (l : list json) w,
    sin_peso w = false ->
    dict_get (u "tratamiento_secuencial") p = Some (JList l) ->
    Forall (fun it => exists d, it = JDict d) l ->
    exists l' p',
      calcular_dosis_exactas str_contenedor (JDict p) w = Devuelve (JDict p')
      /\ dict_get (u "tratamiento_secuencial") p' = Some (JList l')
      /\ (forall k, k <> u "tratamiento_secuencial" ->
                    dict_get k p' = dict_get k p)
      /\ Forall2
           (fun it it' =>
              exists d d',
                it = JDict d /\ it' = JDict d'
                /\ calcular_item str_contenedor w it = Devuelve it'
                /\ dict_get (u "dosis_calculada") d' <> None
                /\ forall k, k <> u "dosis_calculada" ->
                             k <> u "explicacion_calculo" ->
                             dict_get k d' = dict_get k d) l l'.
Proof.
  intros strc p l w Hw Hl Hd.
  destruct (para_cada_items strc w l Hd) as (l' & E & F).
  exists l', (dict_set (u "tratamiento_secuencial") (JList l') p).
  unfold calcular_dosis_exactas. rewrite Hw. unfold get_o. rewrite Hl.
  cbn [bind elementos]. rewrite E. cbn [bind].
  split; [reflexivity|]. split; [apply dict_get_set_igual|].
  split; [|exact F].
  intros k Hk. now apply dict_get_set_otra.
Qed.

(** One medicine, "10mg/kg", and 25 kg: 250 mg. *)
Lemma calcular_dosis_exactas_250_mg :
  calcular_dosis_exactas (fun _ => [])
    (JDict [(u "tratamiento_secuencial",
             JList [JDict [(u "nombre", JStr (u "Ibuprofeno"));
                           (u "dosis", JStr (u "10mg/kg"))]])])
    (num "25")
  = Devuelve
      (JDict [(u "tratamiento_secuencial",
               JList [JDict [(u "nombre", JStr (u "Ibuprofeno"));
                             (u "dosis", JStr (u "10mg/kg"));
                             (u "dosis_calculada", JStr (u "250 mg"));
                             (u "explicacion_calculo",
                              JStr (u "10.0 mg/kg x 25.0 kg"))]])]).
Proof.
  destruct (calcular_dosis_exactas_conserva (fun _ => [])
              [(u "tratamiento_secuencial",
                JList [JDict [(u "nombre", JStr (u "Ibuprofeno"));
                              (u "dosis", JStr (u "10mg/kg"))]])]
              [JDict [(u "nombre", JStr (u "Ibuprofeno"));
                      (u "dosis", JStr (u "10mg/kg"))]]
              (num "25"))
    as (l' & p' & E & _).
  - reflexivity.
  - reflexivity.
  - constructor; [eexists; reflexivity|constructor].
  - rewrite E. vm_compute in E. injection E as <-. reflexivity.
Defined.

(** ** What the dose pattern of the structurer matches *)

Lemma set_has_uno :
  forall items x,
    set_has false false items x = true ->
    existsb (fun it => item_has it x) items = true.
Proof.
  intros items x H. unfold set_has in H. cbn [xorb] in H.
  rewrite <- H. clear H. induction items as [|it items IH]; [reflexivity|].
  cbn [existsb andb]. rewrite IH. now rewrite orb_false_r.
Qed.

(** A match of [patron_mg_por_kg]: a numeral, white space, "mg", white
    space, one character of the class, white space, "kg". *)
Lemma patron_mg_por_kg_forma :
  forall texto i m, match_at false patron_mg_por_kg texto i = Some m ->
    exists a b c d x,
      nth 0 (m_caps m) None = Some (i, a)
      /\ i < a /\ a <= b /\ S (S b) <= c /\ S c <= d
      /\ Forall (fun y => de_numeral y = true) (substr texto i a)
      /\ espacios (substr texto a b)
      /\ nth_error texto b = Some 109%N
      /\ nth_error texto (S b) = Some 103%N
      /\ espacios (substr texto (S (S b)) c)
      /\ nth_error texto c = Some x
      /\ In x [47; 124; 112; 111; 114]%N
      /\ espacios (substr texto (S c) d)
      /\ nth_error texto d = Some 107%N
      /\ nth_error texto (S d) = Some 103%N.
Proof.
  intros texto i m H.
  apply match_at_sound in H as [_ H].
  unfold patron_mg_por_kg in H. cbn [ngroups Nat.max repeat] in H.
  apply sem_seq in H as (a & c1 & (c0 & Hb & ->) & H).
  assert (Hcaps : nth 0 (m_caps m) None = Some (i, a)).
  { apply sem_sin_grupos in H; [|reflexivity]. rewrite H.
    apply sem_fija in Hb as (Hlen & _ & _).
    cbn [List.length repeat] in Hlen.
    destruct c0 as [|y0 c0]; [discriminate|]. reflexivity. }
  assert (Hnum : Forall (fun y => de_numeral y = true) (substr texto i a)
                 /\ i < a).
  { clear - Hb. cbn [sem] in Hb.
    destruct Hb as (m & c1 & H1 & H2).
    apply iter_digitos in H1 as (-> & Him & Hn1 & Hd1).
    assert (D1 : Forall (fun y => de_numeral y = true) (substr texto i m)).
    { eapply Forall_impl; [|exact Hd1]. intros y Hy.
      unfold de_numeral. now rewrite Hy. }
    inversion H2 as [|? ? ? i1 c2 ? ? _ Hr Hlt Hit]; subst.
    - split; [assumption|lia].
    - destruct Hr as (c3 & (m2 & c4 & (x & Hx & Hs & -> & ->) & H3) & ->).
      apply iter_digitos in H3 as (-> & Hle3 & _ & Hd3).
      inversion Hit as [|? ? ? ? ? ? ? U]; subst; [|discriminate].
      split; [|lia].
      rewrite (substr_app texto i m a) by lia.
      rewrite (substr_cons _ _ _ _ Hx) by lia.
      apply Forall_app. split; [assumption|]. constructor.
      + apply set_has_sep in Hs. unfold de_numeral.
        destruct Hs as [-> | ->]; reflexivity.
      + eapply Forall_impl; [|exact Hd3]. intros y Hy.
        unfold de_numeral. now rewrite Hy. }
  destruct Hnum as [Hnum Hia].
  apply sem_seq in H as (b & c2 & Hs1 & H).
  cbn [sem] in Hs1. apply iter_cset in Hs1 as (_ & B1 & _ & S1).
  apply sem_seq in H as (b1 & c3 & (x1 & Hx1 & Hm1 & -> & _) & H).
  apply set_has_char in Hm1. subst x1.
  apply sem_seq in H as (b2 & c4 & (x2 & Hx2 & Hm2 & -> & _) & H).
  apply set_has_char in Hm2. subst x2.
  apply sem_seq in H as (c & c5 & Hs2 & H).
  cbn [sem] in Hs2. apply iter_cset in Hs2 as (_ & B2 & _ & S2).
  apply sem_seq in H as (c' & c6 & (x & Hx & Hset & -> & _) & H).
  apply sem_seq in H as (d & c7 & Hs3 & H).
  cbn [sem] in Hs3. apply iter_cset in Hs3 as (_ & B3 & _ & S3).
  apply sem_seq in H as (d' & c8 & (x3 & Hx3 & Hm3 & -> & _) & H).
  apply set_has_char in Hm3. subst x3.
  destruct H as (x4 & Hx4 & Hm4 & _ & _).
  apply set_has_char in Hm4. subst x4.
  exists a, b, c, d, x.
  apply set_has_uno in Hset. cbn [existsb item_has] in Hset.
  assert (Hin : In x [47; 124; 112; 111; 114]%N).
  { simpl. rewrite !orb_true_iff in Hset.
    repeat (destruct Hset as [Hset|Hset];
            [apply N.eqb_eq in Hset; subst; tauto|]).
    discriminate. }
  assert (E1 : espacios (substr texto a b))
    by (eapply Forall_impl; [|exact S1]; apply set_has_space).
  assert (E2 : espacios (substr texto (S (S b)) c))
    by (eapply Forall_impl; [|exact S2]; apply set_has_space).
  assert (E3 : espacios (substr texto (S c) d))
    by (eapply Forall_impl; [|exact S3]; apply set_has_space).
  repeat split; try assumption; try lia.
Qed.

(** ** "mg por kg" *)

Lemma digito_sin_caja :
  forall d, is_digit d = true -> lower_cp d = d /\ upper_cp d = d.
Proof.
  intros d H. apply digito_casos in H.
  repeat (destruct H as [->|H]; [split; reflexivity|]).
  subst. split; reflexivity.
Qed.

Lemma lower_digitos : forall ds, digitos ds -> lower ds = ds.
Proof.
  intros ds H. rewrite lower_sin_i_punto.
  - induction H as [|d ds Hd _ IH]; [reflexivity|].
    cbn [map]. rewrite IH. now destruct (digito_sin_caja d Hd) as [-> _].
  - intros Hin. unfold digitos in H. rewrite Forall_forall in H.
    apply H in Hin. discriminate.
Qed.

Lemma nth_error_tras :
  forall (a b : pystr) k,
    nth_error (a ++ b) (List.length a + k) = nth_error b k.
Proof.
  intros a b k. rewrite nth_error_app2 by lia. f_equal. lia.
Qed.

Lemma nth_error_en_digitos :
  forall (ds b : pystr) p x,
    digitos ds -> p < List.length ds -> nth_error (ds ++ b) p = Some x ->
    is_digit x = true.
Proof.
  intros ds b p x Hd Hp Hx. rewrite nth_error_app1 in Hx by assumption.
  unfold digitos in Hd. rewrite Forall_forall in Hd.
  apply Hd. eapply nth_error_In; eauto.
Qed.

(** Where a character of the tail of a text is, counted from the end of
    the digits. *)
Lemma posicion_en_cola :
  forall (ds cola : pystr) p x,
    digitos ds -> is_digit x = false ->
    nth_error (ds ++ cola) p = Some x ->
    exists k, p = List.length ds + k /\ nth_error cola k = Some x.
Proof.
  intros ds cola p x Hd Hx Hp.
  destruct (Nat.lt_ge_cases p (List.length ds)) as [Hlt|Hge].
  - rewrite (nth_error_en_digitos ds cola p x Hd Hlt Hp) in Hx. discriminate.
  - exists (p - List.length ds). split; [lia|].
    rewrite <- (nth_error_tras ds cola). rewrite <- Hp. f_equal. lia.
Qed.

Lemma espacios_en :
  forall (s : pystr) i j p,
    espacios (substr s i j) -> i <= p < j -> j <= List.length s ->
    exists x, nth_error s p = Some x /\ is_space x = true.
Proof. intros s i j p H. now apply substr_nth. Qed.

(** The pattern finds nothing in digits followed by " mg por kg": the
    class [[/|por]] stands for one character. *)
Lemma mg_por_kg_sin_coincidencia :
  forall ds, digitos ds ->
    search patron_mg_por_kg (ds ++ u " mg por kg") = None.
Proof.
  intros ds Hd.
  destruct (search patron_mg_por_kg (ds ++ u " mg por kg")) as [m|] eqn:E;
    [exfalso|reflexivity].
  unfold search in E. apply search_from_match_at in E.
  destruct (patron_mg_por_kg_forma _ _ _ E)
    as (a & b & c & d & x & _ & _ & _ & Hbc & Hcd & _ & _ & Hm & _
        & S2 & Hx & Hin & S3 & Hk & Hg).
  set (n := List.length ds) in *.
  set (cola := u " mg por kg") in *.
  assert (Hlen : List.length (ds ++ cola) = n + 10)
    by (rewrite length_app; reflexivity).
  assert (Hd' : S d < n + 10)
    by (rewrite <- Hlen; apply nth_error_Some; congruence).
  (* the "m" is the second character of the tail *)
  destruct (posicion_en_cola ds cola b 109%N Hd eq_refl Hm) as (kb & -> & Kb).
  assert (kb = 1).
  { do 10 (destruct kb as [|kb]; [vm_compute in Kb; congruence|]).
    vm_compute in Kb. destruct kb; discriminate. }
  subst kb.
  (* the "k" is the ninth *)
  destruct (posicion_en_cola ds cola d 107%N Hd eq_refl Hk) as (kd & -> & Kd).
  assert (kd = 8).
  { do 10 (destruct kd as [|kd]; [vm_compute in Kd; congruence|]).
    vm_compute in Kd. destruct kd; discriminate. }
  subst kd.
  (* so the character of the class is "p", and "o" follows it *)
  assert (Hc4 : c = n + 4).
  { destruct (Nat.lt_trichotomy c (n + 4)) as [Hlt|[Heq|Hgt]];
      [exfalso|exact Heq|exfalso].
    - assert (c = n + 3) by lia. subst c.
      rewrite nth_error_tras in Hx. vm_compute in Hx. injection Hx as <-.
      simpl in Hin. intuition discriminate.
    - destruct (espacios_en _ _ _ (n + 4) S2) as (y & Hy & Sy);
        [lia|lia|].
      rewrite nth_error_tras in Hy. vm_compute in Hy. injection Hy as <-.
      discriminate. }
  subst c.
  destruct (espacios_en _ _ _ (n + 5) S3) as (y & Hy & Sy); [lia|lia|].
  rewrite nth_error_tras in Hy. vm_compute in Hy. injection Hy as <-.
  discriminate.
Qed.

(** X17: a dose written "N mg por kg" is not computed. For any digits
    [N], the item whose dose is "N mg por kg" gets, as its computed
    dose, this very text (when it has none yet): the class [[/|por]] of
    the pattern is one character, "/", "|", "p", "o" or "r", and not the
    word "por". *)
Theorem mg_por_kg_no_se_calcula :
  forall (str_contenedor : json -> pystr) ds w d,
    digitos ds ->
    dict_get (u "dosis") d = Some (JStr (ds ++ u " mg por kg")) ->
    dict_get (u "dosis_calculada") d = None ->
    calcular_item str_contenedor w (JDict d)
    = Devuelve
        (JDict (dict_set (u "dosis_calculada")
                  (JStr (ds ++ u " mg por kg")) d)).
Proof.
  intros strc ds w d Hd Hdosis Hcalc.
  pose proof (calcular_item_casos strc w d) as H. cbv zeta in H.
  rewrite Hdosis in H. cbn [py_str] in H.
  assert (L : lower (ds ++ u " mg por kg") = ds ++ u " mg por kg").
  { rewrite lower_app, (lower_digitos _ Hd). reflexivity. }
  rewrite L, (mg_por_kg_sin_coincidencia _ Hd), Hcalc in H. exact H.
Qed.

(** "10 mg por kg" *)
Lemma diez_mg_por_kg :
  calcular_item (fun _ => []) (num "25")
    (JDict [(u "nombre", JStr (u "Ibuprofeno"));
            (u "dosis", JStr (u "10 mg por kg"))])
  = Devuelve
      (JDict [(u "nombre", JStr (u "Ibuprofeno"));
              (u "dosis", JStr (u "10 mg por kg"));
              (u "dosis_calculada", JStr (u "10 mg por kg"))]).
Proof.
  rewrite (mg_por_kg_no_se_calcula (fun _ => []) (u "10") (num "25")
             [(u "nombre", JStr (u "Ibuprofeno"));
              (u "dosis", JStr (u "10 mg por kg"))]).
  - reflexivity.
  - repeat constructor.
  - reflexivity.
  - reflexivity.
Defined.

(** ** "N mg/kg" *)

Lemma forma_numeral_es_numeral :
  forall N, forma_numeral N ->
    es_numeral N /\ Forall (fun y => de_numeral y = true) N.
Proof.
  intros N [[Hd Hne]|(ip & sep & fp & -> & Hi & Hin & Hs & Hf & Hfn)].
  - split; [now apply es_numeral_entero|].
    eapply Forall_impl; [|exact Hd]. intros y Hy.
    unfold de_numeral. now rewrite Hy.
  - split; [now apply es_numeral_decimal|].
    apply Forall_app. split; [|constructor].
    + eapply Forall_impl; [|exact Hi]. intros y Hy.
      unfold de_numeral. now rewrite Hy.
    + unfold de_numeral. destruct Hs as [-> | ->]; reflexivity.
    + eapply Forall_impl; [|exact Hf]. intros y Hy.
      unfold de_numeral. now rewrite Hy.
Qed.

Lemma de_numeral_no_espacio :
  forall y, de_numeral y = true -> is_space y = false.
Proof.
  intros y H. unfold de_numeral in H.
  apply orb_true_iff in H as [H|H]; [apply orb_true_iff in H as [H|H]|].
  - now apply digito_no_espacio.
  - apply N.eqb_eq in H. now subst.
  - apply N.eqb_eq in H. now subst.
Qed.

(** The numeral pattern with its inner group matches a numeral, from
    its first to its last character. *)
Lemma sem_cuerpo_numeral :
  forall (s : pystr) i N resto c0,
    forma_numeral N -> i <= List.length s -> skipn i s = N ++ resto ->
    exists c1,
      List.length c1 = List.length c0
      /\ sem false s
           (Seq (Rep 1 None (CSet false [CDigit]))
              (Rep 0 (Some 1)
                 (Group 2
                    (Seq (CSet false [CChar 46; CChar 44])
                       (Rep 1 None (CSet false [CDigit]))))))
           i c0 (i + List.length N) c1.
Proof.
  intros s i N resto c0 HN Hi Hs.
  destruct HN as [[Hd Hne]|(ip & sep & fp & -> & Hip & Hin & Hsep & Hf & Hfn)].
  - destruct (skipn_parte _ _ _ _ Hi Hs) as (P & _ & B).
    exists c0. split; [reflexivity|]. cbn [sem].
    exists (i + List.length N), c0. split; [|apply iter_stop; lia].
    apply iter_cset_todo with (k := List.length N);
      [reflexivity|assumption| |].
    + rewrite P. eapply Forall_impl; [|exact Hd].
      intros; now apply set_has_digito.
    + destruct N; [congruence|simpl; lia].
  - rewrite <- app_assoc in Hs. cbn [app] in Hs.
    destruct (skipn_parte _ _ _ _ Hi Hs) as (P1 & Q1 & B1).
    destruct (skipn_caracter _ _ _ _ Q1) as (P2 & Q2 & B2).
    destruct (skipn_parte _ _ _ _ B2 Q2) as (P3 & Q3 & B3).
    rewrite length_app. cbn [List.length].
    set (p := i + List.length ip) in *.
    replace (i + (List.length ip + S (List.length fp)))
      with (S p + List.length fp) by lia.
    exists (set_cap 2 (p, S p + List.length fp) c0).
    split; [apply set_cap_length|]. cbn [sem].
    exists p, c0. split.
    { apply iter_cset_todo with (k := List.length ip);
        [reflexivity|assumption| |].
      + rewrite P1. eapply Forall_impl; [|exact Hip].
        intros; now apply set_has_digito.
      + destruct ip; [congruence|simpl; lia]. }
    apply iter_step with (i1 := S p + List.length fp)
                         (c1 := set_cap 2 (p, S p + List.length fp) c0);
      [reflexivity| |lia|apply iter_stop; lia].
    exists c0. split; [|reflexivity].
    exists (S p), c0. split.
    { exists sep. repeat split; auto.
      unfold set_has, existsb, item_has.
      destruct Hsep as [-> | ->]; reflexivity. }
    apply iter_cset_todo with (k := List.length fp);
      [reflexivity|assumption| |].
    + rewrite P3. eapply Forall_impl; [|exact Hf].
      intros; now apply set_has_digito.
    + destruct fp; [congruence|simpl; lia].
Qed.

(** X18: a dose written "N mg/kg" is computed. When the dose of an item
    reads, in lower case, a numeral [N] (digits, with an optional
    decimal part after a point or a comma), optional white space and
    "mg/kg", the loop body gives the item the computed dose
    [float(N) * peso], written as an integer when it is one and with
    one decimal otherwise, and the explanation of the product. *)
Theorem dosis_por_kg_se_calcula :
  forall (str_contenedor : json -> pystr) t N esp resto w d,
    dict_get (u "dosis") d = Some (JStr t) ->
    lower t = N ++ esp ++ u "mg/kg" ++ resto ->
    forma_numeral N -> espacios esp ->
    exists x,
      a_float N = Devuelve x
      /\ calcular_item str_contenedor w (JDict d)
         = Devuelve
             (JDict
                (dict_set (u "explicacion_calculo")
                   (JStr (repr x ++ u " mg/kg x " ++ repr w ++ u " kg"))
                   (dict_set (u "dosis_calculada")
                      (JStr (total_final (mul x w))) d))).
Proof.
  intros strc t N esp resto w d Hdosis Ht HN He.
  destruct (forma_numeral_es_numeral N HN) as [(x & Hx & _) HNc].
  exists x. split; [exact Hx|].
  pose proof (calcular_item_casos strc w d) as H. cbv zeta in H.
  rewrite Hdosis in H. cbn [py_str] in H.
  set (T := lower t) in *.
  change (u "mg/kg") with [109; 103; 47; 107; 103]%N in Ht.
  cbn [app] in Ht.
  assert (Q0 : skipn 0 T = N ++ esp ++ 109%N :: 103%N :: 47%N :: 107%N
                              :: 103%N :: resto) by exact Ht.
  destruct (skipn_parte _ _ _ _ (Nat.le_0_l _) Q0) as (P1 & Q1 & B1).
  destruct (skipn_parte _ _ _ _ B1 Q1) as (P2 & Q2 & B2).
  destruct (skipn_caracter _ _ _ _ Q2) as (P3 & Q3 & B3).
  destruct (skipn_caracter _ _ _ _ Q3) as (P4 & Q4 & B4).
  destruct (skipn_caracter _ _ _ _ Q4) as (P5 & Q5 & B5).
  destruct (skipn_caracter _ _ _ _ Q5) as (P6 & Q6 & B6).
  destruct (skipn_caracter _ _ _ _ Q6) as (P7 & Q7 & B7).
  cbn [Nat.add] in *.
  set (n := List.length N) in *.
  set (b := n + List.length esp) in *.
  (* the pattern matches at the beginning *)
  assert (M : match_at false patron_mg_por_kg T 0 <> None).
  { destruct (sem_cuerpo_numeral T 0 N _ [None; None] HN (Nat.le_0_l _) Q0)
      as (c1 & Hc1 & Hsem).
    cbn [Nat.add] in Hsem. fold n in Hsem.
    apply match_at_complete with (j := S (S (S (S (S b)))))
                                 (c' := set_cap 1 (0, n) c1).
    unfold patron_mg_por_kg. cbn [ngroups Nat.max repeat].
    change (sem false T (Seq ?a ?r)) with
      (fun i c j c' => exists m c1, sem false T a i c m c1
                                    /\ sem false T r m c1 j c').
    cbv beta.
    exists n, (set_cap 1 (0, n) c1). split.
    { exists c1. split; [exact Hsem|reflexivity]. }
    cbn [sem].
    exists b, (set_cap 1 (0, n) c1). split.
    { apply iter_cset_todo with (k := List.length esp);
        [reflexivity|assumption| |lia].
      rewrite P2. eapply Forall_impl; [|exact He].
      intros; now apply set_has_espacio. }
    exists (S b), (set_cap 1 (0, n) c1).
    split; [exists 109%N; auto using set_has_letra|].
    exists (S (S b)), (set_cap 1 (0, n) c1).
    split; [exists 103%N; auto using set_has_letra|].
    exists (S (S b)), (set_cap 1 (0, n) c1).
    split; [apply iter_stop; lia|].
    exists (S (S (S b))), (set_cap 1 (0, n) c1).
    split; [exists 47%N; repeat split; auto|].
    exists (S (S (S b))), (set_cap 1 (0, n) c1).
    split; [apply iter_stop; lia|].
    exists (S (S (S (S b)))), (set_cap 1 (0, n) c1).
    split; [exists 107%N; auto using set_has_letra|].
    exists 103%N; auto using set_has_letra. }
  destruct (match_at false patron_mg_por_kg T 0) as [m|] eqn:Em;
    [clear M|congruence].
  unfold search in H. rewrite (search_from_inmediato _ _ _ _ _ _ Em) in H.
  destruct H as (N' & x' & HG & Hx' & Heq).
  (* its first group is the numeral *)
  destruct (patron_mg_por_kg_forma _ _ _ Em)
    as (a & b' & c & d0 & y & Hc & Ha & Hab & _ & _ & Hnum & S1 & Hm & _).
  assert (Hb' : b' < List.length T)
    by (apply nth_error_Some; congruence).
  assert (Ea : a = n).
  { destruct (Nat.lt_trichotomy a n) as [Hlt|[Heq'|Hgt]];
      [exfalso|exact Heq'|exfalso].
    - assert (In1 : Forall (fun z => de_numeral z = true) (substr T 0 n))
        by (rewrite P1; exact HNc).
      destruct (substr_nth _ T 0 n a In1) as (z & Hz & Dz); [lia|lia|].
      destruct (Nat.eq_dec a b') as [->|Hne].
      + rewrite Hm in Hz. injection Hz as <-. discriminate.
      + destruct (espacios_en _ _ _ a S1) as (z' & Hz' & Sz'); [lia|lia|].
        rewrite Hz in Hz'. injection Hz' as <-.
        rewrite (de_numeral_no_espacio _ Dz) in Sz'. discriminate.
    - destruct (substr_nth _ T 0 a n Hnum) as (z & Hz & Dz); [lia|lia|].
      destruct esp as [|e esp'].
      + cbn [List.length] in *. unfold b in P3. rewrite Nat.add_0_r in P3.
        rewrite P3 in Hz. injection Hz as <-. discriminate.
      + assert (In2 : espacios (substr T n b)) by (rewrite P2; exact He).
        destruct (espacios_en _ _ _ n In2) as (z' & Hz' & Sz');
          [unfold b; simpl; lia|lia|].
        rewrite Hz in Hz'. injection Hz' as <-.
        rewrite (de_numeral_no_espacio _ Dz) in Sz'. discriminate. }
  subst a.
  unfold group in HG. change (1 - 1) with 0 in HG. rewrite Hc in HG.
  cbn [span_text] in HG. rewrite P1 in HG. injection HG as <-.
  rewrite Hx in Hx'. injection Hx' as <-. exact Heq.
Qed.

(** "10,5 MG/KG" and 20 kg: 210 mg. *)
Lemma diez_y_medio_mg_kg :
  calcular_item (fun _ => []) (num "20")
    (JDict [(u "dosis", JStr (u "10,5 MG/KG"))])
  = Devuelve
      (JDict [(u "dosis", JStr (u "10,5 MG/KG"));
              (u "dosis_calculada", JStr (u "210 mg"));
              (u "explicacion_calculo", JStr (u "10.5 mg/kg x 20.0 kg"))]).
Proof.
  destruct (dosis_por_kg_se_calcula (fun _ => []) (u "10,5 MG/KG")
              (u "10,5") (u " ") [] (num "20")
              [(u "dosis", JStr (u "10,5 MG/KG"))])
    as (x & Hx & E).
  - reflexivity.
  - reflexivity.
  - right. exists (u "10"), 44%N, (u "5").
    split; [reflexivity|]. split; [repeat constructor|].
    split; [discriminate|]. split; [now right|].
    split; [repeat constructor|discriminate].
  - repeat constructor.
  - rewrite E. vm_compute in Hx. injection Hx as <-. reflexivity.
Defined.

(* ================================================================== *)
(** * [AgenteEstructurador.estructurar_texto] *)
(* ================================================================== *)

Lemma calcular_dosis_exactas_clave :
  forall (str_contenedor : json -> pystr) datos w r,
    sin_peso w = false ->
    calcular_dosis_exactas str_contenedor datos w = Devuelve r ->
    exists p lista,
      r = JDict p /\ dict_get (u "tratamiento_secuencial") p = Some lista.
Proof.
  intros strc datos w r Hw H. unfold calcular_dosis_exactas in H.
  rewrite Hw in H. unfold get_o in H.
  destruct datos as [| | | | | |p]; try discriminate. cbn [bind] in H.
  destruct (elementos _) as [items|]; [|discriminate]. cbn [bind] in H.
  destruct (para_cada _ items) as [nuevos|]; [|discriminate].
  cbn [bind] in H. injection H as <-.
  eexists. eexists. split; [reflexivity|]. apply dict_get_set_igual.
Qed.

(** X19: with a weight that counts, the result of [estructurar_texto] is
    always a dictionary with the entry "tratamiento_secuencial",
    whatever the completion service answers and whatever [json.loads]
    makes of it: the prescription with its computed doses, or the
    dictionary of the [except] branch, whose list is empty. No
    exception leaves the function. *)
Theorem estructurar_texto_con_peso :
  forall (json_loads : pystr -> resultado json)
         (str_contenedor : json -> pystr)
         (self : AgenteEstructurador) texto_medico peso_kg,
    sin_peso peso_kg = false ->
    exists p lista,
      estructurar_texto json_loads str_contenedor self texto_medico peso_kg
      = JDict p
      /\ dict_get (u "tratamiento_secuencial") p = Some lista
      /\ ((exists e, JDict p = error_estructurador e)
          \/ exists respuesta datos,
            llm_estructurador self (prompt_estructurador texto_medico)
            = Devuelve respuesta
            /\ json_loads (texto_json respuesta) = Devuelve datos
            /\ calcular_dosis_exactas str_contenedor datos peso_kg
               = Devuelve (JDict p)).
Proof.
  intros loads strc self texto w Hw. unfold estructurar_texto.
  destruct (llm_estructurador self _) as [respuesta|e] eqn:E1;
    cbn [bind try_except].
  2:{ do 2 eexists. split; [reflexivity|]. split; [reflexivity|].
      left. eexists. reflexivity. }
  destruct (loads (texto_json respuesta)) as [datos|e] eqn:E2;
    cbn [bind try_except].
  2:{ do 2 eexists. split; [reflexivity|]. split; [reflexivity|].
      left. eexists. reflexivity. }
  destruct (calcular_dosis_exactas strc datos w) as [r|e] eqn:E3;
    cbn [try_except].
  2:{ do 2 eexists. split; [reflexivity|]. split; [reflexivity|].
      left. eexists. reflexivity. }
  destruct (calcular_dosis_exactas_clave strc datos w r Hw E3)
    as (p & lista & -> & Hk).
  exists p, lista. split; [reflexivity|]. split; [exact Hk|].
  right. exists respuesta, datos. auto.
Qed.

(** The completion service is down: the result is the dictionary of the
    [except] branch. *)
Lemma estructurar_texto_servicio_caido :
  estructurar_texto json_loads_ejemplo (fun _ => []) estructurador_caido
    (u "Ibuprofeno 10mg/kg cada 8h") (num "25")
  = JDict [(u "tratamiento_secuencial", JList []);
           (u "error", JStr (u "Connection refused"))].
Proof.
  destruct (estructurar_texto_con_peso json_loads_ejemplo (fun _ => [])
              estructurador_caido (u "Ibuprofeno 10mg/kg cada 8h")
              (num "25"))
    as (p & lista & E & _).
  - reflexivity.
  - rewrite E. vm_compute in E. injection E as <-. reflexivity.
Defined.

Lemma para_cada_lanza :
  forall (A B : Type) (f : A -> resultado B) antes x despues e,
    (forall a, In a antes -> exists b, f a = Devuelve b) ->
    f x = Lanza e ->
    para_cada f (antes ++ x :: despues) = Lanza e.
Proof.
  intros A B f antes x despues e Ha Hx.
  induction antes as [|a antes IH]; cbn [app para_cada].
  - now rewrite Hx.
  - destruct (Ha a (or_introl eq_refl)) as [b ->]. cbn [bind].
    rewrite IH; [reflexivity|]. intros a' Hin. apply Ha. now right.
Qed.

(** X20: an item that is not a dictionary loses the whole prescription.
    With a weight that counts, when the treatment list read from the
    answer holds an item that is not a dictionary (a text, a number)
    after items that are, the result is the dictionary of the [except]
    branch: an empty treatment list and the error text of the
    [AttributeError], which names the type of the item. *)
Theorem estructurar_texto_item_no_diccionario :
  forall (json_loads : pystr -> resultado json)
         (str_contenedor : json -> pystr)
         (self : AgenteEstructurador) texto_medico peso_kg
         respuesta p antes it despues,
    sin_peso peso_kg = false ->
    llm_estructurador self (prompt_estructurador texto_medico)
    = Devuelve respuesta ->
    json_loads (texto_json respuesta) = Devuelve (JDict p) ->
    dict_get (u "tratamiento_secuencial") p
    = Some (JList (antes ++ it :: despues)) ->
    Forall (fun i => exists d, i = JDict d) antes ->
    (forall d, it <> JDict d) ->
    estructurar_texto json_loads str_contenedor self texto_medico peso_kg
    = JDict
        [ (u "tratamiento_secuencial", JList []);
          (u "error",
           JStr (u "'" ++ nombre_de_tipo it
                   ++ u "' object has no attribute 'get'")) ].
Proof.
  intros loads strc self texto w respuesta p antes it despues
         Hw Hllm Hloads Hl Hantes Hit.
  unfold estructurar_texto. rewrite Hllm. cbn [bind]. rewrite Hloads.
  cbn [bind]. unfold calcular_dosis_exactas. rewrite Hw.
  unfold get_o. rewrite Hl. cbn [bind elementos].
  rewrite (para_cada_lanza _ _ (calcular_item strc w) antes it despues
             (sin_atributo_get it)).
  - reflexivity.
  - intros a Hin. rewrite Forall_forall in Hantes.
    destruct (Hantes a Hin) as [d ->].
    destruct (calcular_item_conserva strc w d) as (d' & E & _). eauto.
  - unfold calcular_item, get_o.
    destruct it as [| | | | | |d]; try reflexivity.
    exfalso. now apply (Hit d).
Qed.

(** The treatment is a list of names: nothing is left of it. *)
Lemma estructurar_texto_lista_de_textos :
  estructurar_texto json_loads_lista (fun _ => [])
    (estructurador_ejemplo (u "Aquí está: " ++ json_lista_de_textos))
    (u "Ibuprofeno 10mg/kg cada 8h") (num "25")
  = JDict [(u "tratamiento_secuencial", JList []);
           (u "error", JStr (u "'str' object has no attribute 'get'"))].
Proof.
  rewrite (estructurar_texto_item_no_diccionario json_loads_lista
             (fun _ => [])
             (estructurador_ejemplo (u "Aquí está: " ++ json_lista_de_textos))
             (u "Ibuprofeno 10mg/kg cada 8h") (num "25")
             (u "Aquí está: " ++ json_lista_de_textos)
             [(u "tratamiento_secuencial", JList [JStr (u "Ibuprofeno")])]
             [] (JStr (u "Ibuprofeno")) []).
  - vm_compute. reflexivity.
  - reflexivity.
  - reflexivity.
  - vm_compute. reflexivity.
  - reflexivity.
  - constructor.
  - discriminate.
Defined.

(* ================================================================== *)
(** * backend/main.py: [procesar_receta] *)
(* ================================================================== *)

(** X21: the structurer writes "tratamiento_secuencial" and the auditor
    reads "lista_medicamentos". When the structured prescription has no
    entry "lista_medicamentos", the auditor finds no medicine in it:
    its store is searched with the bare heading, naming no drug, and
    the prompt of its completion service names none either. The answer
    of that service is the security analysis of the result; an
    exception of the store leaves [procesar_receta]. *)
Theorem procesar_receta_sin_nombres :
  forall (json_dumps : json -> pystr) (json_loads : pystr -> resultado json)
         (str_contenedor : json -> pystr)
         (estructurador : AgenteEstructurador) (auditor : AgenteAuditor)
         texto_voz peso_paciente p,
    estructurar_texto json_loads str_contenedor estructurador texto_voz
      peso_paciente = JDict p ->
    dict_get (u "lista_medicamentos") p = None ->
    procesar_receta json_dumps json_loads str_contenedor estructurador
      auditor texto_voz peso_paciente
    = match similarity_search (db auditor)
              (u "Dosis, frecuencia, contraindicaciones y seguridad de: ")
              5 None with
      | Devuelve docs_relacionados =>
        Devuelve
          (JDict
             [ (u "pauta_generada", JDict p);
               (u "analisis_seguridad",
                invocar_y_parsear json_loads auditor
                  (construir_prompt []
                     (join (nl ++ nl) (map page_content docs_relacionados))
                     (json_dumps (JDict p)))) ])
      | Lanza e => Lanza e
      end.
Proof.
  intros dumps loads strc est aud texto w p Hp Hk.
  unfold procesar_receta. rewrite Hp.
  rewrite (validar_pauta_de_nombres dumps loads aud p [] []);
    [|unfold lista_medicamentos; now rewrite Hk|constructor].
  unfold consulta_auditor. cbn [join]. rewrite app_nil_r.
  destruct (similarity_search (db aud) _ 5 None); reflexivity.
Qed.

(** The structurer fails and the auditor approves: the prescription
    that could not be read comes back with an approval. *)
Lemma procesar_receta_aprobada_sin_pauta :
  exists r,
    procesar_receta (fun _ => []) json_loads_aprobado (fun _ => [])
      estructurador_caido auditor_que_aprueba
      (u "Ibuprofeno 10mg/kg cada 8h") (num "25")
    = Devuelve r
    /\ campo2 "pauta_generada" "tratamiento_secuencial" r = Some (JList [])
    /\ campo2 "analisis_seguridad" "aprobado" r = Some (JBool true).
Proof.
  eexists. split.
  - apply (procesar_receta_sin_nombres (fun _ => []) json_loads_aprobado
             (fun _ => []) estructurador_caido auditor_que_aprueba
             (u "Ibuprofeno 10mg/kg cada 8h") (num "25")
             [(u "tratamiento_secuencial", JList []);
              (u "error", JStr (u "Connection refused"))]).
    + reflexivity.
    + reflexivity.
  - vm_compute. split; reflexivity.
Defined.

(* ================================================================== *)
(** * How the doses are written *)
(* ================================================================== *)

Lemma str_of_N_digitos : forall n, digitos (str_of_N n).
Proof.
  intros n. unfold str_of_N, digitos.
  generalize (N.to_uint n). intros d.
  induction d; simpl; constructor; try reflexivity; assumption.
Qed.

Lemma digitos_sin_punto : forall l, digitos l -> ~ In 46%N l.
Proof.
  intros l H Hin. unfold digitos in H. rewrite Forall_forall in H.
  apply H in Hin. discriminate.
Qed.

Lemma str_of_Z_sin_punto : forall z, ~ In 46%N (str_of_Z z).
Proof.
  intros z. unfold str_of_Z. destruct z.
  - apply digitos_sin_punto, str_of_N_digitos.
  - apply digitos_sin_punto, str_of_N_digitos.
  - intros [H|H]; [discriminate|].
    revert H. apply digitos_sin_punto, str_of_N_digitos.
Qed.

(** With one decimal place: digits, a point and one digit. *)
Lemma place_point_1 :
  forall n, exists ent d,
    place_point 1 n = ent ++ [46%N; d]
    /\ is_digit d = true /\ digitos ent.
Proof.
  intros n. unfold place_point.
  set (ds := repeat 48%N (2 - List.length (str_of_N n)) ++ str_of_N n).
  assert (Hd : digitos ds).
  { unfold ds. apply Forall_app. split; [|apply str_of_N_digitos].
    clear. induction (2 - List.length (str_of_N n)); simpl; constructor; auto. }
  assert (Hl : 2 <= List.length ds).
  { unfold ds. rewrite length_app, repeat_length. lia. }
  destruct (exists_last (l := ds)) as (ent & d & E).
  { intros ->. simpl in Hl. lia. }
  exists ent, d. rewrite E in *. clear E ds.
  rewrite length_app in *. cbn [List.length] in *.
  replace (List.length ent + 1 - 1) with (List.length ent) by lia.
  rewrite firstn_app, Nat.sub_diag, firstn_all. cbn [firstn].
  rewrite skipn_app, Nat.sub_diag, skipn_all. cbn [skipn app].
  rewrite app_nil_r.
  apply Forall_app in Hd as [He Hd]. inversion Hd; subst.
  repeat split; auto.
Qed.

(** X22: how [calcular_dosis_exactas] writes a total. A total that is a
    whole number is written as that integer, without a decimal point;
    any other finite total is written with exactly one decimal digit.
    Both end in " mg". *)
Theorem total_final_formato :
  forall total_mg,
    (is_integer total_mg = true ->
     exists z,
       int_of_float total_mg = Some z
       /\ total_final total_mg = str_of_Z z ++ u " mg"
       /\ ~ In 46%N (total_final total_mg))
    /\ (forall s m e,
          total_mg = S754_finite s m e -> is_integer total_mg = false ->
          exists ent d,
            total_final total_mg = ent ++ 46%N :: d :: u " mg"
            /\ is_digit d = true /\ ~ In 46%N ent).
Proof.
  intros x. split.
  - intros Hi. unfold total_final. rewrite Hi.
    destruct x as [s|s| |s m e]; try discriminate; cbn [int_of_float];
      eexists; (split; [reflexivity|]); (split; [reflexivity|]);
      intros Hin; apply in_app_or in Hin as [Hin|Hin];
      try (revert Hin; apply str_of_Z_sin_punto);
      try (vm_compute in Hin; intuition discriminate).
  - intros s m e -> Hi. unfold total_final. rewrite Hi.
    unfold format_f.
    destruct (place_point_1 (round_half_even (m * pow10 1) e))
      as (ent & d & -> & Hd & He).
    exists (minus_if s ent), d. split; [|split; [exact Hd|]].
    + unfold minus_if. destruct s; cbn [app]; rewrite <- app_assoc;
        reflexivity.
    + unfold minus_if. destruct s.
      * intros [H|H]; [discriminate|].
        revert H. now apply digitos_sin_punto.
      * now apply digitos_sin_punto.
Qed.

(** ** The dose text of [ProcesarRecetaTool._run] *)

Lemma termina_en_mg :
  forall (a : pystr), a ++ u " mg" <> u "N/D".
Proof.
  intros a H. apply (f_equal (@rev N)) in H. rewrite rev_app_distr in H.
  vm_compute in H. discriminate.
Qed.

(** X23: the computed dose in the result of [ProcesarRecetaTool._run] is
    "N/D" exactly when no dose per kg is given; otherwise it is the
    weight times the dose per kg in the format [.0f], followed by
    " mg": it never has a decimal point. *)
Theorem dosis_calculada_de_run :
  forall id_paciente medico farmaco peso_paciente dosis_mg_kg
         frecuencia_texto frecuencia_horas es_tratamiento_aij
         razon_decision decision,
    let r := ProcesarRecetaTool_run id_paciente medico farmaco peso_paciente
               dosis_mg_kg frecuencia_texto frecuencia_horas
               es_tratamiento_aij razon_decision decision in
    exists dosis_str,
      campo2 "analisis" "dosis_calculada" r = Some (JStr dosis_str)
      /\ (dosis_str = u "N/D" <-> dosis_mg_kg = None)
      /\ (forall d, dosis_mg_kg = Some d ->
            dosis_str = format_f 0 (mul peso_paciente d) ++ u " mg")
      /\ ~ In 46%N dosis_str
      /\ campo2 "analisis" "dosis_mg_kg_detectada" r
         = Some (json_opt_float dosis_mg_kg).
Proof.
  intros id medico farmaco peso dosis ft fh es_aij razon decision r.
  destruct dosis as [d|].
  - exists (format_f 0 (mul peso d) ++ u " mg").
    split; [reflexivity|]. split; [|split; [|split; [|reflexivity]]].
    + split; [intros H; exfalso; revert H; apply termina_en_mg|discriminate].
    + now intros d' [= <-].
    + intros Hin. apply in_app_or in Hin as [Hin|Hin].
      * revert Hin. apply format_f_0_sin_punto.
      * vm_compute in Hin. intuition discriminate.
  - exists (u "N/D"). split; [reflexivity|].
    split; [tauto|]. split; [discriminate|]. split; [|reflexivity].
    vm_compute. intuition discriminate.
Qed.

(* ================================================================== *)
(** * run_tripulacion.py: [main] *)
(* ================================================================== *)

(** [main] once the payload is a dictionary and the completion service
    has answered. *)
Lemma main_con_payload :
  forall (json_loads : pystr -> resultado json) (json_dumps : json -> pystr)
         (str_contenedor : json -> pystr)
         (float_de_texto : pystr -> resultado float)
         env llm stdin p respuesta,
    _read_payload json_loads stdin = JDict p ->
    llm_call llm (prompt_de_main str_contenedor env p) = Devuelve respuesta ->
    main json_loads json_dumps str_contenedor float_de_texto env llm stdin
    = (valido <-
         datos_validos
           (extraer_data json_loads
              (_render_output json_dumps str_contenedor respuesta)) ;;
       match valido with
       | None =>
         Devuelve
           (error_payload (_render_output json_dumps str_contenedor respuesta))
       | Some d =>
         procesar_data str_contenedor float_de_texto d
           (entrada "peso_paciente" (JInt 0) p)
           (entrada "id_paciente" (JStr []) p)
       end).
Proof.
  intros loads dumps strc fdt env llm stdin p respuesta Hp Hllm.
  unfold main. rewrite Hp. unfold get_o. cbn [bind].
  unfold prompt_de_main, entrada in Hllm. rewrite Hllm. reflexivity.
Qed.

(** What a returning [main] went through. *)
Lemma main_pasos :
  forall (json_loads : pystr -> resultado json) (json_dumps : json -> pystr)
         (str_contenedor : json -> pystr)
         (float_de_texto : pystr -> resultado float)
         env llm stdin r,
    main json_loads json_dumps str_contenedor float_de_texto env llm stdin
    = Devuelve r ->
    exists p respuesta,
      _read_payload json_loads stdin = JDict p
      /\ llm_call llm (prompt_de_main str_contenedor env p)
         = Devuelve respuesta.
Proof.
  intros loads dumps strc fdt env llm stdin r H. unfold main in H.
  destruct (_read_payload loads stdin) as [| | | | | |p] eqn:Ep;
    try discriminate.
  unfold get_o in H. cbn [bind] in H.
  destruct (llm_call llm _) as [respuesta|] eqn:E; [|discriminate].
  exists p, respuesta. split; [reflexivity|exact E].
Qed.

Lemma procesar_data_estado :
  forall (str_contenedor : json -> pystr)
         (float_de_texto : pystr -> resultado float) d peso id r,
    procesar_data str_contenedor float_de_texto d peso id = Devuelve r ->
    campo "estado" r
    = Some (JStr (if match dict_get (u "es_tratamiento_aij") d with
                     | Some v => verdad v
                     | None => false
                     end
                  then u "Aprobada" else u "Alerta"))
    /\ campo "decision" r = Some (dict_get_o "decision" d).
Proof.
  intros strc fdt d peso id r H. unfold procesar_data in H.
  destruct (float_de _ peso) as [w|]; [|discriminate]. cbn [bind] in H.
  unfold ProcesarRecetaTool_run_json in H.
  destruct (match dict_get_o "dosis_mg_kg" d with
            | JNone => Devuelve (u "N/D")
            | _ => _
            end) as [dosis_str|]; [|discriminate].
  cbn [bind] in H. injection H as <-. split; reflexivity.
Qed.

Lemma datos_validos_ninguno :
  forall data,
    datos_validos data = Devuelve None <->
    (verdad data = false
     \/ exists d, data = JDict d /\ alguna_clave d = false).
Proof.
  intros data. unfold datos_validos. split.
  - destruct (verdad data) eqn:Ev; cbn [negb]; [|auto].
    destruct data as [| | | | | |d]; try discriminate.
    destruct (alguna_clave d) eqn:Ea; [discriminate|]. eauto.
  - intros [->|(d & -> & Ea)]; [reflexivity|].
    destruct (verdad (JDict d)); cbn [negb]; [|reflexivity].
    now rewrite Ea.
Qed.

(** The data taken from [raw] are unusable exactly when [raw] gives no
    usable data. *)
Lemma extraer_data_sin_datos :
  forall (json_loads : pystr -> resultado json) raw,
    datos_validos (extraer_data json_loads raw) = Devuelve None <->
    sin_datos json_loads raw.
Proof.
  intros loads raw. rewrite datos_validos_ninguno.
  unfold extraer_data, sin_datos. cbv zeta.
  set (inicio := find raw (u "{")). set (fin := rfind raw (u "}")).
  assert (Hvacio : verdad (JDict []) = false
                   \/ exists d, JDict [] = JDict d /\ alguna_clave d = false)
    by (left; reflexivity).
  destruct (negb (inicio =? -1)%Z && negb (fin =? -1)%Z && (inicio <? fin)%Z)
    eqn:Ec.
  - apply andb_prop in Ec as [Ec E3]. apply andb_prop in Ec as [E1 E2].
    apply negb_true_iff, Z.eqb_neq in E1. apply Z.ltb_lt in E3.
    destruct (loads (slice raw inicio (fin + 1))) as [v|e] eqn:El;
      cbn [try_except]; split.
    + intros H. right. right. right. exists v. auto.
    + intros [H|[H|[(e & H)|(v' & H & Hv)]]]; try lia; try discriminate.
      now injection H as <-.
    + intros _. right. right. left. eauto.
    + intros _. exact Hvacio.
  - split; [|intros _; exact Hvacio]. intros _.
    apply andb_false_iff in Ec as [Ec|Ec].
    + apply andb_false_iff in Ec as [Ec|Ec].
      * apply negb_false_iff, Z.eqb_eq in Ec. now left.
      * apply negb_false_iff, Z.eqb_eq in Ec.
        destruct (Z.eq_dec inicio (-1)); [now left|].
        right. left. rewrite Ec.
        assert (-1 <= inicio)%Z; [|lia].
        unfold inicio, find, index_or_minus1.
        destruct (find_from _ _ _); lia.
    + apply Z.ltb_ge in Ec. right. now left.
Qed.

(** X24: the state [main] writes is "Error", "Aprobada" or "Alerta",
    never "Rechazada", whatever decision the completion service gives.
    When the answer holds data with one of the seven keys, the state is
    "Aprobada" exactly when the data have the key "es_tratamiento_aij"
    with a value that counts as true (any text that is not empty does),
    and the decision of the data is copied as it is, so a decision
    "RECHAZADA" can stand beside the state "Aprobada". *)
Theorem main_estado :
  forall (json_loads : pystr -> resultado json) (json_dumps : json -> pystr)
         (str_contenedor : json -> pystr)
         (float_de_texto : pystr -> resultado float)
         env llm stdin r,
    main json_loads json_dumps str_contenedor float_de_texto env llm stdin
    = Devuelve r ->
    exists estado,
      campo "estado" r = Some (JStr estado)
      /\ (estado = u "Error" \/ estado = u "Aprobada" \/ estado = u "Alerta")
      /\ exists p respuesta valido,
           _read_payload json_loads stdin = JDict p
           /\ llm_call llm (prompt_de_main str_contenedor env p)
              = Devuelve respuesta
           /\ datos_validos
                (extraer_data json_loads
                   (_render_output json_dumps str_contenedor respuesta))
              = Devuelve valido
           /\ match valido with
              | None => estado = u "Error"
              | Some d =>
                (estado = u "Aprobada" <->
                 exists v, dict_get (u "es_tratamiento_aij") d = Some v
                           /\ verdad v = true)
                /\ campo "decision" r = Some (dict_get_o "decision" d)
              end.
Proof.
  intros loads dumps strc fdt env llm stdin r H.
  destruct (main_pasos _ _ _ _ _ _ _ _ H) as (p & respuesta & Hp & Hllm).
  rewrite (main_con_payload loads dumps strc fdt env llm stdin p respuesta
             Hp Hllm) in H.
  destruct (datos_validos _) as [valido|] eqn:Hv; [|discriminate].
  cbn [bind] in H. destruct valido as [d|].
  - destruct (procesar_data_estado _ _ _ _ _ _ H) as [He Hd].
    eexists. split; [exact He|]. split.
    + destruct (match dict_get (u "es_tratamiento_aij") d with
                | Some v => verdad v | None => false end); auto.
    + exists p, respuesta, (Some d). repeat (split; [assumption|]).
      split; [|exact Hd].
      destruct (dict_get (u "es_tratamiento_aij") d) as [v|].
      * destruct (verdad v) eqn:Ev; split.
        -- intros _. eauto.
        -- reflexivity.
        -- discriminate.
        -- intros (v' & [= <-] & Hv'). congruence.
      * split; [discriminate|]. intros (v' & Hv' & _). discriminate.
  - injection H as <-. exists (u "Error"). split; [reflexivity|].
    split; [auto|].
    exists p, respuesta, None. repeat (split; [assumption|]). reflexivity.
Qed.

(** No payload, no index, and an answer whose JSON has only the decision
    "RECHAZADA": the state is "Alerta". *)
Lemma main_rechazada_en_alerta :
  exists r,
    main json_loads_decision (fun _ => []) (fun _ => [])
      float_de_texto_ejemplo sin_indice
      (servicio_ejemplo (u "Respuesta: " ++ json_solo_decision)) []
    = Devuelve r
    /\ campo "estado" r = Some (JStr (u "Alerta"))
    /\ campo "decision" r = Some (JStr (u "RECHAZADA")).
Proof.
  eassert (E : main json_loads_decision (fun _ => []) (fun _ => [])
                 float_de_texto_ejemplo sin_indice
                 (servicio_ejemplo (u "Respuesta: " ++ json_solo_decision)) []
               = Devuelve _) by (vm_compute; reflexivity).
  destruct (main_estado _ _ _ _ _ _ _ _ E)
    as (estado & He & _ & p & respuesta & valido & _ & _ & _ & _).
  eexists. split; [exact E|]. split.
  - rewrite He. vm_compute in He. injection He as <-. reflexivity.
  - reflexivity.
Defined.

(** X25: once the payload is a dictionary and the completion service has
    answered, [main] writes the error dictionary, with the answer as
    "raw_output", exactly when the answer gives no usable data: no "{",
    no "}" after the first "{", a text between them that [json.loads]
    refuses or reads as a value that counts as false, or a dictionary
    with none of the seven keys. No exception leaves [main] in these
    cases, whatever the weight of the payload is. *)
Theorem main_error_payload :
  forall (json_loads : pystr -> resultado json) (json_dumps : json -> pystr)
         (str_contenedor : json -> pystr)
         (float_de_texto : pystr -> resultado float)
         env llm stdin p respuesta,
    _read_payload json_loads stdin = JDict p ->
    llm_call llm (prompt_de_main str_contenedor env p) = Devuelve respuesta ->
    (main json_loads json_dumps str_contenedor float_de_texto env llm stdin
     = Devuelve
         (error_payload (_render_output json_dumps str_contenedor respuesta))
     <-> sin_datos json_loads
           (_render_output json_dumps str_contenedor respuesta)).
Proof.
  intros loads dumps strc fdt env llm stdin p respuesta Hp Hllm.
  rewrite (main_con_payload loads dumps strc fdt env llm stdin p respuesta
             Hp Hllm).
  rewrite <- extraer_data_sin_datos.
  destruct (datos_validos _) as [[d|]|e]; cbn [bind]; split;
    try discriminate; try reflexivity.
  intros H. destruct (procesar_data_estado _ _ _ _ _ _ H) as [He _].
  exfalso. unfold error_payload, campo in He. cbn [dict_get] in He.
  destruct (match dict_get (u "es_tratamiento_aij") d with
            | Some v => verdad v | None => false end);
    vm_compute in He; discriminate He.
Qed.

(** An answer in plain words gives the error dictionary. *)
Lemma main_respuesta_sin_llaves :
  main json_loads_decision (fun _ => []) (fun _ => [])
    float_de_texto_ejemplo sin_indice
    (servicio_ejemplo (u "No puedo ayudar con eso.")) []
  = Devuelve (error_payload (u "No puedo ayudar con eso.")).
Proof.
  destruct (main_error_payload json_loads_decision (fun _ => [])
              (fun _ => []) float_de_texto_ejemplo sin_indice
              (servicio_ejemplo (u "No puedo ayudar con eso.")) [] []
              (JStr (u "No puedo ayudar con eso.")))
    as [_ H].
  - reflexivity.
  - reflexivity.
  - rewrite H; [reflexivity|]. left. vm_compute. reflexivity.
Defined.

(** X26: a payload that is JSON but not an object ends the program. When
    the text on the standard input is read by [json.loads] as a list, a
    number, a text, [true], [false] or [null], [_read_payload] returns
    that value, and the first [payload.get] of [main] raises the
    [AttributeError] that names its type; neither the guides nor the
    completion service are consulted. *)
Theorem main_payload_no_objeto :
  forall (json_loads : pystr -> resultado json) (json_dumps : json -> pystr)
         (str_contenedor : json -> pystr)
         (float_de_texto : pystr -> resultado float)
         env llm stdin v,
    no_vacio stdin = true ->
    json_loads stdin = Devuelve v ->
    (forall d, v <> JDict d) ->
    _read_payload json_loads stdin = v
    /\ main json_loads json_dumps str_contenedor float_de_texto env llm stdin
       = Lanza (sin_atributo_get v).
Proof.
  intros loads dumps strc fdt env llm stdin v Hs Hl Hv.
  assert (E : _read_payload loads stdin = v).
  { unfold _read_payload. rewrite Hs, Hl. reflexivity. }
  split; [exact E|]. unfold main. rewrite E. unfold get_o.
  destruct v as [| | | | | |d]; try reflexivity.
  exfalso. now apply (Hv d).
Qed.

(** The payload "[]". *)
Lemma main_payload_lista :
  main json_loads_decision (fun _ => []) (fun _ => [])
    float_de_texto_ejemplo sin_indice
    (servicio_ejemplo json_solo_decision) (u "[]")
  = Lanza (Excepcion (u "'list' object has no attribute 'get'")).
Proof.
  destruct (main_payload_no_objeto json_loads_decision (fun _ => [])
              (fun _ => []) float_de_texto_ejemplo sin_indice
              (servicio_ejemplo json_solo_decision) (u "[]") (JList []))
    as [_ H].
  - reflexivity.
  - vm_compute. reflexivity.
  - discriminate.
  - rewrite H. vm_compute. reflexivity.
Defined.

(** X27: the weight of the payload is converted only after the completion
    service has given usable data. A weight that is [null], a list or a
    dictionary then ends the program with the [TypeError] of [float],
    which names its type. *)
Theorem main_peso_sin_float :
  forall (json_loads : pystr -> resultado json) (json_dumps : json -> pystr)
         (str_contenedor : json -> pystr)
         (float_de_texto : pystr -> resultado float)
         env llm stdin p peso respuesta d,
    _read_payload json_loads stdin = JDict p ->
    dict_get (u "peso_paciente") p = Some peso ->
    peso_sin_float peso = true ->
    llm_call llm (prompt_de_main str_contenedor env p) = Devuelve respuesta ->
    extraer_data json_loads
      (_render_output json_dumps str_contenedor respuesta) = JDict d ->
    alguna_clave d = true ->
    main json_loads json_dumps str_contenedor float_de_texto env llm stdin
    = Lanza
        (Excepcion
           (u "float() argument must be a string or a real number, not '"
              ++ nombre_de_tipo peso ++ u "'")).
Proof.
  intros loads dumps strc fdt env llm stdin p peso respuesta d
         Hp Hpeso Hsin Hllm Hd Ha.
  rewrite (main_con_payload loads dumps strc fdt env llm stdin p respuesta
             Hp Hllm).
  rewrite Hd. unfold datos_validos.
  assert (Hv : verdad (JDict d) = true).
  { destruct d; [discriminate Ha|reflexivity]. }
  rewrite Hv, Ha. cbn [negb bind]. unfold entrada at 1. rewrite Hpeso.
  unfold procesar_data.
  destruct peso; try discriminate Hsin; reflexivity.
Qed.

(** The payload has the weight [null] and the answer a decision. *)
Lemma main_peso_nulo :
  main json_loads_peso_nulo (fun _ => []) (fun _ => [])
    float_de_texto_ejemplo sin_indice
    (servicio_ejemplo json_solo_decision) json_peso_nulo
  = Lanza
      (Excepcion
         (u "float() argument must be a string or a real number, not 'NoneType'")).
Proof.
  rewrite (main_peso_sin_float json_loads_peso_nulo (fun _ => [])
             (fun _ => []) float_de_texto_ejemplo sin_indice
             (servicio_ejemplo json_solo_decision) json_peso_nulo
             [(u "peso_paciente", JNone)] JNone (JStr json_solo_decision)
             [(u "decision", JStr (u "RECHAZADA"))]).
  - vm_compute. reflexivity.
  - vm_compute. reflexivity.
  - vm_compute. reflexivity.
  - reflexivity.
  - reflexivity.
  - vm_compute. reflexivity.
  - vm_compute. reflexivity.
Defined.
